(** * MDS-AI-Chatbot: conversation orchestration and streaming pipeline

    A shallow embedding of the chat controller
    (controllers/chat-controller.js), the conversation service
    (services/conversation-service.js), the emergency detector
    (middleware/emergency-detector.js), the safety rules
    (config/safety-rules.js), the streaming part of the LLaMA service
    (services/llama-service.js) and the handoff controller
    (controllers/handoff-controller.js), followed by the safety filter
    (middleware/safety-filter.js) with the chains of middleware of the
    message routes (routes/chat-routes.js), the staff's queries of the
    handoff controller and the prompt of the LLaMA service.

    Conventions of the embedding.
    - JavaScript strings are modelled as [string], restricted to code units
      below 256; [toLowerCase], [\s] and [trim] are written out on that range.
    - The relational store is a record of three tables, each a list of rows
      in insertion order; a query with [ORDER BY] sorts the rows it selects.
      [NOW()] and [Date.now()] read an explicit clock.
    - [async] code runs in a state-and-exception monad.  State written before
      a [throw] survives it, as in JavaScript.
    - A streaming turn suspends at every [await]; what the rest of the process
      does meanwhile (a cancel request, the client closing the connection,
      another streaming turn registering itself in [activeSessions] or
      removing an entry from it, time passing) is given by a schedule, one
      batch per suspension point.
    - The inference engine is a black box: a turn receives the reply (or the
      fragments) the engine produces for it.
    - The heartbeat timer of the streaming endpoint writes only [heartbeat]
      events and is not modelled. *)

From Stdlib Require Import ZArith Ascii String List Bool Lia Sorted Permutation.
From stdpp Require Import base option strings gmap.
Import ListNotations.
Local Open Scope string_scope.
Local Open Scope Z_scope.

(** ** JavaScript string primitives *)

Module Js.

Definition code (c : ascii) : N := N_of_ascii c.

Definition in_range (lo hi : N) (c : ascii) : bool :=
  (N.leb lo (code c) && N.leb (code c) hi)%bool.

(** [String.prototype.toLowerCase], per code unit. *)
Definition lower_char (c : ascii) : ascii :=
  if (in_range 65 90 c
      || (in_range 192 222 c && negb (N.eqb (code c) 215)))%bool
  then ascii_of_N (code c + 32) else c.

Fixpoint toLowerCase (s : string) : string :=
  match s with
  | EmptyString => EmptyString
  | String c s' => String (lower_char c) (toLowerCase s')
  end.

Fixpoint startsWith (s p : string) : bool :=
  match p, s with
  | EmptyString, _ => true
  | String a p', String b s' => (Ascii.eqb a b && startsWith s' p')%bool
  | String _ _, EmptyString => false
  end.

(** [s.includes(sub)]. *)
Fixpoint includes (s sub : string) : bool :=
  (startsWith s sub ||
   match s with
   | EmptyString => false
   | String _ s' => includes s' sub
   end)%bool.

(** White space as matched by [\s] and removed by [trim]. *)
Definition is_space (c : ascii) : bool :=
  (in_range 9 13 c || N.eqb (code c) 32 || N.eqb (code c) 160)%bool.

(** [\w]. *)
Definition is_word (c : ascii) : bool :=
  (in_range 48 57 c || in_range 65 90 c || in_range 97 122 c
   || N.eqb (code c) 95)%bool.

Fixpoint trimStart (s : string) : string :=
  match s with
  | EmptyString => EmptyString
  | String c s' => if is_space c then trimStart s' else s
  end.

Fixpoint trimEnd (s : string) : string :=
  match s with
  | EmptyString => EmptyString
  | String c s' =>
      match trimEnd s' with
      | EmptyString => if is_space c then EmptyString else String c EmptyString
      | t => String c t
      end
  end.

Definition trim (s : string) : string := trimEnd (trimStart s).

(** A letter of a pattern under the [i] flag. *)
Definition ci (a : ascii) (c : ascii) : bool :=
  Ascii.eqb (lower_char a) (lower_char c).

Fixpoint startsWith_ci (s p : string) : bool :=
  match p, s with
  | EmptyString, _ => true
  | String a p', String b s' => (ci a b && startsWith_ci s' p')%bool
  | String _ _, EmptyString => false
  end.

(** [s.replace(/p/gi, '')] for a literal, non-empty [p]: every occurrence,
    scanning left to right, none overlapping.  [skip] counts the characters
    of the current occurrence still to drop. *)
Fixpoint remove_ci_from (skip : nat) (p s : string) : string :=
  match s with
  | EmptyString => EmptyString
  | String c s' =>
      match skip with
      | S k => remove_ci_from k p s'
      | O =>
          if startsWith_ci s p
          then remove_ci_from (Nat.pred (String.length p)) p s'
          else String c (remove_ci_from O p s')
      end
  end.

Definition remove_ci (p s : string) : string := remove_ci_from O p s.

(** Truthiness of a string: the empty string is falsy. *)
Definition truthy (s : string) : bool :=
  match s with EmptyString => false | _ => true end.

End Js.

(** ** Regular expressions of the response validator

    The four diagnosis patterns use literals, [\s+], [\w+] and an
    alternation; [RegExp.prototype.test] asks whether some substring matches.
    Matching is by derivatives. *)

Module Regex.

Inductive regex : Type :=
| Void
| Eps
| Cls (p : ascii -> bool)
| Seq (r1 r2 : regex)
| Alt (r1 r2 : regex)
| Star (r : regex).

Definition Plus (r : regex) : regex := Seq r (Star r).

(** A literal under the [i] flag. *)
Fixpoint lit_ci (s : string) : regex :=
  match s with
  | EmptyString => Eps
  | String c s' => Seq (Cls (Js.ci c)) (lit_ci s')
  end.

Fixpoint nullable (r : regex) : bool :=
  match r with
  | Void => false
  | Eps => true
  | Cls _ => false
  | Seq r1 r2 => (nullable r1 && nullable r2)%bool
  | Alt r1 r2 => (nullable r1 || nullable r2)%bool
  | Star _ => true
  end.

Definition seq (r1 r2 : regex) : regex :=
  match r1, r2 with
  | Void, _ => Void
  | _, Void => Void
  | Eps, _ => r2
  | _, _ => Seq r1 r2
  end.

Definition alt (r1 r2 : regex) : regex :=
  match r1, r2 with
  | Void, _ => r2
  | _, Void => r1
  | _, _ => Alt r1 r2
  end.

Fixpoint deriv (c : ascii) (r : regex) : regex :=
  match r with
  | Void => Void
  | Eps => Void
  | Cls p => if p c then Eps else Void
  | Seq r1 r2 =>
      alt (seq (deriv c r1) r2) (if nullable r1 then deriv c r2 else Void)
  | Alt r1 r2 => alt (deriv c r1) (deriv c r2)
  | Star r1 => seq (deriv c r1) (Star r1)
  end.

(** Some prefix of [s] matches [r]. *)
Fixpoint matches_prefix (r : regex) (s : string) : bool :=
  (nullable r ||
   match s with
   | EmptyString => false
   | String c s' => matches_prefix (deriv c r) s'
   end)%bool.

(** [r.test(s)]: some substring of [s] matches [r]. *)
Fixpoint test (r : regex) (s : string) : bool :=
  (matches_prefix r s ||
   match s with
   | EmptyString => false
   | String _ s' => test r s'
   end)%bool.

End Regex.

(** ** config/safety-rules.js *)

Module SafetyRules.

Record canned := { title : option string; message : string }.

Definition emergencyKeywords : list string :=
  [ "chest pain"; "heart attack"; "can't breathe"; "difficulty breathing";
    "severe bleeding"; "choking"; "stroke"; "seizure"; "unconscious";
    "suicidal"; "kill myself"; "overdose"; "severe pain"; "anaphylaxis" ].

Definition urgentKeywords : list string :=
  [ "high fever"; "blood in stool"; "blood in urine"; "worsening";
    "severe vomiting"; "dehydrated"; "infection" ].

Definition prohibitedTopics : list string :=
  [ "abortion"; "euthanasia"; "drug synthesis"; "self-surgery" ].

Definition restrictedActions : list string :=
  [ "prescribe"; "diagnosis"; "stop taking medication" ].

Definition emergencyResponse : canned :=
  {| title := Some "EMERGENCY";
     message := "This may be a medical emergency. Call emergency services or go to the nearest ER immediately." |}.

Definition urgentResponse : canned :=
  {| title := Some "URGENT";
     message := "Your symptoms suggest you should seek medical care soon." |}.

Definition refusalResponse : canned :=
  {| title := None;
     message := "I cannot provide information on this topic. Please speak with a healthcare provider." |}.

Definition maxMessagesPerSession : nat := 50.
Definition maxSessionDurationHours : Z := 24.

End SafetyRules.

(** ** middleware/emergency-detector.js *)

Module EmergencyDetector.

Record emergency_detection := {
  isEmergency : bool;
  isUrgent : bool;
  priority : string;
  matchedKeywords : list string;
  response : option SafetyRules.canned
}.

(** The object [detectProhibitedTopic] returns; [refusal] is its field
    [response]. *)
Record prohibited_detection := {
  isProhibited : bool;
  matchedTopics : list string;
  refusal : option SafetyRules.canned
}.

Record validation := {
  isValid : bool;
  violations : list string;
  reason : option string
}.

(** [rules.filter(k => lower.includes(k.toLowerCase()))]. *)
Definition matching (rules : list string) (lower : string) : list string :=
  List.filter (fun k => Js.includes lower (Js.toLowerCase k)) rules.

Definition nonempty {A} (l : list A) : bool :=
  match l with [] => false | _ => true end.

Definition detectEmergency (message : string) : emergency_detection :=
  let lowerMessage := Js.toLowerCase message in
  let emergencyMatches := matching SafetyRules.emergencyKeywords lowerMessage in
  if nonempty emergencyMatches then
    {| isEmergency := true; isUrgent := false; priority := "emergency";
       matchedKeywords := emergencyMatches;
       response := Some SafetyRules.emergencyResponse |}
  else
    let urgentMatches := matching SafetyRules.urgentKeywords lowerMessage in
    if nonempty urgentMatches then
      {| isEmergency := false; isUrgent := true; priority := "urgent";
         matchedKeywords := urgentMatches;
         response := Some SafetyRules.urgentResponse |}
    else
      {| isEmergency := false; isUrgent := false; priority := "normal";
         matchedKeywords := []; response := None |}.

Definition detectProhibitedTopic (message : string) : prohibited_detection :=
  let lowerMessage := Js.toLowerCase message in
  let prohibitedMatches := matching SafetyRules.prohibitedTopics lowerMessage in
  if nonempty prohibitedMatches then
    {| isProhibited := true; matchedTopics := prohibitedMatches;
       refusal := Some SafetyRules.refusalResponse |}
  else
    {| isProhibited := false; matchedTopics := []; refusal := None |}.

Definition article : Regex.regex :=
  Regex.Alt (Regex.lit_ci "a") (Regex.Alt (Regex.lit_ci "an") (Regex.lit_ci "the")).

(** [<literal>\s+(?:a|an|the)\s+\w+], case-insensitive. *)
Definition statement_about (literal : string) : Regex.regex :=
  Regex.Seq (Regex.lit_ci literal)
    (Regex.Seq (Regex.Plus (Regex.Cls Js.is_space))
       (Regex.Seq article
          (Regex.Seq (Regex.Plus (Regex.Cls Js.is_space))
             (Regex.Plus (Regex.Cls Js.is_word))))).

Definition diagnosisPatterns : list Regex.regex :=
  [ statement_about "you have";
    statement_about "this is";
    Regex.lit_ci "you are suffering from";
    Regex.lit_ci "diagnosis is" ].

Definition validateResponse (response : string) : validation :=
  let lowerResponse := Js.toLowerCase response in
  let restrictedMatches := matching SafetyRules.restrictedActions lowerResponse in
  if nonempty restrictedMatches then
    {| isValid := false; violations := restrictedMatches;
       reason := Some "Response contains prohibited medical actions" |}
  else if List.existsb (fun pattern => Regex.test pattern response) diagnosisPatterns then
    {| isValid := false; violations := ["diagnostic language"];
       reason := Some "Response contains diagnostic statements" |}
  else
    {| isValid := true; violations := []; reason := None |}.

End EmergencyDetector.

(** ** Errors, JSON values and the monad of [async] functions *)

Module Err.

Record error := { name : string; message : string }.

(** [new Error(msg)]. *)
Definition Error (msg : string) : error := {| name := "Error"; message := msg |}.

(** Reading a property of [null]. *)
Definition TypeError (msg : string) : error :=
  {| name := "TypeError"; message := msg |}.

(** What axios rejects with when its request is aborted. *)
Definition CanceledError : error :=
  {| name := "CanceledError"; message := "canceled" |}.

(** A constraint violation reported by the store. *)
Definition DatabaseError (msg : string) : error :=
  {| name := "error"; message := msg |}.

End Err.

Inductive json : Type :=
| JBool (b : bool)
| JNum (n : Z)
| JStr (s : string).

(** An object used as a bag of flags: keys in insertion order. *)
Definition metadata : Type := list (string * json).

Fixpoint md_get (k : string) (md : metadata) : option json :=
  match md with
  | [] => None
  | (k', v) :: md' => if String.eqb k k' then Some v else md_get k md'
  end.

(** [md.k = v] on an object that has no key [k] yet. *)
Definition md_set (k : string) (v : json) (md : metadata) : metadata :=
  (md ++ [(k, v)])%list.

Module Async.

Definition M (S A : Type) : Type := S -> (Err.error + A) * S.

Definition ret {S A} (a : A) : M S A := fun s => (inr a, s).

Definition bind {S A B} (m : M S A) (k : A -> M S B) : M S B :=
  fun s =>
    match m s with
    | (inl e, s') => (inl e, s')
    | (inr a, s') => k a s'
    end.

Definition throw {S A} (e : Err.error) : M S A := fun s => (inl e, s).

(** [try { body } catch (error) { handler }] *)
Definition try_catch {S A} (body : M S A) (handler : Err.error -> M S A) : M S A :=
  fun s =>
    match body s with
    | (inl e, s') => handler e s'
    | (inr a, s') => (inr a, s')
    end.

Definition gets {S A} (f : S -> A) : M S A := fun s => (inr (f s), s).

Definition modify {S} (f : S -> S) : M S unit := fun s => (inr tt, f s).

(** Run a computation on a component of the state. *)
Definition zoom {S T A} (get : T -> S) (set : S -> T -> T) (m : M S A) : M T A :=
  fun t => let '(r, s') := m (get t) in (r, set s' t).

End Async.

Declare Scope async_scope.
Delimit Scope async_scope with async.
Notation "'let*' x := c 'in' k" := (Async.bind c (fun x => k))
  (at level 10, x pattern, c at level 100, k at level 200) : async_scope.
Notation "c ;; k" := (Async.bind c (fun _ => k))
  (at level 100, k at level 200, right associativity) : async_scope.

(** ** The relational store (scripts/setup-db.sql) *)

Inductive conv_status : Type := AiActive | StaffTaken | Closed.
Inductive role : Type := User | Assistant | System | Staff.
Inductive priority : Type := Emergency | High | Normal | Low.
Inductive handoff_status : Type := Pending | Assigned | Resolved.

Definition conv_status_eqb (a b : conv_status) : bool :=
  match a, b with
  | AiActive, AiActive | StaffTaken, StaffTaken | Closed, Closed => true
  | _, _ => false
  end.

Definition handoff_status_eqb (a b : handoff_status) : bool :=
  match a, b with
  | Pending, Pending | Assigned, Assigned | Resolved, Resolved => true
  | _, _ => false
  end.

Module Conv.
Record t := {
  id : nat;
  session_id : string;
  patient_id : option Z;
  status : conv_status;
  staff_id : option Z;
  created_at : Z;
  updated_at : Z;
  closed_at : option Z
}.
End Conv.

Module Msg.
Record t := {
  id : nat;
  conversation_id : nat;
  role : role;
  content : string;
  metadata : metadata;
  created_at : Z
}.
End Msg.

Module Handoff.
Record t := {
  id : nat;
  conversation_id : nat;
  reason : string;
  priority : priority;
  status : handoff_status;
  assigned_staff_id : option Z;
  assigned_at : option Z;
  resolved_at : option Z;
  created_at : Z
}.
End Handoff.

Record database := {
  ai_conversations : list Conv.t;
  ai_messages : list Msg.t;
  ai_handoff_requests : list Handoff.t
}.

Definition set_conversations (cs : list Conv.t) (d : database) : database :=
  {| ai_conversations := cs;
     ai_messages := ai_messages d;
     ai_handoff_requests := ai_handoff_requests d |}.

Definition set_messages (ms : list Msg.t) (d : database) : database :=
  {| ai_conversations := ai_conversations d;
     ai_messages := ms;
     ai_handoff_requests := ai_handoff_requests d |}.

Definition set_handoffs (hs : list Handoff.t) (d : database) : database :=
  {| ai_conversations := ai_conversations d;
     ai_messages := ai_messages d;
     ai_handoff_requests := hs |}.

(** [UPDATE t SET ... WHERE p]: the rows changed are the ones returned. *)
Definition sql_update {A} (p : A -> bool) (f : A -> A) (rows : list A) : list A :=
  List.map (fun r => if p r then f r else r) rows.

Definition sql_returning {A} (p : A -> bool) (f : A -> A) (rows : list A) : list A :=
  List.map f (List.filter p rows).

(** [ORDER BY]: [before x y] when [x] may come before [y].  A row is put in
    front of the first row it may come before, so that with a reflexive
    [before] rows with equal keys keep the order of the table, and with an
    irreflexive one they come in the opposite order.  The store leaves that
    order open. *)
Fixpoint sql_insert {A} (before : A -> A -> bool) (x : A) (rows : list A) : list A :=
  match rows with
  | [] => [x]
  | y :: rows' => if before x y then x :: rows else y :: sql_insert before x rows'
  end.

Definition sql_order_by {A} (before : A -> A -> bool) (rows : list A) : list A :=
  List.fold_right (sql_insert before) [] rows.

(** The next value of a SERIAL column. *)
Definition next_id {A} (rows : list A) : nat := S (List.length rows).

(** ** services/conversation-service.js

    Every function takes the value [now] that [NOW()] and [new Date()] have
    while it runs and is a computation on the store. *)

Module ConversationService.

Import Async.
Local Open Scope async_scope.

Definition by_session (sessionId : string) (c : Conv.t) : bool :=
  String.eqb (Conv.session_id c) sessionId.

Definition by_id (conversationId : nat) (c : Conv.t) : bool :=
  Nat.eqb (Conv.id c) conversationId.

Definition of_conversation (conversationId : nat) (m : Msg.t) : bool :=
  Nat.eqb (Msg.conversation_id m) conversationId.

Definition touch (now : Z) (c : Conv.t) : Conv.t :=
  {| Conv.id := Conv.id c; Conv.session_id := Conv.session_id c;
     Conv.patient_id := Conv.patient_id c; Conv.status := Conv.status c;
     Conv.staff_id := Conv.staff_id c; Conv.created_at := Conv.created_at c;
     Conv.updated_at := now; Conv.closed_at := Conv.closed_at c |}.

Definition set_status (now : Z) (status : conv_status) (staffId : option Z)
    (c : Conv.t) : Conv.t :=
  {| Conv.id := Conv.id c; Conv.session_id := Conv.session_id c;
     Conv.patient_id := Conv.patient_id c; Conv.status := status;
     Conv.staff_id := staffId; Conv.created_at := Conv.created_at c;
     Conv.updated_at := now; Conv.closed_at := Conv.closed_at c |}.

Definition set_closed (now : Z) (c : Conv.t) : Conv.t :=
  {| Conv.id := Conv.id c; Conv.session_id := Conv.session_id c;
     Conv.patient_id := Conv.patient_id c; Conv.status := Closed;
     Conv.staff_id := Conv.staff_id c; Conv.created_at := Conv.created_at c;
     Conv.updated_at := now; Conv.closed_at := Some now |}.

(** [SELECT * FROM ai_conversations WHERE session_id = $1], first row. *)
Definition getConversation (sessionId : string) (d : database) : option Conv.t :=
  List.find (by_session sessionId) (ai_conversations d).

(** The INSERT fails on the foreign key when no conversation has the id. *)
Definition addMessage (now : Z) (conversationId : nat) (r : role)
    (content : string) (md : metadata) : M database Msg.t :=
  fun d =>
    if List.existsb (by_id conversationId) (ai_conversations d) then
      let row := {| Msg.id := next_id (ai_messages d);
                    Msg.conversation_id := conversationId;
                    Msg.role := r; Msg.content := content;
                    Msg.metadata := md; Msg.created_at := now |} in
      (inr row,
       set_conversations
         (sql_update (by_id conversationId) (touch now) (ai_conversations d))
         (set_messages (ai_messages d ++ [row])%list d))
    else
      (inl (Err.DatabaseError "violates foreign key constraint"), d).

(** [ORDER BY created_at ASC]. *)
Definition created_asc (a b : Msg.t) : bool :=
  Z.leb (Msg.created_at a) (Msg.created_at b).

(** [ORDER BY created_at DESC]. *)
Definition created_desc (a b : Msg.t) : bool :=
  Z.ltb (Msg.created_at b) (Msg.created_at a).

(** [WHERE conversation_id = $1 ORDER BY created_at ASC LIMIT $2]. *)
Definition getHistory (sessionId : string) (limit : nat) : M database (list Msg.t) :=
  fun d =>
    match getConversation sessionId d with
    | None => (inl (Err.Error "Conversation not found"), d)
    | Some conversation =>
        (inr (List.firstn limit
                (sql_order_by created_asc
                   (List.filter (of_conversation (Conv.id conversation))
                      (ai_messages d)))),
         d)
    end.

Definition not_greeting (m : Msg.t) : bool :=
  match md_get "isGreeting" (Msg.metadata m) with
  | None => true
  | Some _ => false
  end.

(** [WHERE conversation_id = $1 AND metadata->>'isGreeting' IS NULL
    ORDER BY created_at DESC LIMIT $2], then [result.rows.reverse()]. *)
Definition getContextMessages (sessionId : string) (maxMessages : nat)
  : M database (list (role * string)) :=
  fun d =>
    match getConversation sessionId d with
    | None => (inr [], d)
    | Some conversation =>
        let rows :=
          List.firstn maxMessages
            (sql_order_by created_desc
               (List.filter
                  (fun m => (of_conversation (Conv.id conversation) m
                             && not_greeting m)%bool)
                  (ai_messages d))) in
        (inr (List.map (fun row => (Msg.role row, Msg.content row)) (List.rev rows)), d)
    end.

Definition updateStatus (now : Z) (sessionId : string) (status : conv_status)
    (staffId : option Z) : M database (option Conv.t) :=
  fun d =>
    (inr (List.head (sql_returning (by_session sessionId)
                       (set_status now status staffId) (ai_conversations d))),
     set_conversations
       (sql_update (by_session sessionId) (set_status now status staffId)
          (ai_conversations d)) d).

Definition closeConversation (now : Z) (sessionId : string)
  : M database (option Conv.t) :=
  fun d =>
    (inr (List.head (sql_returning (by_session sessionId)
                       (set_closed now) (ai_conversations d))),
     set_conversations
       (sql_update (by_session sessionId) (set_closed now) (ai_conversations d)) d).

Record limits := {
  exceeded : bool;
  reason : option string;
  messageCount : option nat
}.

Definition msPerHour : Z := 1000 * 60 * 60.

Definition checkLimits (now : Z) (sessionId : string) : M database limits :=
  fun d =>
    match getConversation sessionId d with
    | None =>
        (inr {| exceeded := true; reason := Some "Conversation not found";
                messageCount := None |}, d)
    | Some conversation =>
        let messageCount :=
          List.length (List.filter (of_conversation (Conv.id conversation))
                         (ai_messages d)) in
        if Nat.leb SafetyRules.maxMessagesPerSession messageCount then
          (inr {| exceeded := true; reason := Some "Maximum messages reached";
                  messageCount := None |}, d)
        else if Z.leb (SafetyRules.maxSessionDurationHours * msPerHour)
                      (now - Conv.created_at conversation) then
          (inr {| exceeded := true;
                  reason := Some "Maximum session duration reached";
                  messageCount := None |}, d)
        else
          (inr {| exceeded := false; reason := None;
                  messageCount := Some messageCount |}, d)
    end.

Record session := {
  sessionId : string;
  conversationId : nat;
  status : conv_status;
  createdAt : Z
}.

Definition greeting (safetyMode : bool) : string :=
  if safetyMode then
    "Hello! I'm your AI medical assistant. How can I help you today?

You can ask me about general health questions, symptom information, or wellness tips.

Note: I provide general health information only, not professional medical advice."
  else "Hello! How can I help you today?".

(** [sessionId] is the identifier [uuidv4()] returned; the column is UNIQUE. *)
Definition createSession (safetyMode : bool) (now : Z) (sessionId : string)
    (patientId : option Z) : M database session :=
  let* row :=
    (fun d =>
       if List.existsb (by_session sessionId) (ai_conversations d) then
         (inl (Err.DatabaseError "violates unique constraint"), d)
       else
         let row := {| Conv.id := next_id (ai_conversations d);
                       Conv.session_id := sessionId;
                       Conv.patient_id := patientId; Conv.status := AiActive;
                       Conv.staff_id := None; Conv.created_at := now;
                       Conv.updated_at := now; Conv.closed_at := None |} in
         (inr row, set_conversations (ai_conversations d ++ [row])%list d)) in
  addMessage now (Conv.id row) Assistant (greeting safetyMode)
    [("isGreeting", JBool true)] ;;
  ret {| sessionId := sessionId; conversationId := Conv.id row;
         status := Conv.status row; createdAt := Conv.created_at row |}.

End ConversationService.

(** ** services/llama-service.js: the Inference Client *)

Module LlamaService.

Import Async.
Local Open Scope async_scope.

Record ai_response := {
  content : string;
  tokens : Z;
  duration : Z;
  model : string
}.

(** The four [replace] calls and the [trim] applied to generated text. *)
Definition strip_control_tokens (text : string) : string :=
  Js.trim
    (Js.remove_ci "<|end|>"
       (Js.remove_ci "<|system|>"
          (Js.remove_ci "<|user|>"
             (Js.remove_ci "<|assistant|>" text)))).

(** What the engine does with one blocking completion request: the call
    fails (server down, connection refused, timeout), or [response.data]
    arrives after [latency] milliseconds. *)
Inductive engine_reply : Type :=
| Unavailable (e : Err.error)
| Completion (data_content : string) (tokens_predicted : Z) (latency : N).

Definition generateResponse (reply : engine_reply) : Err.error + ai_response :=
  match reply with
  | Unavailable e => inl e
  | Completion data_content tokens_predicted latency =>
      if Js.truthy data_content then
        inr {| content := strip_control_tokens data_content;
               tokens := tokens_predicted;
               duration := Z.of_N latency;
               model := "llama-3-8b-instruct" |}
      else inl (Err.Error "Invalid response from LLaMA server")
  end.

(** What the engine does with one streamed completion request: the request
    fails, or the response stream delivers the [content] fields of its data
    lines and then ends with a [stop] line, by closing, or with an error. *)
Inductive stream_end : Type :=
| Stop
| EndOfStream
| StreamFailure (e : Err.error).

Inductive engine_stream : Type :=
| Refused (e : Err.error)
| Stream (fragments : list string) (finish : stream_end).

Section Streaming.

Context {S : Type}.

(** Suspend until the next event of the request; [true] when
    [options.signal] has fired by then. *)
Variable wait : M S bool.
Variable onToken : string -> M S unit.
Variable now : M S Z.

(** The ['data'] handler.  The abort listener rejects with
    [new Error('AbortError')], an error whose name is ["Error"]. *)
Fixpoint read_stream (fragments : list string) (fullContent : string)
    (tokenCount : Z) : M S (string * Z) :=
  match fragments with
  | [] => ret (fullContent, tokenCount)
  | data_content :: rest =>
      let* fired := wait in
      if (fired : bool) then throw (Err.Error "AbortError")
      else if Js.truthy data_content then
        onToken data_content ;;
        read_stream rest (fullContent ++ data_content) (tokenCount + 1)
      else read_stream rest fullContent tokenCount
  end.

Definition generateStreamingResponse (stream : engine_stream) : M S ai_response :=
  let* startTime := now in
  let* fired := wait in
  if (fired : bool) then throw Err.CanceledError
  else
    match stream with
    | Refused e => throw e
    | Stream fragments finish =>
        let* (fullContent, tokenCount) := read_stream fragments "" 0 in
        let* fired := wait in
        if (fired : bool) then throw (Err.Error "AbortError")
        else
          let* endTime := now in
          let cleanedContent := strip_control_tokens fullContent in
          let result := {| content := cleanedContent; tokens := tokenCount;
                           duration := endTime - startTime;
                           model := "llama-3-8b-instruct" |} in
          match finish with
          | Stop => ret result
          | EndOfStream =>
              if Js.truthy cleanedContent then ret result
              else throw (Err.Error "Empty response from streaming")
          | StreamFailure e => throw e
          end
    end.

End Streaming.

End LlamaService.

(** ** controllers/chat-controller.js *)

Module SessionData.
Record t := { abortController : nat; isCancelled : bool }.
End SessionData.

Module ChatController.

Import Async.
Local Open Scope async_scope.

(** The state of the process: the store, the clock, [this.activeSessions],
    the AbortControllers allocated so far (numbered from 0) with the set of
    those whose signal has fired, and the context of every invocation of the
    Inference Client, oldest first. *)
Record world := {
  db : database;
  clock : Z;
  activeSessions : gmap string SessionData.t;
  aborted : gset nat;
  controllers : nat;
  engineLog : list (list (role * string))
}.

Definition set_db (d : database) (w : world) : world :=
  {| db := d; clock := clock w; activeSessions := activeSessions w;
     aborted := aborted w; controllers := controllers w;
     engineLog := engineLog w |}.

Definition set_clock (c : Z) (w : world) : world :=
  {| db := db w; clock := c; activeSessions := activeSessions w;
     aborted := aborted w; controllers := controllers w;
     engineLog := engineLog w |}.

Definition set_activeSessions (m : gmap string SessionData.t) (w : world) : world :=
  {| db := db w; clock := clock w; activeSessions := m;
     aborted := aborted w; controllers := controllers w;
     engineLog := engineLog w |}.

Definition set_aborted (a : gset nat) (w : world) : world :=
  {| db := db w; clock := clock w; activeSessions := activeSessions w;
     aborted := a; controllers := controllers w; engineLog := engineLog w |}.

Definition set_controllers (n : nat) (w : world) : world :=
  {| db := db w; clock := clock w; activeSessions := activeSessions w;
     aborted := aborted w; controllers := n; engineLog := engineLog w |}.

Definition set_engineLog (l : list (list (role * string))) (w : world) : world :=
  {| db := db w; clock := clock w; activeSessions := activeSessions w;
     aborted := aborted w; controllers := controllers w; engineLog := l |}.

(** [abortController.abort()]. *)
Definition abort (c : nat) (w : world) : world :=
  set_aborted ({[ c ]} ∪ aborted w) w.

Definition signal_fired (c : nat) (w : world) : bool :=
  bool_decide (c ∈ aborted w).

(** A query against the store, at the current time. *)
Definition query {A} (q : Z -> M database A) : M world A :=
  fun w => let '(r, d) := q (clock w) (db w) in (r, set_db d w).

Inductive body : Type :=
| ErrorBody (error : string)
| ReplyBody (sessionId message : string) (r : role) (md : metadata) (timestamp : Z)
| SuccessBody (message : string)
| HistoryBody (sessionId : string) (messages : list Msg.t) (count : nat).

Record response := { code : nat; payload : body }.

Definition json (b : body) : response := {| code := 200; payload := b |}.
Definition status_json (c : nat) (b : body) : response := {| code := c; payload := b |}.

Record request := {
  sessionId : string;
  message : string;
  emergencyDetection : option EmergencyDetector.emergency_detection;
  prohibitedDetection : option EmergencyDetector.prohibited_detection
}.

(** [emergencyDetectorMiddleware]: attaches both detections to the request
    when the message is a non-empty string. *)
Definition emergencyDetectorMiddleware (req : request) : request :=
  if Js.truthy (message req) then
    {| sessionId := sessionId req; message := message req;
       emergencyDetection := Some (EmergencyDetector.detectEmergency (message req));
       prohibitedDetection := Some (EmergencyDetector.detectProhibitedTopic (message req)) |}
  else req.

(** [detection.response.message]; throws when [response] is [null]. *)
Definition response_message {S} (r : option SafetyRules.canned) : M S string :=
  match r with
  | Some c => ret (SafetyRules.message c)
  | None => throw (Err.TypeError "Cannot read properties of null (reading 'message')")
  end.

Definition deflection : string :=
  "I apologize, but I cannot provide a proper response to that. " ++
  "Please consult with a healthcare professional for appropriate guidance.".

Definition blank_line : string := String "010" (String "010" EmptyString).

Definition cancelGeneration (sessionId : string) (w : world) : response * world :=
  if negb (Js.truthy sessionId) then
    (status_json 400 (ErrorBody "BAD_REQUEST"), w)
  else
    match activeSessions w !! sessionId with
    | None => (json (SuccessBody "No active generation to cancel"), w)
    | Some sessionData =>
        (json (SuccessBody "Generation cancelled successfully"),
         abort (SessionData.abortController sessionData)
           (set_activeSessions
              (<[ sessionId :=
                    {| SessionData.abortController :=
                         SessionData.abortController sessionData;
                       SessionData.isCancelled := true |} ]> (activeSessions w))
              w))
    end.

(** The INSERT fails on the foreign key when no conversation has the id. *)
Definition createHandoffRequest (conversationId : nat) (reason : string)
    (p : priority) : M world Handoff.t :=
  query (fun now d =>
    if List.existsb (ConversationService.by_id conversationId) (ai_conversations d) then
      let row := {| Handoff.id := next_id (ai_handoff_requests d);
                    Handoff.conversation_id := conversationId;
                    Handoff.reason := reason; Handoff.priority := p;
                    Handoff.status := Pending;
                    Handoff.assigned_staff_id := None;
                    Handoff.assigned_at := None; Handoff.resolved_at := None;
                    Handoff.created_at := now |} in
      (inr row, set_handoffs (ai_handoff_requests d ++ [row])%list d)
    else (inl (Err.DatabaseError "violates foreign key constraint"), d)).

(** [llamaService.generateResponse(contextMessages)]: the invocation is
    logged, the clock advances by the latency of the reply. *)
Definition generateResponse (contextMessages : list (role * string))
    (reply : LlamaService.engine_reply) : M world LlamaService.ai_response :=
  modify (fun w => set_engineLog (engineLog w ++ [contextMessages])%list w) ;;
  match reply with
  | LlamaService.Completion _ _ latency =>
      modify (fun w => set_clock (clock w + Z.of_N latency) w)
  | LlamaService.Unavailable _ => ret tt
  end ;;
  match LlamaService.generateResponse reply with
  | inl e => throw e
  | inr aiResponse => ret aiResponse
  end.

Definition sendMessage_try (safetyMode : bool) (req : request)
    (reply : LlamaService.engine_reply) : M world response :=
  let sessionId := sessionId req in
  let message := message req in
  let* conversation := query (fun _ => gets (ConversationService.getConversation sessionId)) in
  match conversation with
  | None => ret (status_json 404 (ErrorBody "NOT_FOUND"))
  | Some conversation =>
    if conv_status_eqb (Conv.status conversation) StaffTaken then
      ret (status_json 403 (ErrorBody "FORBIDDEN"))
    else
    let* limitsCheck := query (fun now => ConversationService.checkLimits now sessionId) in
    if ConversationService.exceeded limitsCheck then
      ret (status_json 429 (ErrorBody "RATE_LIMITED"))
    else
    query (fun now => ConversationService.addMessage now (Conv.id conversation) User message []) ;;
    if negb safetyMode then
      (* FAST MODE: Skip all safety processing *)
      let* contextMessages := query (fun _ => ConversationService.getContextMessages sessionId 10) in
      let* aiResponse := generateResponse contextMessages reply in
      query (fun now =>
        ConversationService.addMessage now (Conv.id conversation) Assistant
          (LlamaService.content aiResponse)
          [("tokens", JNum (LlamaService.tokens aiResponse));
           ("duration", JNum (LlamaService.duration aiResponse));
           ("fastMode", JBool true)]) ;;
      let* timestamp := gets clock in
      ret (json (ReplyBody sessionId (LlamaService.content aiResponse) Assistant
                   [("tokens", JNum (LlamaService.tokens aiResponse));
                    ("duration", JNum (LlamaService.duration aiResponse))]
                   timestamp))
    else
    (* SAFETY MODE: Full emergency/prohibited detection *)
    let emergencyDetection :=
      default (EmergencyDetector.detectEmergency message) (emergencyDetection req) in
    let prohibitedDetection :=
      default (EmergencyDetector.detectProhibitedTopic message) (prohibitedDetection req) in
    if EmergencyDetector.isEmergency emergencyDetection then
      let* emergencyMessage := response_message (EmergencyDetector.response emergencyDetection) in
      query (fun now =>
        ConversationService.addMessage now (Conv.id conversation) Assistant emergencyMessage
          [("safetyOverride", JBool true); ("emergencyResponse", JBool true);
           ("priority", JStr "emergency")]) ;;
      createHandoffRequest (Conv.id conversation) "emergency" Emergency ;;
      let* timestamp := gets clock in
      ret (json (ReplyBody sessionId emergencyMessage Assistant [] timestamp))
    else if EmergencyDetector.isProhibited prohibitedDetection then
      let* refusalMessage := response_message (EmergencyDetector.refusal prohibitedDetection) in
      query (fun now =>
        ConversationService.addMessage now (Conv.id conversation) Assistant refusalMessage
          [("safetyOverride", JBool true); ("refusal", JBool true)]) ;;
      let* timestamp := gets clock in
      ret (json (ReplyBody sessionId refusalMessage Assistant [] timestamp))
    else
    let* contextMessages := query (fun _ => ConversationService.getContextMessages sessionId 10) in
    let* aiResponse := generateResponse contextMessages reply in
    let validation := EmergencyDetector.validateResponse (LlamaService.content aiResponse) in
    let finalResponse := LlamaService.content aiResponse in
    let responseMetadata :=
      [("tokens", JNum (LlamaService.tokens aiResponse));
       ("duration", JNum (LlamaService.duration aiResponse))] in
    let (finalResponse, responseMetadata) :=
      if negb (EmergencyDetector.isValid validation)
      then (deflection, md_set "safetyOverride" (JBool true) responseMetadata)
      else (finalResponse, responseMetadata) in
    let* (finalResponse, responseMetadata) :=
      if EmergencyDetector.isUrgent emergencyDetection then
        let* advisory := response_message (EmergencyDetector.response emergencyDetection) in
        ret (advisory ++ blank_line ++ finalResponse,
             md_set "urgentGuidance" (JBool true) responseMetadata)
      else ret (finalResponse, responseMetadata) in
    query (fun now =>
      ConversationService.addMessage now (Conv.id conversation) Assistant
        finalResponse responseMetadata) ;;
    let* timestamp := gets clock in
    ret (json (ReplyBody sessionId finalResponse Assistant responseMetadata timestamp))
  end.

(** [sendMessage]: the [try] block above; any error is answered with 500. *)
Definition sendMessage (safetyMode : bool) (req : request)
    (reply : LlamaService.engine_reply) (w : world) : response * world :=
  match sendMessage_try safetyMode req reply w with
  | (inr r, w') => (r, w')
  | (inl _, w') => (status_json 500 (ErrorBody "INTERNAL_ERROR"), w')
  end.

Definition getHistory (sessionId : string) (w : world) : response * world :=
  match query (fun _ => ConversationService.getHistory sessionId 50) w with
  | (inr history, w') =>
      (json (HistoryBody sessionId history (List.length history)), w')
  | (inl _, w') => (status_json 500 (ErrorBody "INTERNAL_ERROR"), w')
  end.

Definition closeSession (sessionId : string) (w : world) : response * world :=
  match query (fun now => ConversationService.closeConversation now sessionId) w with
  | (inr _, w') => (json (SuccessBody "Conversation closed successfully"), w')
  | (inl _, w') => (status_json 500 (ErrorBody "INTERNAL_ERROR"), w')
  end.

(** *** The streaming endpoint *)

Inductive sse : Type :=
| EvStart (sessionId : string) (timestamp : Z)
| EvToken (token content : string)
| EvDone (sessionId message : string) (md : metadata) (timestamp : Z)
| EvError (error : string).

(** What the rest of the process does while a turn is suspended: time
    passes, a cancel request is served, the client of the turn closes its
    connection, another invocation of [sendMessageStream] registers itself
    under a session, or one removes the entry of a session as it ends. *)
Inductive ext : Type :=
| Elapse (ms : N)
| CancelRequest (sessionId : string)
| ClientClose
| StreamOpened (sessionId : string)
| StreamEnded (sessionId : string).

(** One invocation of [sendMessageStream]: the process, the variables of
    its closure, the state of [res] and the events written to it, and the
    batches of outside events still to come, one per suspension point. *)
Record turn := {
  process : world;
  session : string;
  abortController : nat;
  isCancelled : bool;
  fullContent : string;
  writableEnded : bool;
  written : list sse;
  schedule : list (list ext)
}.

Definition set_process (w : world) (t : turn) : turn :=
  {| process := w; session := session t; abortController := abortController t;
     isCancelled := isCancelled t; fullContent := fullContent t;
     writableEnded := writableEnded t; written := written t;
     schedule := schedule t |}.

Definition set_isCancelled (b : bool) (t : turn) : turn :=
  {| process := process t; session := session t;
     abortController := abortController t;
     isCancelled := b; fullContent := fullContent t;
     writableEnded := writableEnded t; written := written t;
     schedule := schedule t |}.

Definition set_fullContent (s : string) (t : turn) : turn :=
  {| process := process t; session := session t;
     abortController := abortController t;
     isCancelled := isCancelled t; fullContent := s;
     writableEnded := writableEnded t; written := written t;
     schedule := schedule t |}.

Definition set_writableEnded (b : bool) (t : turn) : turn :=
  {| process := process t; session := session t;
     abortController := abortController t;
     isCancelled := isCancelled t; fullContent := fullContent t;
     writableEnded := b; written := written t; schedule := schedule t |}.

Definition set_written (l : list sse) (t : turn) : turn :=
  {| process := process t; session := session t;
     abortController := abortController t;
     isCancelled := isCancelled t; fullContent := fullContent t;
     writableEnded := writableEnded t; written := l; schedule := schedule t |}.

Definition set_schedule (l : list (list ext)) (t : turn) : turn :=
  {| process := process t; session := session t;
     abortController := abortController t;
     isCancelled := isCancelled t; fullContent := fullContent t;
     writableEnded := writableEnded t; written := written t; schedule := l |}.

Definition in_process {A} (m : M world A) : M turn A :=
  zoom process set_process m.

(** The [req.on('close', ...)] handler. *)
Definition on_close (t : turn) : turn :=
  let t :=
    match activeSessions (process t) !! session t with
    | Some sessionData =>
        if SessionData.isCancelled sessionData then set_isCancelled true t else t
    | None => t
    end in
  if writableEnded t then t
  else set_process (abort (abortController t) (process t)) (set_isCancelled true t).

(** [new AbortController()] and [this.activeSessions.set(sessionId, ...)]:
    the entry that the session had, if any, is replaced. *)
Definition register (sessionId : string) (w : world) : world :=
  set_activeSessions
    (<[ sessionId :=
          {| SessionData.abortController := controllers w;
             SessionData.isCancelled := false |} ]> (activeSessions w))
    (set_controllers (S (controllers w)) w).

(** [this.activeSessions.delete(sessionId)]. *)
Definition deregister (sessionId : string) (w : world) : world :=
  set_activeSessions (delete sessionId (activeSessions w)) w.

Definition deliver (e : ext) (t : turn) : turn :=
  match e with
  | Elapse ms => set_process (set_clock (clock (process t) + Z.of_N ms) (process t)) t
  | CancelRequest sessionId => set_process (snd (cancelGeneration sessionId (process t))) t
  | ClientClose => on_close t
  | StreamOpened sessionId => set_process (register sessionId (process t)) t
  | StreamEnded sessionId => set_process (deregister sessionId (process t)) t
  end.

Definition fired (t : turn) : bool := signal_fired (abortController t) (process t).

Fixpoint deliver_all (batch : list ext) (t : turn) : turn :=
  match batch with
  | [] => t
  | e :: rest => deliver_all rest (deliver e t)
  end.

(** Rejection on abort resumes the turn before any later outside event. *)
Fixpoint deliver_until_abort (batch : list ext) (t : turn) : turn :=
  match batch with
  | [] => t
  | e :: rest =>
      let t' := deliver e t in
      if fired t' then t' else deliver_until_abort rest t'
  end.

Definition next_batch (t : turn) : list ext * turn :=
  match schedule t with
  | [] => ([], t)
  | batch :: rest => (batch, set_schedule rest t)
  end.

(** [await] on a call of the conversation service or the store. *)
Definition await {A} (m : M world A) : M turn A :=
  modify (fun t => let '(batch, t') := next_batch t in deliver_all batch t') ;;
  in_process m.

(** Waiting for the next event of the engine request under [signal]. *)
Definition wait_engine : M turn bool :=
  fun t =>
    if fired t then (inr true, t)
    else
      let '(batch, t') := next_batch t in
      let t'' := deliver_until_abort batch t' in
      (inr (fired t''), t'').

Definition sendEvent (e : sse) : M turn unit :=
  modify (fun t =>
    if (negb (isCancelled t) && negb (writableEnded t))%bool
    then set_written (written t ++ [e])%list t else t).

Definition res_end : M turn unit := modify (set_writableEnded true).

Definition now : M turn Z := gets (fun t => clock (process t)).

(** The token callback handed to [generateStreamingResponse]. *)
Definition onToken (token : string) : M turn unit :=
  let* cancelled := gets isCancelled in
  if (cancelled : bool) then ret tt
  else
    modify (fun t => set_fullContent (fullContent t ++ token) t) ;;
    let* content := gets fullContent in
    sendEvent (EvToken token content).

Definition generateStreamingResponse (contextMessages : list (role * string))
    (stream : LlamaService.engine_stream) : M turn LlamaService.ai_response :=
  in_process (modify (fun w => set_engineLog (engineLog w ++ [contextMessages])%list w)) ;;
  LlamaService.generateStreamingResponse wait_engine onToken now stream.

Definition delete_session : M turn unit :=
  let* sessionId := gets session in
  in_process (modify (fun w => set_activeSessions (delete sessionId (activeSessions w)) w)).

Definition reject_with (error : string) : M turn unit :=
  sendEvent (EvError error) ;; res_end.

(** Persist the generated turn and announce it, unless cancelled. *)
Definition finish_turn (conversationId : nat) (sessionId content : string)
    (stored announced : metadata) : M turn unit :=
  let* cancelled := gets isCancelled in
  if (cancelled : bool) then ret tt
  else
    await (query (fun now =>
      ConversationService.addMessage now conversationId Assistant content stored)) ;;
    let* timestamp := now in
    sendEvent (EvDone sessionId content announced timestamp).

(** Persist a canned reply and stream it as a single token. *)
Definition short_circuit (sessionId canned : string) (announced : metadata) : M turn unit :=
  let* timestamp := now in
  sendEvent (EvStart sessionId timestamp) ;;
  sendEvent (EvToken canned canned) ;;
  let* timestamp := now in
  sendEvent (EvDone sessionId canned announced timestamp) ;;
  res_end.

(** The FAST MODE block of [sendMessageStream]. *)
Definition stream_fast (conversation : Conv.t) (sessionId : string)
    (stream : LlamaService.engine_stream) : M turn unit :=
  let* contextMessages := await (query (fun _ => ConversationService.getContextMessages sessionId 10)) in
  let* timestamp := now in
  sendEvent (EvStart sessionId timestamp) ;;
  modify (set_fullContent "") ;;
  let* aiResponse := generateStreamingResponse contextMessages stream in
  finish_turn (Conv.id conversation) sessionId (LlamaService.content aiResponse)
    [("tokens", JNum (LlamaService.tokens aiResponse));
     ("duration", JNum (LlamaService.duration aiResponse));
     ("fastMode", JBool true); ("streamed", JBool true)]
    [] ;;
  res_end.

(** The block under [if (emergencyDetection.isEmergency)]. *)
Definition stream_emergency (conversation : Conv.t) (sessionId : string)
    (emergencyDetection : EmergencyDetector.emergency_detection) : M turn unit :=
  let* emergencyMessage := response_message (EmergencyDetector.response emergencyDetection) in
  await (query (fun now =>
    ConversationService.addMessage now (Conv.id conversation) Assistant emergencyMessage
      [("safetyOverride", JBool true); ("emergencyResponse", JBool true);
       ("priority", JStr "emergency")])) ;;
  await (createHandoffRequest (Conv.id conversation) "emergency" Emergency) ;;
  short_circuit sessionId emergencyMessage
    [("isEmergency", JBool true); ("priority", JStr "emergency");
     ("handoffCreated", JBool true)].

(** The block under [if (prohibitedDetection.isProhibited)]. *)
Definition stream_refusal (conversation : Conv.t) (sessionId : string)
    (prohibitedDetection : EmergencyDetector.prohibited_detection) : M turn unit :=
  let* refusalMessage := response_message (EmergencyDetector.refusal prohibitedDetection) in
  await (query (fun now =>
    ConversationService.addMessage now (Conv.id conversation) Assistant refusalMessage
      [("safetyOverride", JBool true); ("refusal", JBool true)])) ;;
  short_circuit sessionId refusalMessage [("isRefusal", JBool true)].

(** From [validateResponse(aiResponse.content)] to the end of the [try]
    block. *)
Definition stream_validated (conversation : Conv.t) (sessionId : string)
    (emergencyDetection : EmergencyDetector.emergency_detection)
    (urgentPrefix : string) (aiResponse : LlamaService.ai_response) : M turn unit :=
  let validation := EmergencyDetector.validateResponse (LlamaService.content aiResponse) in
  let finalResponse := urgentPrefix ++ LlamaService.content aiResponse in
  let responseMetadata :=
    [("tokens", JNum (LlamaService.tokens aiResponse));
     ("duration", JNum (LlamaService.duration aiResponse));
     ("model", JStr (LlamaService.model aiResponse));
     ("validated", JBool (EmergencyDetector.isValid validation));
     ("streamed", JBool true)] in
  let (finalResponse, responseMetadata) :=
    if negb (EmergencyDetector.isValid validation)
    then (deflection,
          md_set "validationFailed" (JBool true)
            (md_set "safetyOverride" (JBool true) responseMetadata))
    else (finalResponse, responseMetadata) in
  let responseMetadata :=
    if EmergencyDetector.isUrgent emergencyDetection
    then md_set "urgentGuidance" (JBool true) responseMetadata
    else responseMetadata in
  finish_turn (Conv.id conversation) sessionId finalResponse
    responseMetadata responseMetadata ;;
  delete_session ;;
  res_end.

(** The SAFETY MODE block once neither short-circuit applies. *)
Definition stream_generated (conversation : Conv.t) (sessionId : string)
    (emergencyDetection : EmergencyDetector.emergency_detection)
    (stream : LlamaService.engine_stream) : M turn unit :=
  let* contextMessages := await (query (fun _ => ConversationService.getContextMessages sessionId 10)) in
  let* timestamp := now in
  sendEvent (EvStart sessionId timestamp) ;;
  modify (set_fullContent "") ;;
  let* urgentPrefix :=
    if EmergencyDetector.isUrgent emergencyDetection then
      let* advisory := response_message (EmergencyDetector.response emergencyDetection) in
      let urgentPrefix := advisory ++ blank_line in
      sendEvent (EvToken urgentPrefix urgentPrefix) ;;
      modify (set_fullContent urgentPrefix) ;;
      ret urgentPrefix
    else ret "" in
  let* aiResponse := generateStreamingResponse contextMessages stream in
  stream_validated conversation sessionId emergencyDetection urgentPrefix aiResponse.

(** The [try] block of [sendMessageStream]. *)
Definition sendMessageStream_try (safetyMode : bool) (req : request)
    (stream : LlamaService.engine_stream) : M turn unit :=
  let sessionId := sessionId req in
  let message := message req in
  let* conversation := await (query (fun _ => gets (ConversationService.getConversation sessionId))) in
  match conversation with
  | None => reject_with "NOT_FOUND"
  | Some conversation =>
    if conv_status_eqb (Conv.status conversation) StaffTaken then reject_with "FORBIDDEN"
    else
    let* limitsCheck := await (query (fun now => ConversationService.checkLimits now sessionId)) in
    if ConversationService.exceeded limitsCheck then reject_with "RATE_LIMITED"
    else
    await (query (fun now =>
      ConversationService.addMessage now (Conv.id conversation) User message [])) ;;
    if negb safetyMode then stream_fast conversation sessionId stream
    else
    let emergencyDetection :=
      default (EmergencyDetector.detectEmergency message) (emergencyDetection req) in
    let prohibitedDetection :=
      default (EmergencyDetector.detectProhibitedTopic message) (prohibitedDetection req) in
    if EmergencyDetector.isEmergency emergencyDetection then
      stream_emergency conversation sessionId emergencyDetection
    else if EmergencyDetector.isProhibited prohibitedDetection then
      stream_refusal conversation sessionId prohibitedDetection
    else stream_generated conversation sessionId emergencyDetection stream
  end.

(** The [catch] block. *)
Definition sendMessageStream_catch (error : Err.error) : M turn unit :=
  delete_session ;;
  let* cancelled := gets isCancelled in
  if (String.eqb (Err.name error) "AbortError" || cancelled)%bool then res_end
  else sendEvent (EvError "INTERNAL_ERROR") ;; res_end.

(** The state in which the [try] block starts: a fresh AbortController,
    registered in [activeSessions] under the session of the request. *)
Definition open_turn (req : request) (pending : list (list ext)) (w : world) : turn :=
  let abortController := controllers w in
  {| process :=
       set_activeSessions
         (<[ sessionId req :=
               {| SessionData.abortController := abortController;
                  SessionData.isCancelled := false |} ]> (activeSessions w))
         (set_controllers (S (controllers w)) w);
     session := sessionId req;
     abortController := abortController;
     isCancelled := false;
     fullContent := "";
     writableEnded := false;
     written := [];
     schedule := pending |}.

Definition sendMessageStream (safetyMode : bool) (req : request)
    (stream : LlamaService.engine_stream) (pending : list (list ext))
    (w : world) : turn :=
  snd (try_catch (sendMessageStream_try safetyMode req stream)
         sendMessageStream_catch (open_turn req pending w)).

End ChatController.

(** ** controllers/handoff-controller.js *)

Module HandoffController.

Import Async.
Local Open Scope async_scope.

Record response := {
  code : nat;
  error : option string;
  message : string
}.

Definition ok (msg : string) : response :=
  {| code := 200; error := None; message := msg |}.

Definition failure (c : nat) (e msg : string) : response :=
  {| code := c; error := Some e; message := msg |}.

(** [!staffId] for the identifier attached to the request, if any. *)
Definition missing (staffId : option Z) : bool :=
  match staffId with
  | None => true
  | Some id => Z.eqb id 0
  end.

Definition assign (now staffId : Z) (h : Handoff.t) : Handoff.t :=
  {| Handoff.id := Handoff.id h; Handoff.conversation_id := Handoff.conversation_id h;
     Handoff.reason := Handoff.reason h; Handoff.priority := Handoff.priority h;
     Handoff.status := Assigned; Handoff.assigned_staff_id := Some staffId;
     Handoff.assigned_at := Some now; Handoff.resolved_at := Handoff.resolved_at h;
     Handoff.created_at := Handoff.created_at h |}.

Definition resolve (now : Z) (h : Handoff.t) : Handoff.t :=
  {| Handoff.id := Handoff.id h; Handoff.conversation_id := Handoff.conversation_id h;
     Handoff.reason := Handoff.reason h; Handoff.priority := Handoff.priority h;
     Handoff.status := Resolved;
     Handoff.assigned_staff_id := Handoff.assigned_staff_id h;
     Handoff.assigned_at := Handoff.assigned_at h; Handoff.resolved_at := Some now;
     Handoff.created_at := Handoff.created_at h |}.

Definition handoff_in (conversationId : nat) (s : handoff_status) (h : Handoff.t) : bool :=
  (Nat.eqb (Handoff.conversation_id h) conversationId
   && handoff_status_eqb (Handoff.status h) s)%bool.

Definition update_handoffs (p : Handoff.t -> bool) (f : Z -> Handoff.t -> Handoff.t)
  : M ChatController.world unit :=
  ChatController.query (fun now d =>
    (inr tt, set_handoffs (sql_update p (f now) (ai_handoff_requests d)) d)).

Definition takeoverChat_try (sessionId : string) (staffId : Z)
  : M ChatController.world response :=
  let* conversation :=
    ChatController.query (fun _ => gets (ConversationService.getConversation sessionId)) in
  match conversation with
  | None => ret (failure 404 "SESSION_NOT_FOUND" "Chat session not found")
  | Some conversation =>
      ChatController.query (fun now =>
        ConversationService.updateStatus now sessionId StaffTaken (Some staffId)) ;;
      update_handoffs (handoff_in (Conv.id conversation) Pending)
        (fun now => assign now staffId) ;;
      ChatController.query (fun now =>
        ConversationService.addMessage now (Conv.id conversation) System
          "A staff member has joined the conversation."
          [("staffId", JNum staffId); ("action", JStr "takeover")]) ;;
      ret (ok "Successfully took over conversation")
  end.

Definition takeoverChat (sessionId : string) (user_id : option Z)
    (w : ChatController.world) : response * ChatController.world :=
  if missing user_id then
    (failure 401 "UNAUTHORIZED" "Staff authentication required", w)
  else
    match takeoverChat_try sessionId (default 0 user_id) w with
    | (inr r, w') => (r, w')
    | (inl _, w') => (failure 500 "TAKEOVER_FAILED" "Failed to take over conversation", w')
    end.

Definition releaseChat_try (sessionId : string) (staffId : Z)
  : M ChatController.world response :=
  let* conversation :=
    ChatController.query (fun _ => gets (ConversationService.getConversation sessionId)) in
  match conversation with
  | None => ret (failure 404 "SESSION_NOT_FOUND" "Chat session not found")
  | Some conversation =>
      if negb (bool_decide (Conv.staff_id conversation = Some staffId)) then
        ret (failure 403 "FORBIDDEN" "You are not assigned to this conversation")
      else
        ChatController.query (fun now =>
          ConversationService.updateStatus now sessionId AiActive None) ;;
        update_handoffs (handoff_in (Conv.id conversation) Assigned) resolve ;;
        ChatController.query (fun now =>
          ConversationService.addMessage now (Conv.id conversation) System
            "The conversation has been returned to AI assistance."
            [("staffId", JNum staffId); ("action", JStr "release")]) ;;
        ret (ok "Conversation released back to AI")
  end.

Definition releaseChat (sessionId : string) (user_id : option Z)
    (w : ChatController.world) : response * ChatController.world :=
  if missing user_id then
    (failure 401 "UNAUTHORIZED" "Staff authentication required", w)
  else
    match releaseChat_try sessionId (default 0 user_id) w with
    | (inr r, w') => (r, w')
    | (inl _, w') => (failure 500 "RELEASE_FAILED" "Failed to release conversation", w')
    end.

End HandoffController.

(** * The middleware in front of the controllers *)

(** ** Regular expressions, by backtracking

    The patterns of the safety filter are used with [replace], where the
    extent of each match matters, and one of them has a lookahead.  A
    pattern is run as the ECMAScript matcher runs it: against the rest of
    the input, with a continuation for what follows; the alternatives are
    tried in order and the first success is the match.  The character before
    the position is kept for [\b]. *)

Module Pattern.

Inductive pattern : Type :=
| Empty
| Chr (p : ascii -> bool)
| Cat (a b : pattern)
| Many (a : pattern)
| NotAhead (a : pattern)
| WordBoundary
| AtStart
| AtEnd.

(** [a+]. *)
Definition Some1 (a : pattern) : pattern := Cat a (Many a).

(** [a{n}]. *)
Fixpoint times (n : nat) (a : pattern) : pattern :=
  match n with
  | O => Empty
  | S n' => Cat a (times n' a)
  end.

Definition exactly (c : ascii) : pattern := Chr (Ascii.eqb c).

Fixpoint literal (s : string) : pattern :=
  match s with
  | EmptyString => Empty
  | String c s' => Cat (exactly c) (literal s')
  end.

(** A literal under the [i] flag. *)
Fixpoint literal_ci (s : string) : pattern :=
  match s with
  | EmptyString => Empty
  | String c s' => Cat (Chr (Js.ci c)) (literal_ci s')
  end.

(** A position: the character before it, if any, and the rest of the input. *)
Definition position : Type := option ascii * string.

Definition word_before (prev : option ascii) : bool :=
  match prev with
  | Some c => Js.is_word c
  | None => false
  end.

Definition word_after (s : string) : bool :=
  match s with
  | String c _ => Js.is_word c
  | EmptyString => false
  end.

(** [run r prev s k]: match [r] at the position [(prev, s)] and continue
    with [k] at the position where the match ends.  An iteration of [Many]
    that consumes nothing is rejected, as the specification of the language
    has it; the fuel of the iteration is the length of the input, which no
    sequence of consuming iterations exceeds. *)
Fixpoint run (r : pattern) (prev : option ascii) (s : string)
    (k : option ascii -> string -> option position) {struct r} : option position :=
  match r with
  | Empty => k prev s
  | Chr p =>
      match s with
      | String c s' => if p c then k (Some c) s' else None
      | EmptyString => None
      end
  | Cat a b => run a prev s (fun prev' s' => run b prev' s' k)
  | Many a =>
      (fix many (fuel : nat) (prev : option ascii) (s : string) {struct fuel}
         : option position :=
         match fuel with
         | O => k prev s
         | S fuel' =>
             match run a prev s
                     (fun prev' s' =>
                        if Nat.ltb (String.length s') (String.length s)
                        then many fuel' prev' s' else None) with
             | Some m => Some m
             | None => k prev s
             end
         end) (String.length s) prev s
  | NotAhead a =>
      match run a prev s (fun prev' s' => Some (prev', s')) with
      | Some _ => None
      | None => k prev s
      end
  | WordBoundary =>
      if xorb (word_before prev) (word_after s) then k prev s else None
  | AtStart =>
      match prev with
      | None => k prev s
      | Some _ => None
      end
  | AtEnd =>
      match s with
      | EmptyString => k prev s
      | String _ _ => None
      end
  end.

(** The match of [r] at a position, if there is one: where it ends. *)
Definition exec (r : pattern) (prev : option ascii) (s : string) : option position :=
  run r prev s (fun prev' s' => Some (prev', s')).

(** [r.test(s)] for a pattern without the [g] flag or with [lastIndex] 0:
    the positions are tried from left to right. *)
Fixpoint test_from (r : pattern) (prev : option ascii) (s : string) : bool :=
  match exec r prev s with
  | Some _ => true
  | None =>
      match s with
      | EmptyString => false
      | String c s' => test_from r (Some c) s'
      end
  end.

Definition test (r : pattern) (s : string) : bool := test_from r None s.

(** [s.replace(r, by)] for a pattern with the [g] flag and a replacement
    without [$]: after a match the search resumes where the match ends;
    after an empty match, or where there is none, one character is copied. *)
Fixpoint replace_from (fuel : nat) (r : pattern) (by_ : string)
    (prev : option ascii) (s : string) : string :=
  match fuel with
  | O => s
  | S fuel' =>
      let copy :=
        match s with
        | EmptyString => EmptyString
        | String c s' => String c (replace_from fuel' r by_ (Some c) s')
        end in
      match exec r prev s with
      | Some (prev', rest) =>
          if Nat.ltb (String.length rest) (String.length s)
          then by_ ++ replace_from fuel' r by_ prev' rest
          else by_ ++ copy
      | None => copy
      end
  end.

Definition replace (r : pattern) (by_ : string) (s : string) : string :=
  replace_from (S (String.length s)) r by_ None s.

End Pattern.

(** ** middleware/safety-filter.js

    The sources hold two versions of this file, which differ only in the
    [error] code and the text of their rejections; this is the one that
    answers every rejection with [BAD_REQUEST]. *)

Module SafetyFilter.

(** A field of [req.body] as the JSON parser leaves it: missing, a string,
    or another value, of which the middleware reads the truthiness and the
    result of [ToString]. *)
Inductive field : Type :=
| Missing
| Null
| Text (s : string)
| Other (truthy : bool) (text : string).

Record body := { sessionId : field; message : field }.

(** [!value]. *)
Definition falsy (f : field) : bool :=
  match f with
  | Missing => true
  | Null => true
  | Text s => negb (Js.truthy s)
  | Other truthy _ => negb truthy
  end.

Definition toString (f : field) : string :=
  match f with
  | Missing => "undefined"
  | Null => "null"
  | Text s => s
  | Other _ text => text
  end.

(** What a middleware does with a request: hand it on, answer it, or throw. *)
Inductive outcome : Type :=
| Next (b : body)
| Rejected (status : nat) (error : string)
| Threw (e : Err.error).

Definition bad_request : outcome := Rejected 400 "BAD_REQUEST".

(** [safetyRules.contentFilter]. *)
Definition minMessageLength : nat := 1.
Definition maxMessageLength : nat := 2000.

(** [/\s+/g]. *)
Definition whitespace : Pattern.pattern := Pattern.Some1 (Pattern.Chr Js.is_space).

(** [/\0/g]. *)
Definition nul : Pattern.pattern := Pattern.exactly "000".

Definition validateMessage (b : body) : outcome :=
  match message b with
  | Missing => bad_request
  | Null => bad_request
  | Other _ _ => bad_request
  | Text message =>
      if negb (Js.truthy message) then bad_request
      else
        let trimmedMessage := Js.trim message in
        if Nat.ltb (String.length trimmedMessage) minMessageLength then bad_request
        else if Nat.ltb maxMessageLength (String.length trimmedMessage) then bad_request
        else
          Next {| sessionId := sessionId b;
                  message :=
                    Text (Pattern.replace nul ""
                            (Pattern.replace whitespace " " trimmedMessage)) |}
  end.

(** [[0-9a-f]] under the [i] flag. *)
Definition hex : Pattern.pattern :=
  Pattern.Chr (fun c => (Js.in_range 48 57 c || Js.in_range 97 102 c
                         || Js.in_range 65 70 c)%bool).

Definition dash : Pattern.pattern := Pattern.exactly "-".

(** [/^[0-9a-f]{8}-[0-9a-f]{4}-[0-9a-f]{4}-[0-9a-f]{4}-[0-9a-f]{12}$/i]. *)
Definition uuidRegex : Pattern.pattern :=
  Pattern.Cat Pattern.AtStart
    (Pattern.Cat (Pattern.times 8 hex)
       (Pattern.Cat dash
          (Pattern.Cat (Pattern.times 4 hex)
             (Pattern.Cat dash
                (Pattern.Cat (Pattern.times 4 hex)
                   (Pattern.Cat dash
                      (Pattern.Cat (Pattern.times 4 hex)
                         (Pattern.Cat dash
                            (Pattern.Cat (Pattern.times 12 hex) Pattern.AtEnd))))))))).

Definition validateSession (b : body) : outcome :=
  if falsy (sessionId b) then bad_request
  else if negb (Pattern.test uuidRegex (toString (sessionId b))) then bad_request
  else Next b.

Definition lt : Pattern.pattern := Pattern.exactly "<".
Definition not_lt : Pattern.pattern := Pattern.Chr (fun c => negb (Ascii.eqb c "<")).
Definition not_gt : Pattern.pattern := Pattern.Chr (fun c => negb (Ascii.eqb c ">")).

(** The first pattern of [sanitizeContent], under the [i] flag: [<script],
    a word boundary, any characters but [<], then any number of groups made
    of a [<] that does not start [</script>] followed by any characters but
    [<], and [</script>]. *)
Definition script : Pattern.pattern :=
  Pattern.Cat (Pattern.literal_ci "<script")
    (Pattern.Cat Pattern.WordBoundary
       (Pattern.Cat (Pattern.Many not_lt)
          (Pattern.Cat
             (Pattern.Many
                (Pattern.Cat (Pattern.NotAhead (Pattern.literal_ci "</script>"))
                   (Pattern.Cat lt (Pattern.Many not_lt))))
             (Pattern.literal_ci "</script>")))).

(** [/<[^>]+>/g]. *)
Definition tag : Pattern.pattern :=
  Pattern.Cat lt (Pattern.Cat (Pattern.Some1 not_gt) (Pattern.exactly ">")).

(** [[\x00-\x08\x0B\x0C\x0E-\x1F\x7F]]. *)
Definition is_control (c : ascii) : bool :=
  (Js.in_range 0 8 c || N.eqb (Js.code c) 11 || N.eqb (Js.code c) 12
   || Js.in_range 14 31 c || N.eqb (Js.code c) 127)%bool.

Definition control : Pattern.pattern := Pattern.Chr is_control.

(** [message.replace] throws when [message] is not a string. *)
Definition sanitizeContent (b : body) : outcome :=
  match message b with
  | Text message =>
      Next {| sessionId := sessionId b;
              message :=
                Text (Pattern.replace control ""
                        (Pattern.replace tag ""
                           (Pattern.replace script "" message))) |}
  | Missing =>
      Threw (Err.TypeError "Cannot read properties of undefined (reading 'replace')")
  | Null =>
      Threw (Err.TypeError "Cannot read properties of null (reading 'replace')")
  | Other _ _ => Threw (Err.TypeError "message.replace is not a function")
  end.

(** [s] starts with [n] copies of [c]. *)
Fixpoint copies (n : nat) (c : ascii) (s : string) : bool :=
  match n with
  | O => true
  | S n' =>
      match s with
      | String d s' => (Ascii.eqb c d && copies n' c s')%bool
      | EmptyString => false
      end
  end.

(** [.]: any character but a line terminator. *)
Definition dot (c : ascii) : bool :=
  negb (N.eqb (Js.code c) 10 || N.eqb (Js.code c) 13).

(** [/(.)\1{10,}/g.test(s)] on a fresh pattern: some character other than
    a line terminator is followed by ten more of itself. *)
Fixpoint repeatedCharsPattern (s : string) : bool :=
  match s with
  | EmptyString => false
  | String c s' => ((dot c && copies 10 c s') || repeatedCharsPattern s')%bool
  end.

(** The ratio of capitals is only logged.  The warning of the first test
    reads [message.substring] and the second test calls [message.match]:
    both throw when [message] is not a string. *)
Definition detectSpam (b : body) : outcome :=
  match message b with
  | Text message => if repeatedCharsPattern message then bad_request else Next b
  | Missing =>
      Threw (Err.TypeError "Cannot read properties of undefined (reading 'match')")
  | Null => Threw (Err.TypeError "Cannot read properties of null (reading 'match')")
  | Other _ text =>
      if repeatedCharsPattern text
      then Threw (Err.TypeError "message.substring is not a function")
      else Threw (Err.TypeError "message.match is not a function")
  end.

End SafetyFilter.

(** ** routes/chat-routes.js: the chains of middleware

    The rate limiters and the identity of the staff are left out. *)

Module ChatRoutes.

Definition andThen (o : SafetyFilter.outcome)
    (f : SafetyFilter.body -> SafetyFilter.outcome) : SafetyFilter.outcome :=
  match o with
  | SafetyFilter.Next b => f b
  | other => other
  end.

(** [validateSession, validateMessage, sanitizeContent, detectSpam], the
    chain of [/patient/message] and [/patient/message/stream] in front of
    [emergencyDetectorMiddleware]. *)
Definition patientMessage (b : SafetyFilter.body) : SafetyFilter.outcome :=
  andThen
    (andThen
       (andThen (SafetyFilter.validateSession b) SafetyFilter.validateMessage)
       SafetyFilter.sanitizeContent)
    SafetyFilter.detectSpam.

(** [validateMessage, sanitizeContent], the chain of [/staff/message]. *)
Definition staffMessage (b : SafetyFilter.body) : SafetyFilter.outcome :=
  andThen (SafetyFilter.validateMessage b) SafetyFilter.sanitizeContent.

(** The request as [emergencyDetectorMiddleware] hands it to the
    controller, when both fields are strings. *)
Definition handled (b : SafetyFilter.body) : option ChatController.request :=
  match SafetyFilter.sessionId b, SafetyFilter.message b with
  | SafetyFilter.Text sessionId, SafetyFilter.Text message =>
      Some (ChatController.emergencyDetectorMiddleware
              {| ChatController.sessionId := sessionId;
                 ChatController.message := message;
                 ChatController.emergencyDetection := None;
                 ChatController.prohibitedDetection := None |})
  | _, _ => None
  end.

End ChatRoutes.

(** ** controllers/handoff-controller.js: the staff's view

    The identifier of the staff member is the number that
    [extractStaffIdentity] attaches to the request, as in [takeoverChat].
    A query that only reads does not fail here, so that the answers of the
    [catch] blocks of [getActiveChats] and [getPendingHandoffs] do not
    occur. *)

Module Dashboard.

Import Async.
Local Open Scope async_scope.

(** [ORDER BY]: [before x y] when [x] may come before [y].  The store does
    not say in which order rows with equal keys come; here they keep the
    order of the table. *)
Fixpoint insert_by {A} (before : A -> A -> bool) (x : A) (rows : list A) : list A :=
  match rows with
  | [] => [x]
  | y :: rows' => if before x y then x :: rows else y :: insert_by before x rows'
  end.

Definition order_by {A} (before : A -> A -> bool) (rows : list A) : list A :=
  List.fold_right (insert_by before) [] rows.

(** [MAX(...)]: NULL over no row. *)
Definition maximum (l : list Z) : option Z :=
  match l with
  | [] => None
  | x :: l' => Some (List.fold_left Z.max l' x)
  end.

(** A row of [getActiveConversations]. *)
Record active_conversation := {
  conversation : Conv.t;
  message_count : nat;
  last_message_at : option Z
}.

Definition active (c : Conv.t) : bool :=
  match Conv.status c with
  | AiActive | StaffTaken => true
  | Closed => false
  end.

(** [ORDER BY MAX(m.created_at) DESC], where NULL comes first. *)
Definition later (a b : active_conversation) : bool :=
  match last_message_at a, last_message_at b with
  | None, _ => true
  | Some _, None => false
  | Some x, Some y => Z.leb y x
  end.

Definition with_counts (d : database) (c : Conv.t) : active_conversation :=
  let messages :=
    List.filter (ConversationService.of_conversation (Conv.id c)) (ai_messages d) in
  {| conversation := c;
     message_count := List.length messages;
     last_message_at := maximum (List.map Msg.created_at messages) |}.

(** [conversationService.getActiveConversations]. *)
Definition getActiveConversations (d : database) : list active_conversation :=
  order_by later (List.map (with_counts d) (List.filter active (ai_conversations d))).

Definition newer (a b : Handoff.t) : bool :=
  Z.leb (Handoff.created_at b) (Handoff.created_at a).

(** [WHERE conversation_id = $1 AND status = 'pending' ORDER BY created_at
    DESC LIMIT 1], [rows[0] || null]. *)
Definition latest_pending (conversationId : nat) (d : database) : option Handoff.t :=
  List.head
    (order_by newer
       (List.filter (HandoffController.handoff_in conversationId Pending)
          (ai_handoff_requests d))).

Record active_chat := {
  conv : active_conversation;
  handoffRequest : option Handoff.t
}.

(** A row of [getPendingHandoffs]. *)
Record pending_handoff := {
  request : Handoff.t;
  session_id : string;
  patient_id : option Z;
  conversation_started : Z;
  messages : nat
}.

Definition rank (p : priority) : nat :=
  match p with
  | Emergency => 1
  | High => 2
  | Normal => 3
  | Low => 4
  end.

(** [ORDER BY CASE hr.priority ... END, hr.created_at ASC]. *)
Definition ahead (a b : pending_handoff) : bool :=
  (Nat.ltb (rank (Handoff.priority (request a))) (rank (Handoff.priority (request b)))
   || (Nat.eqb (rank (Handoff.priority (request a))) (rank (Handoff.priority (request b)))
       && Z.leb (Handoff.created_at (request a)) (Handoff.created_at (request b))))%bool.

(** [JOIN ai_conversations c ON hr.conversation_id = c.id WHERE hr.status =
    'pending']. *)
Definition joined (d : database) (hr : Handoff.t) : list pending_handoff :=
  if handoff_status_eqb (Handoff.status hr) Pending then
    match List.find (ConversationService.by_id (Handoff.conversation_id hr))
            (ai_conversations d) with
    | Some c =>
        [{| request := hr;
            session_id := Conv.session_id c;
            patient_id := Conv.patient_id c;
            conversation_started := Conv.created_at c;
            messages :=
              List.length
                (List.filter (ConversationService.of_conversation (Conv.id c))
                   (ai_messages d)) |}]
    | None => []
    end
  else [].

Definition pendingHandoffs (d : database) : list pending_handoff :=
  order_by ahead (List.flat_map (joined d) (ai_handoff_requests d)).

Inductive reply : Type :=
| ActiveChats (conversations : list active_chat) (count : nat)
| PendingHandoffs (handoffs : list pending_handoff) (count : nat)
| Sent (message : Msg.t) (timestamp : Z)
| Transcript (sessionId : string) (transcript : list Msg.t) (messageCount : nat)
| Failure (code : nat) (error message : string).

Definition getActiveChats (w : ChatController.world) : reply * ChatController.world :=
  let enriched :=
    List.map
      (fun c => {| conv := c;
                   handoffRequest := latest_pending (Conv.id (conversation c))
                                (ChatController.db w) |})
      (getActiveConversations (ChatController.db w)) in
  (ActiveChats enriched (List.length enriched), w).

Definition getPendingHandoffs (w : ChatController.world) : reply * ChatController.world :=
  let rows := pendingHandoffs (ChatController.db w) in
  (PendingHandoffs rows (List.length rows), w).

Definition sendStaffMessage_try (sessionId message : string) (staffId : Z)
  : M ChatController.world reply :=
  let* conversation :=
    ChatController.query (fun _ => gets (ConversationService.getConversation sessionId)) in
  match conversation with
  | None => ret (Failure 404 "SESSION_NOT_FOUND" "Chat session not found")
  | Some conversation =>
      if (negb (bool_decide (Conv.staff_id conversation = Some staffId))
          || negb (conv_status_eqb (Conv.status conversation) StaffTaken))%bool then
        ret (Failure 403 "FORBIDDEN" "You must take over the conversation first")
      else
        let* savedMessage :=
          ChatController.query (fun now =>
            ConversationService.addMessage now (Conv.id conversation) Staff message
              [("staffId", JNum staffId)]) in
        let* timestamp := gets ChatController.clock in
        ret (Sent savedMessage timestamp)
  end.

Definition sendStaffMessage (sessionId message : string) (user_id : option Z)
    (w : ChatController.world) : reply * ChatController.world :=
  if HandoffController.missing user_id then
    (Failure 401 "UNAUTHORIZED" "Staff authentication required", w)
  else
    match sendStaffMessage_try sessionId message (default 0 user_id) w with
    | (inr r, w') => (r, w')
    | (inl _, w') => (Failure 500 "SEND_FAILED" "Failed to send message", w')
    end.

Definition getTranscript (sessionId : string) (user_id : option Z)
    (w : ChatController.world) : reply * ChatController.world :=
  if HandoffController.missing user_id then
    (Failure 401 "UNAUTHORIZED" "Staff authentication required", w)
  else
    match ChatController.query (fun _ => ConversationService.getHistory sessionId 1000) w with
    | (inr history, w') => (Transcript sessionId history (List.length history), w')
    | (inl _, w') =>
        (Failure 500 "TRANSCRIPT_FETCH_FAILED" "Failed to retrieve transcript", w')
    end.

End Dashboard.

(** ** services/llama-service.js: the prompt *)

Module Prompt.

Definition newline : string := String "010" EmptyString.

(** [formatPrompt], for the system prompt that the configuration selects. *)
Definition formatPrompt (sysPrompt : string) (messages : list (role * string)) : string :=
  let prompt := if Js.truthy sysPrompt then sysPrompt ++ newline ++ newline else "" in
  List.fold_left
    (fun prompt msg =>
       match fst msg with
       | User => prompt ++ "User: " ++ snd msg ++ newline ++ newline
       | Assistant => prompt ++ "Assistant: " ++ snd msg ++ newline ++ newline
       | _ => prompt
       end)
    messages prompt
  ++ "Assistant: ".

End Prompt.

(** * Properties *)

(** ** Vocabulary of the statements *)

Abbreviation world := ChatController.world.
Abbreviation turn := ChatController.turn.

(** A request as it reaches the controller through the route
    [/patient/message] or [/patient/message/stream]. *)
Definition patient_request (sessionId message : string) : ChatController.request :=
  ChatController.emergencyDetectorMiddleware
    {| ChatController.sessionId := sessionId;
       ChatController.message := message;
       ChatController.emergencyDetection := None;
       ChatController.prohibitedDetection := None |}.

(** The text matches a keyword of the list, case-insensitively. *)
Definition matches_keyword (rules : list string) (text : string) : Prop :=
  exists k, In k rules /\ Js.includes (Js.toLowerCase text) (Js.toLowerCase k) = true.

(** The limits check at the time [now] lets the turn through. *)
Definition within_limits (now : Z) (sessionId : string) (d : database) : Prop :=
  ConversationService.exceeded
    (match fst (ConversationService.checkLimits now sessionId d) with
     | inr l => l
     | inl _ => {| ConversationService.exceeded := true;
                   ConversationService.reason := None;
                   ConversationService.messageCount := None |}
     end) = false.

(** [staff_id] is non-null exactly when the status is [staff-taken]. *)
Definition owned_iff_taken (c : Conv.t) : bool :=
  Bool.eqb (bool_decide (Conv.staff_id c <> None))
           (conv_status_eqb (Conv.status c) StaffTaken).

(** The same, required only of conversations that are not closed. *)
Definition open_owned_iff_taken (c : Conv.t) : bool :=
  (conv_status_eqb (Conv.status c) Closed || owned_iff_taken c)%bool.

Definition every_conversation (P : Conv.t -> bool) (w : world) : Prop :=
  List.forallb P (ai_conversations (ChatController.db w)) = true.

Definition is_token (e : ChatController.sse) : bool :=
  match e with ChatController.EvToken _ _ => true | _ => false end.

Definition is_done (e : ChatController.sse) : bool :=
  match e with ChatController.EvDone _ _ _ _ => true | _ => false end.

(** The [token] events the callback writes for the fragments of a stream
    when nothing is cancelled; [shown] is the text announced so far. *)
Fixpoint relayed (shown : string) (fragments : list string) : list ChatController.sse :=
  match fragments with
  | [] => []
  | f :: rest =>
      if Js.truthy f
      then ChatController.EvToken f (shown ++ f) :: relayed (shown ++ f) rest
      else relayed shown rest
  end.

(** Only time passes. *)
Definition quiet (batch : list ChatController.ext) : bool :=
  List.forallb (fun e => match e with ChatController.Elapse _ => true | _ => false end) batch.



(** The advisory a streaming turn announces before generation. *)
Definition urgentPrefix (safetyMode : bool) (message : string) : string :=
  if (safetyMode && EmergencyDetector.isUrgent (EmergencyDetector.detectEmergency message))%bool
  then SafetyRules.message SafetyRules.urgentResponse ++ ChatController.blank_line
  else "".

(** ** States and outcomes of a turn *)

(** The time that passes during a batch of outside events. *)
Fixpoint elapsed (batch : list ChatController.ext) : Z :=
  match batch with
  | [] => 0
  | ChatController.Elapse ms :: rest => Z.of_N ms + elapsed rest
  | _ :: rest => elapsed rest
  end.

(** The time at which a streaming turn checks the limits: after its first
    two suspension points. *)
Definition checked_at (now : Z) (pending : list (list ChatController.ext)) : Z :=
  now + elapsed (List.hd [] pending) + elapsed (List.hd [] (List.tl pending)).

(** The context window handed to the engine. *)
Definition context_of (sessionId : string) (d : database) : list (role * string) :=
  match fst (ConversationService.getContextMessages sessionId 10 d) with
  | inr contextMessages => contextMessages
  | inl _ => []
  end.

(** The text of a stream: its fragments, in order. *)
Definition joined (fragments : list string) : string :=
  List.fold_right String.append "" fragments.

(** The number of fragments the service counts as tokens. *)
Definition counted (fragments : list string) : Z :=
  Z.of_nat (List.length (List.filter Js.truthy fragments)).

(** A turn after part of an engine call: outside events have reached the
    cancellation flag, the session registry, the fired signals, the number
    of AbortControllers made and the clock; the callback has relayed
    tokens. *)
Definition streamed (c : bool) (m : gmap string SessionData.t) (a : gset nat)
    (n : nat) (k : Z) (pending : list (list ChatController.ext)) (shown : string)
    (tokens : list ChatController.sse) (t : turn) : turn :=
  {| ChatController.process :=
       {| ChatController.db := ChatController.db (ChatController.process t);
          ChatController.clock := k;
          ChatController.activeSessions := m;
          ChatController.aborted := a;
          ChatController.controllers := n;
          ChatController.engineLog := ChatController.engineLog (ChatController.process t) |};
     ChatController.session := ChatController.session t;
     ChatController.abortController := ChatController.abortController t;
     ChatController.isCancelled := c;
     ChatController.fullContent := shown;
     ChatController.writableEnded := ChatController.writableEnded t;
     ChatController.written := (ChatController.written t ++ tokens)%list;
     ChatController.schedule := pending |}.

(** A turn after outside events alone. *)
Definition disturbed (c : bool) (m : gmap string SessionData.t) (a : gset nat)
    (n : nat) (k : Z) (pending : list (list ChatController.ext)) (t : turn) : turn :=
  {| ChatController.process :=
       {| ChatController.db := ChatController.db (ChatController.process t);
          ChatController.clock := k;
          ChatController.activeSessions := m;
          ChatController.aborted := a;
          ChatController.controllers := n;
          ChatController.engineLog := ChatController.engineLog (ChatController.process t) |};
     ChatController.session := ChatController.session t;
     ChatController.abortController := ChatController.abortController t;
     ChatController.isCancelled := c;
     ChatController.fullContent := ChatController.fullContent t;
     ChatController.writableEnded := ChatController.writableEnded t;
     ChatController.written := ChatController.written t;
     ChatController.schedule := pending |}.

(** The turn with one more invocation of the engine on record. *)
Definition logged (contextMessages : list (role * string)) (t : turn) : turn :=
  ChatController.set_process
    (ChatController.set_engineLog
       (ChatController.engineLog (ChatController.process t) ++ [contextMessages])%list
       (ChatController.process t)) t.

(** The row [addMessage] inserts. *)
Definition message_row (now : Z) (conversationId : nat) (r : role)
    (content : string) (md : metadata) (d : database) : Msg.t :=
  {| Msg.id := next_id (ai_messages d); Msg.conversation_id := conversationId;
     Msg.role := r; Msg.content := content; Msg.metadata := md;
     Msg.created_at := now |}.

(** The store after [addMessage] has inserted a row. *)
Definition with_message (now : Z) (conversationId : nat) (r : role)
    (content : string) (md : metadata) (d : database) : database :=
  {| ai_conversations :=
       sql_update (ConversationService.by_id conversationId)
         (ConversationService.touch now) (ai_conversations d);
     ai_messages :=
       (ai_messages d ++ [message_row now conversationId r content md d])%list;
     ai_handoff_requests := ai_handoff_requests d |}.

(** The conversation is a row of the store. *)
Definition known (conversationId : nat) (d : database) : Prop :=
  List.existsb (ConversationService.by_id conversationId) (ai_conversations d) = true.

(** A streaming turn once the checks have passed and the user's message is
    stored, after its first three suspension points. *)
Definition accepted (c : bool) (m : gmap string SessionData.t) (a : gset nat)
    (n : nat) (conversation : Conv.t) (sessionId message : string)
    (pending : list (list ChatController.ext)) (w : world) : turn :=
  let k := checked_at (ChatController.clock w) pending
           + elapsed (List.hd [] (List.tl (List.tl pending))) in
  {| ChatController.process :=
       {| ChatController.db :=
            with_message k (Conv.id conversation) User message [] (ChatController.db w);
          ChatController.clock := k;
          ChatController.activeSessions := m;
          ChatController.aborted := a;
          ChatController.controllers := n;
          ChatController.engineLog := ChatController.engineLog w |};
     ChatController.session := sessionId;
     ChatController.abortController := ChatController.controllers w;
     ChatController.isCancelled := c;
     ChatController.fullContent := "";
     ChatController.writableEnded := false;
     ChatController.written := [];
     ChatController.schedule := List.tl (List.tl (List.tl pending)) |}.

(** The block of [sendMessageStream] an accepted turn continues with. *)
Definition dispatch (safetyMode : bool) (conversation : Conv.t)
    (sessionId message : string) (stream : LlamaService.engine_stream)
  : Async.M turn unit :=
  if negb safetyMode then ChatController.stream_fast conversation sessionId stream
  else if EmergencyDetector.isEmergency (EmergencyDetector.detectEmergency message) then
    ChatController.stream_emergency conversation sessionId
      (EmergencyDetector.detectEmergency message)
  else if EmergencyDetector.isProhibited (EmergencyDetector.detectProhibitedTopic message) then
    ChatController.stream_refusal conversation sessionId
      (EmergencyDetector.detectProhibitedTopic message)
  else
    ChatController.stream_generated conversation sessionId
      (EmergencyDetector.detectEmergency message) stream.

(** The stream ends with a result: with a [stop] line, or by closing after
    some text. *)
Definition delivers (fragments : list string) (finish : LlamaService.stream_end) : bool :=
  match finish with
  | LlamaService.Stop => true
  | LlamaService.EndOfStream =>
      Js.truthy (LlamaService.strip_control_tokens (joined fragments))
  | LlamaService.StreamFailure _ => false
  end.

(** The registry entry of a turn that has just been opened. *)
Definition registered (sessionId : string) (w : world) : gmap string SessionData.t :=
  <[ sessionId := {| SessionData.abortController := ChatController.controllers w;
                     SessionData.isCancelled := false |} ]>
    (ChatController.activeSessions w).

(** A cancel request or a closing connection can reach the turn: it is
    registered under its session with its own AbortController and its
    response is still open. *)
Definition cancellable (t : turn) : Prop :=
  ChatController.writableEnded t = false /\
  Js.truthy (ChatController.session t) = true /\
  exists sessionData,
    ChatController.activeSessions (ChatController.process t) !! ChatController.session t
      = Some sessionData
    /\ SessionData.abortController sessionData = ChatController.abortController t.

(** The persisted reply of an overridden turn. *)
Definition overridden (content : string) (assistant : Msg.t) : Prop :=
  Msg.role assistant = Assistant /\
  Msg.content assistant = content /\
  md_get "safetyOverride" (Msg.metadata assistant) = Some (JBool true).

(** From [t] to [t'] at most one assistant message was stored, holding the
    deflection, and no [done] event was written with another text. *)
Definition override_step (t t' : turn) : Prop :=
  (ai_messages (ChatController.db (ChatController.process t'))
     = ai_messages (ChatController.db (ChatController.process t))
   \/ exists assistant,
        ai_messages (ChatController.db (ChatController.process t'))
          = (ai_messages (ChatController.db (ChatController.process t)) ++ [assistant])%list
        /\ overridden ChatController.deflection assistant)
  /\ (forall s m md ts,
        In (ChatController.EvDone s m md ts) (ChatController.written t') ->
        In (ChatController.EvDone s m md ts) (ChatController.written t)
        \/ (m = ChatController.deflection
            /\ md_get "safetyOverride" md = Some (JBool true))).

(** What an emergency turn leaves behind: no invocation of the engine, the
    user's message and one assistant message with the canned emergency
    text, and one pending handoff request of priority [emergency]. *)
Definition emergency_outcome (message : string) (conversation : Conv.t)
    (w w' : world) : Prop :=
  ChatController.engineLog w' = ChatController.engineLog w /\
  (exists user assistant,
     ai_messages (ChatController.db w')
       = (ai_messages (ChatController.db w) ++ [user; assistant])%list /\
     (Msg.role user, Msg.content user) = (User, message) /\
     (Msg.role assistant, Msg.content assistant)
       = (Assistant, SafetyRules.message SafetyRules.emergencyResponse)) /\
  (exists handoff,
     ai_handoff_requests (ChatController.db w')
       = (ai_handoff_requests (ChatController.db w) ++ [handoff])%list /\
     Handoff.priority handoff = Emergency /\
     Handoff.status handoff = Pending /\
     Handoff.conversation_id handoff = Conv.id conversation).

(** The answer of the non-streaming endpoint to a turn whose generated text
    the validator rejected: the stored text, which is also the text of the
    reply, is [final]. *)
Definition overridden_reply (sessionId final : string) (w : world)
    (out : ChatController.response * world) : Prop :=
  exists user assistant md timestamp,
    fst out = ChatController.json
                (ChatController.ReplyBody sessionId final Assistant md timestamp)
    /\ md_get "safetyOverride" md = Some (JBool true)
    /\ ai_messages (ChatController.db (snd out))
       = (ai_messages (ChatController.db w) ++ [user; assistant])%list
    /\ Msg.role user = User
    /\ overridden final assistant.

(** The answer of the non-streaming endpoint to a fast-mode turn. *)
Definition fast_reply (sessionId message data_content : string) (w : world)
    (out : ChatController.response * world) : Prop :=
  let content := LlamaService.strip_control_tokens data_content in
  exists user assistant contextMessages md timestamp,
    fst out = ChatController.json
                (ChatController.ReplyBody sessionId content Assistant md timestamp)
    /\ ChatController.engineLog (snd out)
       = (ChatController.engineLog w ++ [contextMessages])%list
    /\ ai_messages (ChatController.db (snd out))
       = (ai_messages (ChatController.db w) ++ [user; assistant])%list
    /\ (Msg.role user, Msg.content user) = (User, message)
    /\ (Msg.role assistant, Msg.content assistant) = (Assistant, content)
    /\ md_get "fastMode" (Msg.metadata assistant) = Some (JBool true)
    /\ md_get "safetyOverride" (Msg.metadata assistant) = None
    /\ ai_handoff_requests (ChatController.db (snd out))
       = ai_handoff_requests (ChatController.db w).

(** The text that the stream delivers as the service cleans it, if it
    delivers one. *)
Definition delivered (stream : LlamaService.engine_stream) : option string :=
  match stream with
  | LlamaService.Refused _ => None
  | LlamaService.Stream fragments finish =>
      if delivers fragments finish
      then Some (LlamaService.strip_control_tokens (joined fragments))
      else None
  end.

(** The text that the blocking request delivers as the service cleans it,
    if it delivers one. *)
Definition completed (reply : LlamaService.engine_reply) : option string :=
  match reply with
  | LlamaService.Unavailable _ => None
  | LlamaService.Completion data_content _ _ =>
      if Js.truthy data_content
      then Some (LlamaService.strip_control_tokens data_content)
      else None
  end.

(** The row of a fast-mode reply: the text, marked [fastMode] and not
    [safetyOverride]. *)
Definition fast_row (content : string) (assistant : Msg.t) : Prop :=
  (Msg.role assistant, Msg.content assistant) = (Assistant, content)
  /\ md_get "fastMode" (Msg.metadata assistant) = Some (JBool true)
  /\ md_get "safetyOverride" (Msg.metadata assistant) = None.

(** From [t] to [t'] the engine was invoked once, no handoff was opened, and
    at most one assistant message was stored, and that only if the stream
    delivered a text: that text, marked as a fast-mode reply. *)
Definition fast_step (stream : LlamaService.engine_stream) (t t' : turn) : Prop :=
  (exists contextMessages,
     ChatController.engineLog (ChatController.process t')
     = (ChatController.engineLog (ChatController.process t) ++ [contextMessages])%list)
  /\ ai_handoff_requests (ChatController.db (ChatController.process t'))
     = ai_handoff_requests (ChatController.db (ChatController.process t))
  /\ (ai_messages (ChatController.db (ChatController.process t'))
        = ai_messages (ChatController.db (ChatController.process t))
      \/ exists content assistant,
           delivered stream = Some content
           /\ ai_messages (ChatController.db (ChatController.process t'))
              = (ai_messages (ChatController.db (ChatController.process t))
                 ++ [assistant])%list
           /\ fast_row content assistant).

(** From [t] to [t'] the engine was invoked once, no handoff was opened, one
    assistant message was stored, the text marked as a fast-mode reply, and
    the events written are the [start] event, the tokens of the fragments
    and the [done] event with that text; the response is ended. *)
Definition fast_done (sessionId content : string) (fragments : list string)
    (t t' : turn) : Prop :=
  (exists contextMessages,
     ChatController.engineLog (ChatController.process t')
     = (ChatController.engineLog (ChatController.process t) ++ [contextMessages])%list)
  /\ ai_handoff_requests (ChatController.db (ChatController.process t'))
     = ai_handoff_requests (ChatController.db (ChatController.process t))
  /\ (exists assistant,
        ai_messages (ChatController.db (ChatController.process t'))
        = (ai_messages (ChatController.db (ChatController.process t)) ++ [assistant])%list
        /\ fast_row content assistant)
  /\ ChatController.writableEnded t' = true
  /\ exists started md finished,
       ChatController.written t'
       = (ChatController.written t
          ++ ChatController.EvStart sessionId started :: relayed "" fragments
          ++ [ChatController.EvDone sessionId content md finished])%list.

(** The token that announces the urgent advisory. *)
Definition announced (safetyMode : bool) (message : string) : list ChatController.sse :=
  if (safetyMode && EmergencyDetector.isUrgent (EmergencyDetector.detectEmergency message))%bool
  then [ChatController.EvToken (urgentPrefix safetyMode message)
          (urgentPrefix safetyMode message)]
  else [].



(** The rows a turn added to [ai_messages]. *)
Definition stored (w : world) (rows : list Msg.t) (t' : turn) : Prop :=
  ai_messages (ChatController.db (ChatController.process t'))
  = (ai_messages (ChatController.db w) ++ rows)%list.

(** The user's message as a turn stores it. *)
Definition question (message : string) (user : Msg.t) : Prop :=
  (Msg.role user, Msg.content user) = (User, message).

(** What a streaming turn leaves behind when the validator rejected the
    generated text: after the user's message at most one assistant message,
    holding the deflection and marked as overridden, and no [done] event
    with another text. *)
Definition overridden_stream (message : string) (w : world) (t' : turn) : Prop :=
  (exists user,
     question message user
     /\ (stored w [user] t'
         \/ exists assistant,
              stored w [user; assistant] t'
              /\ overridden ChatController.deflection assistant))
  /\ forall s m md ts,
       In (ChatController.EvDone s m md ts) (ChatController.written t') ->
       m = ChatController.deflection
       /\ md_get "safetyOverride" md = Some (JBool true).

(** What a streaming fast-mode turn leaves behind, whatever happens around
    it: one invocation of the engine, no handoff request, the user's message
    and after it at most one assistant message, and that only if the stream
    delivered a text: that text, marked as a fast-mode reply. *)
Definition fast_stream (message : string) (stream : LlamaService.engine_stream)
    (w : world) (t' : turn) : Prop :=
  (exists contextMessages,
     ChatController.engineLog (ChatController.process t')
     = (ChatController.engineLog w ++ [contextMessages])%list)
  /\ ai_handoff_requests (ChatController.db (ChatController.process t'))
     = ai_handoff_requests (ChatController.db w)
  /\ exists user,
       question message user
       /\ (stored w [user] t'
           \/ exists content assistant,
                delivered stream = Some content
                /\ stored w [user; assistant] t'
                /\ fast_row content assistant).

(** What a streaming fast-mode turn leaves behind when its stream delivers
    the text [content] and nothing but time passes: the user's message and
    the assistant's, the text marked as a fast-mode reply, and the events
    [start], one [token] per fragment, and [done] with that text. *)
Definition fast_stream_done (sessionId message content : string)
    (fragments : list string) (w : world) (t' : turn) : Prop :=
  (exists user assistant,
     question message user
     /\ stored w [user; assistant] t'
     /\ fast_row content assistant)
  /\ ChatController.writableEnded t' = true
  /\ exists started md finished,
       ChatController.written t'
       = (ChatController.EvStart sessionId started :: relayed "" fragments
          ++ [ChatController.EvDone sessionId content md finished])%list.

(** The answer of the non-streaming endpoint to a fast-mode turn whose
    engine call failed: 500, the engine invoked once, the user's message
    stored and no other, no handoff request. *)
Definition failed_reply (message : string) (w : world)
    (out : ChatController.response * world) : Prop :=
  fst out = ChatController.status_json 500 (ChatController.ErrorBody "INTERNAL_ERROR")
  /\ (exists contextMessages,
        ChatController.engineLog (snd out)
        = (ChatController.engineLog w ++ [contextMessages])%list)
  /\ (exists user,
        question message user
        /\ ai_messages (ChatController.db (snd out))
           = (ai_messages (ChatController.db w) ++ [user])%list)
  /\ ai_handoff_requests (ChatController.db (snd out))
     = ai_handoff_requests (ChatController.db w).


(** What a rejected streaming turn leaves behind: the store and the record
    of engine invocations as they were, the response ended, and at most the
    [error] event written. *)
Definition rejected_stream (error : string) (w : world) (t' : turn) : Prop :=
  ChatController.db (ChatController.process t') = ChatController.db w
  /\ ChatController.engineLog (ChatController.process t') = ChatController.engineLog w
  /\ ChatController.writableEnded t' = true
  /\ (ChatController.written t' = [ChatController.EvError error]
      \/ ChatController.written t' = []).

(** The answer of the non-streaming endpoint to an urgent turn: the stored
    text, which is also the text of the reply, is [final], and the reply is
    marked [urgentGuidance]. *)
Definition urgent_reply (sessionId final : string) (w : world)
    (out : ChatController.response * world) : Prop :=
  exists user assistant md timestamp,
    fst out = ChatController.json
                (ChatController.ReplyBody sessionId final Assistant md timestamp)
    /\ md_get "urgentGuidance" md = Some (JBool true)
    /\ ai_messages (ChatController.db (snd out))
       = (ai_messages (ChatController.db w) ++ [user; assistant])%list
    /\ (Msg.role assistant, Msg.content assistant) = (Assistant, final).

(** The text a safety-mode turn answers with, before the advisory. *)
Definition validated_text (content : string) : string :=
  if EmergencyDetector.isValid (EmergencyDetector.validateResponse content)
  then content else ChatController.deflection.

(** ** Scenarios *)

Module Scenario.

Definition sid : string := "3f2b8c1e-5a4d-4e6f-9b7a-0c1d2e3f4a5b".

Definition empty_store : database :=
  {| ai_conversations := []; ai_messages := []; ai_handoff_requests := [] |}.

(** One session, created at time 1000 in safety mode. *)
Definition store : database :=
  snd (ConversationService.createSession true 1000 sid None empty_store).

(** Its row in [ai_conversations]. *)
Definition conversation : Conv.t :=
  {| Conv.id := 1; Conv.session_id := sid; Conv.patient_id := None;
     Conv.status := AiActive; Conv.staff_id := None; Conv.created_at := 1000;
     Conv.updated_at := 1000; Conv.closed_at := None |}.

Definition at_time (now : Z) (d : database) : world :=
  {| ChatController.db := d; ChatController.clock := now;
     ChatController.activeSessions := ∅; ChatController.aborted := ∅;
     ChatController.controllers := 0; ChatController.engineLog := [] |}.

Definition w : world := at_time 2000 store.

(** The same session, closed at time 1500. *)
Definition closed : world :=
  at_time 2000 (snd (ConversationService.closeConversation 1500 sid store)).

(** The same session, taken over by staff member 7. *)
Definition taken : world := snd (HandoffController.takeoverChat sid (Some 7) w).

(** The same session, a day and a second later. *)
Definition expired : world := at_time 86402000 store.

Definition chest_pain : ChatController.request := patient_request sid "I have chest pain".
Definition high_fever : ChatController.request := patient_request sid "I have a high fever".
Definition headache : ChatController.request := patient_request sid "What helps with a headache?".

(** A reply the validator rejects. *)
Definition a_cold : LlamaService.engine_reply :=
  LlamaService.Completion "You have a cold." 6 40.
Definition a_cold_streamed : LlamaService.engine_stream :=
  LlamaService.Stream ["You have"; " a cold."] LlamaService.Stop.

Definition rest_well_reply : LlamaService.engine_reply :=
  LlamaService.Completion "Rest and drink water." 5 40.
Definition rest_well : LlamaService.engine_stream :=
  LlamaService.Stream ["Rest"; " and"; " drink"; " water."] LlamaService.Stop.

Definition contents (w : world) : list (role * string) :=
  List.map (fun m => (Msg.role m, Msg.content m)) (ai_messages (ChatController.db w)).

End Scenario.

(** ** Limits *)

(** The conversation has reached a limit at the time [now]: fifty messages
    or twenty-four hours. *)
Definition over_limits (now : Z) (conversation : Conv.t) (d : database) : Prop :=
  (SafetyRules.maxMessagesPerSession
   <= List.length (List.filter (ConversationService.of_conversation (Conv.id conversation))
                     (ai_messages d)))%nat
  \/ SafetyRules.maxSessionDurationHours * ConversationService.msPerHour
     <= now - Conv.created_at conversation.

(** ** Conversations and handoffs as the staff endpoints leave them *)

(** The conversation of the session, as the store has it. *)
Definition conversation_is (sessionId : string) (status : conv_status)
    (staffId : option Z) (closedAt : option Z) (w : world) : Prop :=
  exists conversation,
    ConversationService.getConversation sessionId (ChatController.db w) = Some conversation
    /\ Conv.status conversation = status
    /\ Conv.staff_id conversation = staffId
    /\ Conv.closed_at conversation = closedAt.

(** The handoff requests of a conversation that are in a given state. *)
Definition handoffs_in (conversationId : nat) (status : handoff_status) (w : world)
  : list nat :=
  List.map Handoff.id
    (List.filter (HandoffController.handoff_in conversationId status)
       (ai_handoff_requests (ChatController.db w))).

(** The messages a call added, by role and content. *)
Definition added (w w' : world) (rows : list (role * string)) : Prop :=
  Scenario.contents w' = (Scenario.contents w ++ rows)%list.

(** The store after a takeover at the time [now]. *)
Definition taken_over (now staffId : Z) (sessionId : string) (conversation : Conv.t)
    (d : database) : database :=
  with_message now (Conv.id conversation) System
    "A staff member has joined the conversation."
    [("staffId", JNum staffId); ("action", JStr "takeover")]
    (set_handoffs
       (sql_update (HandoffController.handoff_in (Conv.id conversation) Pending)
          (HandoffController.assign now staffId) (ai_handoff_requests d))
       (set_conversations
          (sql_update (ConversationService.by_session sessionId)
             (ConversationService.set_status now StaffTaken (Some staffId))
             (ai_conversations d)) d)).

(** The store after a release at the time [now]. *)
Definition released (now staffId : Z) (sessionId : string) (conversation : Conv.t)
    (d : database) : database :=
  with_message now (Conv.id conversation) System
    "The conversation has been returned to AI assistance."
    [("staffId", JNum staffId); ("action", JStr "release")]
    (set_handoffs
       (sql_update (HandoffController.handoff_in (Conv.id conversation) Assigned)
          (HandoffController.resolve now) (ai_handoff_requests d))
       (set_conversations
          (sql_update (ConversationService.by_session sessionId)
             (ConversationService.set_status now AiActive None)
             (ai_conversations d)) d)).

(** ** Vocabulary of the middleware *)

(** Every character of [s] satisfies [p]. *)
Fixpoint all_chars (p : ascii -> bool) (s : string) : bool :=
  match s with
  | EmptyString => true
  | String c s' => (p c && all_chars p s')%bool
  end.

(** [s] without the characters that do not satisfy [p]. *)
Fixpoint keep_chars (p : ascii -> bool) (s : string) : string :=
  match s with
  | EmptyString => EmptyString
  | String c s' => if p c then String c (keep_chars p s') else keep_chars p s'
  end.

(** [t] is [s] with some of its characters deleted. *)
Inductive subsequence : string -> string -> Prop :=
| subsequence_empty : subsequence "" ""
| subsequence_keep c t s : subsequence t s -> subsequence (String c t) (String c s)
| subsequence_drop c t s : subsequence t s -> subsequence t (String c s).

Definition is_gt (c : ascii) : bool := Ascii.eqb c ">".
Definition is_lt (c : ascii) : bool := Ascii.eqb c "<".

(** [s] holds a tag: a [<], one or more characters other than [>], and a [>]. *)
Definition tagged (s : string) : Prop :=
  exists a u v,
    s = a ++ "<" ++ u ++ ">" ++ v /\ u <> "" /\ all_chars (fun c => negb (is_gt c)) u = true.

Definition is_hex (c : ascii) : bool :=
  (Js.in_range 48 57 c || Js.in_range 97 102 c || Js.in_range 65 70 c)%bool.

(** The shape of a UUID: groups of 8, 4, 4, 4 and 12 hexadecimal digits
    of either case, with a dash between them, and nothing else. *)
Definition uuid_shape (s : string) : Prop :=
  exists a b c d e,
    s = a ++ "-" ++ b ++ "-" ++ c ++ "-" ++ d ++ "-" ++ e
    /\ String.length a = 8%nat /\ String.length b = 4%nat /\ String.length c = 4%nat
    /\ String.length d = 4%nat /\ String.length e = 12%nat
    /\ all_chars is_hex (a ++ b ++ c ++ d ++ e) = true.

(** A space, or a character that is neither white space nor a control
    character. *)
Definition plain_char (c : ascii) : bool :=
  (Ascii.eqb c " " || (negb (Js.is_space c) && negb (SafetyFilter.is_control c)))%bool.

Fixpoint repeat_char (n : nat) (c : ascii) : string :=
  match n with
  | O => EmptyString
  | S n' => String c (repeat_char n' c)
  end.

(** [s] holds [n] copies of one character in a row. *)
Definition has_run (n : nat) (s : string) : Prop :=
  exists a c b, s = a ++ repeat_char n c ++ b.

(** The text of a field that holds a string. *)
Definition text_of (f : SafetyFilter.field) : option string :=
  match f with
  | SafetyFilter.Text s => Some s
  | _ => None
  end.

(** [t] is what is left of [s] after some characters at its start. *)
Definition suffix_of (t s : string) : Prop := exists u, s = u ++ t.

(** A continuation that only moves forward in the input. *)
Definition advances (k : option ascii -> string -> option Pattern.position) : Prop :=
  forall p s q rest, k p s = Some (q, rest) -> suffix_of rest s.

(** A pattern whose matches are never empty. *)
Definition consuming (r : Pattern.pattern) : Prop :=
  forall prev s q rest,
    Pattern.exec r prev s = Some (q, rest) -> (String.length rest < String.length s)%nat.

(** [s] from its first character that does not satisfy [p]. *)
Fixpoint drop_while (p : ascii -> bool) (s : string) : string :=
  match s with
  | EmptyString => EmptyString
  | String c s' => if p c then drop_while p s' else s
  end.

(** A tag starts at the character [c] that is followed by [t]. *)
Definition tag_here (c : ascii) (t : string) : bool :=
  (is_lt c &&
   match t with
   | String d t' => negb (is_gt d) && negb (all_chars (fun c => negb (is_gt c)) t')
   | EmptyString => false
   end)%bool.

(** [tagged], decided. *)
Fixpoint has_tag (s : string) : bool :=
  match s with
  | EmptyString => false
  | String c t => (tag_here c t || has_tag t)%bool
  end.

(** The character before the position that follows [s]. *)
Fixpoint last_char (prev : option ascii) (s : string) : option ascii :=
  match s with
  | EmptyString => prev
  | String c s' => last_char (Some c) s'
  end.

(** ** Vocabulary of the store *)

(** The identifiers in use are among those the store has handed out: no
    conversation and no message refers to a conversation beyond the number
    of conversations. *)
Definition serial (d : database) : Prop :=
  Forall (fun c => (Conv.id c <= List.length (ai_conversations d))%nat) (ai_conversations d)
  /\ Forall (fun m => (Msg.conversation_id m <= List.length (ai_conversations d))%nat)
       (ai_messages d).

(** [rows] are the [limit] oldest of [messages], oldest first: together
    with the rows [later] they are all of [messages], each once; none of
    them was created later than a row that follows it or than a row left
    out. *)
Definition oldest (limit : nat) (messages rows : list Msg.t) : Prop :=
  exists later,
    Permutation (rows ++ later) messages
    /\ List.length rows = Nat.min limit (List.length messages)
    /\ (forall i j a b,
          (i < j)%nat -> rows !! i = Some a -> rows !! j = Some b ->
          Msg.created_at a <= Msg.created_at b)
    /\ (forall a b, In a rows -> In b later -> Msg.created_at a <= Msg.created_at b).

(** ** Vocabulary of the prompt *)

(** A message as the prompt shows it: under the label of its role and
    followed by a blank line when the user or the assistant wrote it, not at
    all otherwise. *)
Definition spoken (msg : role * string) : string :=
  match fst msg with
  | User => "User: " ++ snd msg ++ Prompt.newline ++ Prompt.newline
  | Assistant => "Assistant: " ++ snd msg ++ Prompt.newline ++ Prompt.newline
  | Staff | System => ""
  end.

(** The messages as the prompt shows them, one after the other. *)
Definition dialogue (messages : list (role * string)) : string :=
  List.fold_right String.append "" (List.map spoken messages).

(** * Proofs *)

(** ** Strings and classification *)

Section Strings.

Lemma append_empty_r (s : string) : s ++ "" = s.
Proof.
  induction s as [|c s IH]; [reflexivity|].
  change (String c (s ++ "") = String c s). now rewrite IH.
Qed.

Lemma append_assoc (a b c : string) : (a ++ b) ++ c = a ++ (b ++ c).
Proof.
  induction a as [|x a IH]; [reflexivity|].
  change (String x ((a ++ b) ++ c) = String x (a ++ (b ++ c))). now rewrite IH.
Qed.

Lemma falsy_empty (s : string) : Js.truthy s = false -> s = "".
Proof. now destruct s. Qed.

Lemma joined_app (l1 l2 : list string) : joined (l1 ++ l2) = joined l1 ++ joined l2.
Proof.
  induction l1 as [|f l1 IH]; [reflexivity|].
  change (f ++ joined (l1 ++ l2) = (f ++ joined l1) ++ joined l2).
  now rewrite IH, append_assoc.
Qed.

End Strings.

Section Classification.

Lemma nonempty_matching rules text :
  matches_keyword rules text ->
  EmergencyDetector.nonempty
    (EmergencyDetector.matching rules (Js.toLowerCase text)) = true.
Proof.
  intros (k & Hin & Hk). unfold EmergencyDetector.matching.
  assert (H : In k (List.filter
            (fun k => Js.includes (Js.toLowerCase text) (Js.toLowerCase k)) rules))
    by (apply List.filter_In; split; assumption).
  destruct (List.filter _ rules); [destruct H | reflexivity].
Qed.

Lemma detectEmergency_emergency message :
  matches_keyword SafetyRules.emergencyKeywords message ->
  EmergencyDetector.detectEmergency message
  = {| EmergencyDetector.isEmergency := true; EmergencyDetector.isUrgent := false;
       EmergencyDetector.priority := "emergency";
       EmergencyDetector.matchedKeywords :=
         EmergencyDetector.matching SafetyRules.emergencyKeywords (Js.toLowerCase message);
       EmergencyDetector.response := Some SafetyRules.emergencyResponse |}.
Proof.
  intros H. unfold EmergencyDetector.detectEmergency.
  now rewrite (nonempty_matching _ _ H).
Qed.

(** Whatever the middleware attached, the controller classifies the text
    of the message. *)
Lemma patient_request_emergency sessionId message :
  default (EmergencyDetector.detectEmergency message)
    (ChatController.emergencyDetection (patient_request sessionId message))
  = EmergencyDetector.detectEmergency message.
Proof.
  unfold patient_request, ChatController.emergencyDetectorMiddleware. cbn.
  now destruct (Js.truthy message).
Qed.

Lemma patient_request_prohibited sessionId message :
  default (EmergencyDetector.detectProhibitedTopic message)
    (ChatController.prohibitedDetection (patient_request sessionId message))
  = EmergencyDetector.detectProhibitedTopic message.
Proof.
  unfold patient_request, ChatController.emergencyDetectorMiddleware. cbn.
  now destruct (Js.truthy message).
Qed.

Lemma patient_request_sessionId sessionId message :
  ChatController.sessionId (patient_request sessionId message) = sessionId.
Proof.
  unfold patient_request, ChatController.emergencyDetectorMiddleware. cbn.
  now destruct (Js.truthy message).
Qed.

Lemma patient_request_message sessionId message :
  ChatController.message (patient_request sessionId message) = message.
Proof.
  unfold patient_request, ChatController.emergencyDetectorMiddleware. cbn.
  now destruct (Js.truthy message).
Qed.

(** The response of an urgent classification is the urgent advisory. *)
Lemma detectEmergency_urgent message :
  EmergencyDetector.isUrgent (EmergencyDetector.detectEmergency message) = true ->
  EmergencyDetector.response (EmergencyDetector.detectEmergency message)
  = Some SafetyRules.urgentResponse.
Proof.
  unfold EmergencyDetector.detectEmergency.
  destruct (EmergencyDetector.nonempty _); cbn; [discriminate|].
  destruct (EmergencyDetector.nonempty _); cbn; [reflexivity | discriminate].
Qed.

Lemma detectProhibited_refusal message :
  EmergencyDetector.isProhibited (EmergencyDetector.detectProhibitedTopic message) = true ->
  EmergencyDetector.refusal (EmergencyDetector.detectProhibitedTopic message)
  = Some SafetyRules.refusalResponse.
Proof.
  unfold EmergencyDetector.detectProhibitedTopic.
  destruct (EmergencyDetector.nonempty _); cbn; [reflexivity | discriminate].
Qed.

(** The canned texts pass the validator, so a rejected text is none of them. *)
Lemma deflection_valid :
  EmergencyDetector.isValid
    (EmergencyDetector.validateResponse ChatController.deflection) = true
  /\ EmergencyDetector.isValid
       (EmergencyDetector.validateResponse
          (SafetyRules.message SafetyRules.urgentResponse
           ++ ChatController.blank_line ++ ChatController.deflection)) = true.
Proof. split; vm_compute; reflexivity. Qed.

Lemma rejected_not_canned text :
  EmergencyDetector.isValid (EmergencyDetector.validateResponse text) = false ->
  text <> ChatController.deflection
  /\ text <> SafetyRules.message SafetyRules.urgentResponse
             ++ ChatController.blank_line ++ ChatController.deflection.
Proof.
  intros H. destruct deflection_valid as [H1 H2].
  split; intros ->; congruence.
Qed.

End Classification.

(** ** The conversation store *)

Section StoreFacts.

Lemma sql_update_nomatch {A} (p : A -> bool) (f : A -> A) (rows : list A) :
  List.find p rows = None -> sql_update p f rows = rows.
Proof.
  unfold sql_update. induction rows as [|r rows IH]; simpl; [reflexivity|].
  destruct (p r) eqn:E; [discriminate|]. intros H. now rewrite IH.
Qed.

Lemma sql_returning_nomatch {A} (p : A -> bool) (f : A -> A) (rows : list A) :
  List.find p rows = None -> sql_returning p f rows = [].
Proof.
  unfold sql_returning. induction rows as [|r rows IH]; simpl; [reflexivity|].
  destruct (p r) eqn:E; [discriminate|]. exact IH.
Qed.

Lemma sql_update_twice {A} (p : A -> bool) (f g : A -> A) (rows : list A) :
  (forall r, p r = true -> p (f r) = true) ->
  (forall r, g (f r) = g r) ->
  sql_update p g (sql_update p f rows) = sql_update p g rows.
Proof.
  intros Hp Hg. unfold sql_update. rewrite List.map_map.
  apply List.map_ext. intros r. destruct (p r) eqn:E.
  - now rewrite (Hp r E), Hg.
  - now rewrite E.
Qed.

Lemma set_conversations_same d : set_conversations (ai_conversations d) d = d.
Proof. now destruct d. Qed.

Lemma forallb_sql_update {A} (P p : A -> bool) (f : A -> A) (rows : list A) :
  (forall r, P r = true -> p r = true -> P (f r) = true) ->
  List.forallb P rows = true -> List.forallb P (sql_update p f rows) = true.
Proof.
  intros Hf. unfold sql_update. induction rows as [|r rows IH]; simpl; [easy|].
  intros [H1 H2]%andb_prop. rewrite (IH H2), andb_true_r.
  destruct (p r) eqn:E; [now apply Hf | exact H1].
Qed.

Lemma conversation_known sessionId d c :
  ConversationService.getConversation sessionId d = Some c -> known (Conv.id c) d.
Proof.
  intros H. apply List.find_some in H as [Hin _].
  apply List.existsb_exists. exists c. split; [exact Hin|].
  unfold ConversationService.by_id. apply Nat.eqb_refl.
Qed.

Lemma known_with_message cid now cid' r content md d :
  known cid d -> known cid (with_message now cid' r content md d).
Proof.
  unfold known, with_message, sql_update; simpl. intros H.
  induction (ai_conversations d) as [|c rows IH]; simpl in *; [discriminate|].
  apply orb_prop in H as [H|H].
  - apply orb_true_intro. left.
    destruct (ConversationService.by_id cid' c); exact H.
  - rewrite (IH H). apply orb_true_r.
Qed.

Lemma messages_with_message now cid r content md d :
  ai_messages (with_message now cid r content md d)
  = (ai_messages d ++ [message_row now cid r content md d])%list.
Proof. reflexivity. Qed.

Lemma handoffs_with_message now cid r content md d :
  ai_handoff_requests (with_message now cid r content md d) = ai_handoff_requests d.
Proof. reflexivity. Qed.

Lemma addMessage_known now cid r content md d :
  known cid d ->
  ConversationService.addMessage now cid r content md d
  = (inr (message_row now cid r content md d), with_message now cid r content md d).
Proof. intros H. unfold ConversationService.addMessage. now rewrite H. Qed.

Lemma createHandoffRequest_known cid reason p (w : world) :
  known cid (ChatController.db w) ->
  ChatController.createHandoffRequest cid reason p w
  = (let row := {| Handoff.id := next_id (ai_handoff_requests (ChatController.db w));
                   Handoff.conversation_id := cid; Handoff.reason := reason;
                   Handoff.priority := p; Handoff.status := Pending;
                   Handoff.assigned_staff_id := None; Handoff.assigned_at := None;
                   Handoff.resolved_at := None;
                   Handoff.created_at := ChatController.clock w |} in
     (inr row,
      ChatController.set_db
        (set_handoffs (ai_handoff_requests (ChatController.db w) ++ [row])%list
           (ChatController.db w)) w)).
Proof.
  intros H. unfold ChatController.createHandoffRequest, ChatController.query.
  unfold known in H. now rewrite H.
Qed.

Lemma getContextMessages_run sessionId d :
  ConversationService.getContextMessages sessionId 10 d
  = (inr (context_of sessionId d), d).
Proof.
  unfold context_of, ConversationService.getContextMessages.
  now destruct (ConversationService.getConversation sessionId d).
Qed.

Lemma not_taken c :
  Conv.status c <> StaffTaken -> conv_status_eqb (Conv.status c) StaffTaken = false.
Proof. now destruct (Conv.status c). Qed.

Lemma within_limits_run now sessionId d :
  within_limits now sessionId d ->
  exists l, ConversationService.checkLimits now sessionId d = (inr l, d)
            /\ ConversationService.exceeded l = false.
Proof.
  unfold within_limits, ConversationService.checkLimits.
  destruct (ConversationService.getConversation sessionId d); cbn; [|discriminate].
  repeat match goal with
         | |- context [if ?b then _ else _] => destruct b; cbn; [discriminate|]
         end.
  intros _. eexists. split; reflexivity.
Qed.

End StoreFacts.

(** ** Unknown sessions and closing *)

(** C8 as the code has it: for a session token no conversation has,
    [getContextMessages] returns the empty window and [closeConversation]
    returns without a row, neither of them failing. *)
Lemma unknown_session_counterexample :
  let unknown := "00000000-0000-4000-8000-000000000000" in
  ConversationService.getConversation unknown Scenario.store = None
  /\ ConversationService.getContextMessages unknown 10 Scenario.store
     = (inr [], Scenario.store)
  /\ ConversationService.closeConversation 3000 unknown Scenario.store
     = (inr None, Scenario.store).
Proof. vm_compute. repeat split; reflexivity. Qed.

(** C8, as it holds of the code: for a session token no conversation has,
    every operation leaves the store as it is; [getHistory] fails with the
    error [Conversation not found], [getContextMessages] returns the empty
    window, [checkLimits] reports the limit as exceeded with the reason
    [Conversation not found], and [updateStatus] and [closeConversation]
    return no row. *)
Theorem unknown_session_outcomes (now : Z) (sessionId : string) (limit maxMessages : nat)
    (status : conv_status) (staffId : option Z) (d : database) :
  ConversationService.getConversation sessionId d = None ->
  ConversationService.getHistory sessionId limit d
    = (inl (Err.Error "Conversation not found"), d)
  /\ ConversationService.getContextMessages sessionId maxMessages d = (inr [], d)
  /\ ConversationService.checkLimits now sessionId d
     = (inr {| ConversationService.exceeded := true;
               ConversationService.reason := Some "Conversation not found";
               ConversationService.messageCount := None |}, d)
  /\ ConversationService.updateStatus now sessionId status staffId d = (inr None, d)
  /\ ConversationService.closeConversation now sessionId d = (inr None, d).
Proof.
  intros H.
  unfold ConversationService.getHistory, ConversationService.getContextMessages,
    ConversationService.checkLimits, ConversationService.updateStatus,
    ConversationService.closeConversation.
  rewrite H. unfold ConversationService.getConversation in H.
  rewrite !(sql_update_nomatch _ _ _ H), !(sql_returning_nomatch _ _ _ H),
    set_conversations_same.
  repeat split.
Qed.

Lemma unknown_session_outcomes_witness :
  let unknown := "00000000-0000-4000-8000-000000000000" in
  ConversationService.getHistory unknown 50 Scenario.store
  = (inl (Err.Error "Conversation not found"), Scenario.store)
  /\ ConversationService.checkLimits 3000 unknown Scenario.store
     = (inr {| ConversationService.exceeded := true;
               ConversationService.reason := Some "Conversation not found";
               ConversationService.messageCount := None |}, Scenario.store)
  /\ ConversationService.updateStatus 3000 unknown Closed None Scenario.store
     = (inr None, Scenario.store).
Proof.
  refine ((fun H => conj (proj1 H)
                         (conj (proj1 (proj2 (proj2 H)))
                               (proj1 (proj2 (proj2 (proj2 H))))))
            (unknown_session_outcomes 3000 "00000000-0000-4000-8000-000000000000"
               50 10 Closed None Scenario.store _)).
  vm_compute. reflexivity.
Defined.

(** C9 as the code has it: closing a conversation that was closed at time
    1500 again at time 4000 sets [closed_at] to 4000. *)
Lemma second_close_restamps :
  let d1 := snd (ConversationService.closeConversation 1500 Scenario.sid Scenario.store) in
  let d2 := snd (ConversationService.closeConversation 4000 Scenario.sid d1) in
  option_map Conv.status (ConversationService.getConversation Scenario.sid d1) = Some Closed
  /\ option_map Conv.closed_at (ConversationService.getConversation Scenario.sid d1)
     = Some (Some 1500)
  /\ option_map Conv.closed_at (ConversationService.getConversation Scenario.sid d2)
     = Some (Some 4000).
Proof. vm_compute. repeat split; reflexivity. Qed.

(** C9, as it holds of the code: closing a conversation twice leaves the
    store that closing it once at the time of the second call leaves; the
    conversation of the session is closed, and its [closed_at] and
    [updated_at] are the time of the second call. *)
Theorem close_twice_last_wins (first second : Z) (sessionId : string) (d : database) :
  let d1 := snd (ConversationService.closeConversation first sessionId d) in
  let d2 := snd (ConversationService.closeConversation second sessionId d1) in
  d2 = snd (ConversationService.closeConversation second sessionId d)
  /\ forall c, In c (ai_conversations d2) -> Conv.session_id c = sessionId ->
       Conv.status c = Closed /\ Conv.closed_at c = Some second /\ Conv.updated_at c = second.
Proof.
  cbn. split.
  - unfold set_conversations; cbn. f_equal.
    apply sql_update_twice; [intros r H; exact H | reflexivity].
  - intros c Hin Hsid.
    unfold sql_update in Hin.
    apply List.in_map_iff in Hin as (c1 & <- & Hin).
    destruct (ConversationService.by_session sessionId c1) eqn:E in Hsid |- *.
    + repeat split.
    + unfold ConversationService.by_session in E.
      apply String.eqb_neq in E. contradiction.
Qed.

(** ** Ownership *)

Section Ownership.

(** Adding a message touches [updated_at] only. *)
Lemma addMessage_keeps (P : Conv.t -> bool) now cid r content md d :
  (forall t c, P (ConversationService.touch t c) = P c) ->
  List.forallb P (ai_conversations d) = true ->
  List.forallb P
    (ai_conversations (snd (ConversationService.addMessage now cid r content md d))) = true.
Proof.
  intros Ht H. unfold ConversationService.addMessage.
  destruct (List.existsb _ _); cbn; [|exact H].
  apply forallb_sql_update; [|exact H].
  intros c Hc _. now rewrite Ht.
Qed.

Lemma takeover_keeps (P : Conv.t -> bool) sessionId user w :
  (forall t c, P (ConversationService.touch t c) = P c) ->
  (forall t id c, P (ConversationService.set_status t StaffTaken (Some id) c) = true) ->
  every_conversation P w ->
  every_conversation P (snd (HandoffController.takeoverChat sessionId user w)).
Proof.
  intros Ht Hs H. unfold HandoffController.takeoverChat.
  destruct (HandoffController.missing user); [exact H|].
  unfold HandoffController.takeoverChat_try, Async.bind, ChatController.query,
    Async.gets, Async.ret, HandoffController.update_handoffs. cbn.
  destruct (ConversationService.getConversation sessionId (ChatController.db w));
    cbn; [|exact H].
  match goal with
  | |- context [ConversationService.addMessage ?n ?c ?r ?x ?m ?d] =>
      pose proof (addMessage_keeps P n c r x m d Ht) as K;
      destruct (ConversationService.addMessage n c r x m d) as [[e|row] d']
  end; cbn in *; apply K; apply forallb_sql_update; auto.
Qed.

Lemma release_keeps (P : Conv.t -> bool) sessionId user w :
  (forall t c, P (ConversationService.touch t c) = P c) ->
  (forall t c, P (ConversationService.set_status t AiActive None c) = true) ->
  every_conversation P w ->
  every_conversation P (snd (HandoffController.releaseChat sessionId user w)).
Proof.
  intros Ht Hs H. unfold HandoffController.releaseChat.
  destruct (HandoffController.missing user); [exact H|].
  unfold HandoffController.releaseChat_try, Async.bind, ChatController.query,
    Async.gets, Async.ret, HandoffController.update_handoffs. cbn.
  destruct (ConversationService.getConversation sessionId (ChatController.db w));
    cbn; [|exact H].
  destruct (negb _); cbn; [exact H|].
  match goal with
  | |- context [ConversationService.addMessage ?n ?c ?r ?x ?m ?d] =>
      pose proof (addMessage_keeps P n c r x m d Ht) as K;
      destruct (ConversationService.addMessage n c r x m d) as [[e|row] d']
  end; cbn in *; apply K; apply forallb_sql_update; auto.
Qed.

Lemma close_keeps_open sessionId w :
  every_conversation open_owned_iff_taken w ->
  every_conversation open_owned_iff_taken (snd (ChatController.closeSession sessionId w)).
Proof.
  intros H. unfold ChatController.closeSession, ChatController.query. cbn.
  apply forallb_sql_update; [|exact H]. reflexivity.
Qed.

End Ownership.

(** C10 as the code has it: closing a conversation that a staff member has
    taken leaves it closed with its [staff_id] set. *)
Lemma close_keeps_staff_id :
  let w' := snd (ChatController.closeSession Scenario.sid Scenario.taken) in
  List.forallb owned_iff_taken (ai_conversations (ChatController.db Scenario.taken)) = true
  /\ List.map (fun c => (Conv.status c, Conv.staff_id c))
       (ai_conversations (ChatController.db w'))
     = [(Closed, Some 7)]
  /\ List.forallb owned_iff_taken (ai_conversations (ChatController.db w')) = false.
Proof. vm_compute. repeat split; reflexivity. Qed.

(** C10, as it holds of the code: takeover, release and closing keep
    [staff_id] non-null exactly when the status is [staff-taken] in every
    conversation that is not closed, and takeover and release keep it so in
    every conversation. *)
Theorem ownership_invariant (sessionId : string) (user : option Z) (w : world) :
  every_conversation open_owned_iff_taken w ->
  every_conversation open_owned_iff_taken (snd (HandoffController.takeoverChat sessionId user w))
  /\ every_conversation open_owned_iff_taken (snd (HandoffController.releaseChat sessionId user w))
  /\ every_conversation open_owned_iff_taken (snd (ChatController.closeSession sessionId w))
  /\ (every_conversation owned_iff_taken w ->
      every_conversation owned_iff_taken (snd (HandoffController.takeoverChat sessionId user w))
      /\ every_conversation owned_iff_taken (snd (HandoffController.releaseChat sessionId user w))).
Proof.
  intros H. repeat split.
  - apply takeover_keeps; auto.
  - apply release_keeps; auto.
  - now apply close_keeps_open.
  - apply takeover_keeps; auto.
  - apply release_keeps; auto.
Qed.

Lemma ownership_invariant_witness :
  every_conversation open_owned_iff_taken Scenario.taken
  /\ every_conversation open_owned_iff_taken
       (snd (ChatController.closeSession Scenario.sid Scenario.taken))
  /\ every_conversation owned_iff_taken
       (snd (HandoffController.releaseChat Scenario.sid (Some 7) Scenario.taken)).
Proof.
  refine ((fun (H0 : every_conversation open_owned_iff_taken Scenario.taken) H =>
             conj H0 (conj (proj1 (proj2 (proj2 (H H0))))
                           (proj2 (proj2 (proj2 (proj2 (H H0))) _))))
            _ (ownership_invariant Scenario.sid (Some 7) Scenario.taken)).
  all: vm_compute; reflexivity.
Defined.

(** ** The event loop *)

Section EventLoop.

Import ChatController.

Lemma disturbed_twice c m a n k k' s c1 m1 a1 n1 k1 s1 t :
  k = k' ->
  disturbed c m a n k s (disturbed c1 m1 a1 n1 k1 s1 t) = disturbed c m a n k' s t.
Proof. now intros ->. Qed.

Lemma disturbed_refl t :
  t = disturbed (isCancelled t) (activeSessions (process t)) (aborted (process t))
        (controllers (process t)) (clock (process t)) (schedule t) t.
Proof. now destruct t as [[d k m a n l] s ac c fc we wr sch]. Qed.

Lemma elapsed_cons e batch : elapsed (e :: batch) = elapsed [e] + elapsed batch.
Proof. destruct e; simpl; lia. Qed.

Lemma quiet_cons e batch : quiet (e :: batch) = (quiet [e] && quiet batch)%bool.
Proof. unfold quiet; simpl. now rewrite andb_true_r. Qed.

(** One outside event reaches the flags, the registry, the signals and the
    clock; the passing of time reaches the clock only. *)
Lemma deliver_shape e t :
  exists c m a n,
    deliver e t = disturbed c m a n (clock (process t) + elapsed [e]) (schedule t) t
    /\ (quiet [e] = true ->
        c = isCancelled t /\ m = activeSessions (process t) /\ a = aborted (process t)
        /\ n = controllers (process t)).
Proof.
  destruct t as [[d k m a n l] s ac c fc we wr sch].
  destruct e as [ms|sid| |sid|sid]; simpl.
  - exists c, m, a, n. unfold disturbed; simpl. rewrite Z.add_0_r. now split.
  - unfold cancelGeneration; simpl.
    destruct (negb (Js.truthy sid)); simpl;
      [exists c, m, a, n; unfold disturbed; simpl; rewrite Z.add_0_r; now split|].
    destruct (m !! sid) as [sd|]; simpl.
    + eexists c, _, _, _. unfold disturbed; simpl. rewrite Z.add_0_r.
      split; [reflexivity | discriminate].
    + exists c, m, a, n. unfold disturbed; simpl. rewrite Z.add_0_r. now split.
  - unfold on_close; simpl.
    destruct (m !! s) as [sd|]; simpl.
    + destruct (SessionData.isCancelled sd); simpl; destruct we; simpl;
        eexists _, _, _, _; unfold disturbed; simpl; rewrite Z.add_0_r;
        (split; [reflexivity | discriminate]).
    + destruct we; simpl;
        eexists _, _, _, _; unfold disturbed; simpl; rewrite Z.add_0_r;
        (split; [reflexivity | discriminate]).
  - eexists c, _, _, _. unfold disturbed, register; simpl. rewrite Z.add_0_r.
    split; [reflexivity | discriminate].
  - eexists c, _, _, _. unfold disturbed, deregister; simpl. rewrite Z.add_0_r.
    split; [reflexivity | discriminate].
Qed.

Lemma deliver_all_shape batch t :
  exists c m a n,
    deliver_all batch t
    = disturbed c m a n (clock (process t) + elapsed batch) (schedule t) t
    /\ (quiet batch = true ->
        c = isCancelled t /\ m = activeSessions (process t) /\ a = aborted (process t)
        /\ n = controllers (process t)).
Proof.
  revert t. induction batch as [|e batch IH]; intros t.
  - exists (isCancelled t), (activeSessions (process t)), (aborted (process t)),
      (controllers (process t)).
    split; [|now intros _].
    change (elapsed []) with 0. rewrite Z.add_0_r. apply disturbed_refl.
  - simpl deliver_all. destruct (deliver_shape e t) as (c1 & m1 & a1 & n1 & -> & Q1).
    destruct (IH (disturbed c1 m1 a1 n1 (clock (process t) + elapsed [e]) (schedule t) t))
      as (c & m & a & n & -> & Q).
    exists c, m, a, n. split.
    + apply disturbed_twice. rewrite (elapsed_cons e batch).
      change (clock (process (disturbed c1 m1 a1 n1 (clock (process t) + elapsed [e])
                                (schedule t) t)))
        with (clock (process t) + elapsed [e]).
      lia.
    + rewrite quiet_cons. intros [H1 H2]%andb_prop.
      destruct (Q1 H1) as (-> & -> & -> & ->). exact (Q H2).
Qed.

(** [await]: the outside events of the next batch, then the query. *)
Lemma await_shape {A} (q : Async.M world A) t :
  exists c m a n,
    await q t
    = in_process q
        (disturbed c m a n (clock (process t) + elapsed (List.hd [] (schedule t)))
           (List.tl (schedule t)) t)
    /\ (quiet (List.hd [] (schedule t)) = true ->
        c = isCancelled t /\ m = activeSessions (process t) /\ a = aborted (process t)
        /\ n = controllers (process t)).
Proof.
  unfold await, Async.bind, Async.modify, next_batch.
  destruct t as [[d k m a n l] s ac c fc we wr sch]. simpl.
  destruct sch as [|batch sch]; simpl.
  - exists c, m, a, n. unfold disturbed; simpl. rewrite Z.add_0_r. now split.
  - match goal with |- context [deliver_all batch ?t0] =>
      destruct (deliver_all_shape batch t0) as (c' & m' & a' & n' & -> & Q) end.
    exists c', m', a', n'. split; [reflexivity | exact Q].
Qed.

(** The event [StreamOpened] is what the opening of a turn does to the
    process. *)
Lemma open_turn_registers req pending (w : world) :
  process (open_turn req pending w) = register (sessionId req) w.
Proof. reflexivity. Qed.

Lemma sendEvent_run e t :
  sendEvent e t
  = (inr tt,
     set_written
       (written t ++
        (if (negb (isCancelled t) && negb (writableEnded t))%bool then [e] else []))%list
       t).
Proof.
  unfold sendEvent, Async.modify.
  destruct (negb (isCancelled t) && negb (writableEnded t))%bool; [reflexivity|].
  rewrite List.app_nil_r. now destruct t.
Qed.

Lemma delete_session_shape t :
  exists m,
    delete_session t
    = (inr tt, disturbed (isCancelled t) m (aborted (process t))
                 (controllers (process t)) (clock (process t)) (schedule t) t).
Proof.
  destruct t as [[d k m a n l] s ac c fc we wr sch].
  now exists (delete s m).
Qed.

End EventLoop.

(** ** A call of the engine under outside events *)

Section EngineCall.

Import ChatController.

Lemma streamed_refl t :
  t = streamed (isCancelled t) (activeSessions (process t)) (aborted (process t))
        (controllers (process t)) (clock (process t)) (schedule t) (fullContent t) [] t.
Proof.
  destruct t as [[d k m a n l] s ac c fc we wr sch]. unfold streamed; simpl.
  now rewrite List.app_nil_r.
Qed.

Lemma streamed_of_disturbed c m a n k s t :
  disturbed c m a n k s t = streamed c m a n k s (fullContent t) [] t.
Proof. unfold disturbed, streamed. now rewrite List.app_nil_r. Qed.

Lemma streamed_twice c m a n k s fc toks c1 m1 a1 n1 k1 s1 fc1 toks1 t :
  streamed c m a n k s fc toks (streamed c1 m1 a1 n1 k1 s1 fc1 toks1 t)
  = streamed c m a n k s fc (toks1 ++ toks)%list t.
Proof. unfold streamed; simpl. now rewrite List.app_assoc. Qed.

Lemma deliver_until_abort_shape batch t :
  exists c m a n k, deliver_until_abort batch t = disturbed c m a n k (schedule t) t.
Proof.
  revert t. induction batch as [|e batch IH]; intros t; simpl.
  - do 5 eexists. apply disturbed_refl.
  - destruct (deliver_shape e t) as (c1 & m1 & a1 & n1 & -> & _).
    destruct (fired _); [now eexists _, _, _, _, _|].
    match goal with |- context [deliver_until_abort batch ?t0] =>
      destruct (IH t0) as (c & m & a & n & k & ->) end.
    now exists c, m, a, n, k.
Qed.

Lemma wait_engine_shape t :
  exists f c m a n k s, wait_engine t = (inr f, disturbed c m a n k s t).
Proof.
  unfold wait_engine. destruct (fired t).
  - exists true. do 6 eexists. f_equal. apply disturbed_refl.
  - unfold next_batch. destruct (schedule t) as [|batch rest] eqn:E.
    + exists (fired t). do 6 eexists. f_equal. apply disturbed_refl.
    + destruct (deliver_until_abort_shape batch (set_schedule rest t))
        as (c & m & a & n & k & ->).
      now eexists _, c, m, a, n, k, _.
Qed.

Lemma onToken_shape token t :
  exists fc toks,
    onToken token t
    = (inr tt, streamed (isCancelled t) (activeSessions (process t))
                 (aborted (process t)) (controllers (process t)) (clock (process t))
                 (schedule t) fc toks t)
    /\ List.forallb is_token toks = true.
Proof.
  destruct t as [[d k m a n l] s ac c fc we wr sch].
  unfold onToken, sendEvent, Async.bind, Async.gets, Async.modify, Async.ret; simpl.
  destruct c; simpl.
  - exists fc, []. unfold streamed; simpl. now rewrite List.app_nil_r.
  - destruct we; simpl.
    + exists (fc ++ token), []. unfold streamed; simpl. now rewrite List.app_nil_r.
    + now exists (fc ++ token), [EvToken token (fc ++ token)].
Qed.

Lemma read_stream_shape fragments : forall acc count t,
  exists r c m a n k s fc toks,
    LlamaService.read_stream wait_engine onToken fragments acc count t
    = (r, streamed c m a n k s fc toks t)
    /\ List.forallb is_token toks = true
    /\ forall res, r = inr res -> fst res = acc ++ joined fragments.
Proof.
  induction fragments as [|f fragments IH]; intros acc count t; simpl.
  - exists (inr (acc, count)). do 8 eexists. split; [|split].
    + unfold Async.ret. f_equal. apply streamed_refl.
    + reflexivity.
    + intros res [= <-]. simpl. now rewrite append_empty_r.
  - unfold Async.bind at 1.
    destruct (wait_engine_shape t) as (fd & c1 & m1 & a1 & n1 & k1 & s1 & ->).
    rewrite streamed_of_disturbed.
    destruct fd.
    + exists (inl (Err.Error "AbortError")). do 8 eexists.
      split; [reflexivity|]. split; [reflexivity | discriminate].
    + destruct (Js.truthy f) eqn:Ef.
      * unfold Async.bind at 1.
        match goal with |- context [onToken f ?t0] =>
          destruct (onToken_shape f t0) as (fc2 & toks2 & -> & Htoks2) end.
        rewrite streamed_twice.
        match goal with |- context [LlamaService.read_stream _ _ _ ?x ?y ?t0] =>
          destruct (IH x y t0) as (r & c & m & a & n & k & s & fc & toks & -> & Htoks & Hr) end.
        rewrite streamed_twice.
        exists r. do 8 eexists. split; [reflexivity|]. split.
        -- simpl. rewrite List.forallb_app, Htoks2. exact Htoks.
        -- intros res E. rewrite (Hr res E). apply append_assoc.
      * match goal with |- context [LlamaService.read_stream _ _ _ ?x ?y ?t0] =>
          destruct (IH x y t0) as (r & c & m & a & n & k & s & fc & toks & -> & Htoks & Hr) end.
        rewrite streamed_twice.
        exists r. do 8 eexists. split; [reflexivity|]. split; [exact Htoks|].
        intros res E. rewrite (Hr res E). now rewrite (falsy_empty _ Ef).
Qed.

(** An engine call, whatever happens meanwhile: it leaves the store alone,
    writes nothing but [token] events, and its result, if any, is the text
    of the stream with the control tokens stripped. *)
Lemma generate_shape contextMessages stream t :
  exists r c m a n k s fc toks,
    generateStreamingResponse contextMessages stream t
    = (r, streamed c m a n k s fc toks (logged contextMessages t))
    /\ List.forallb is_token toks = true
    /\ forall ai, r = inr ai ->
         exists fragments finish,
           stream = LlamaService.Stream fragments finish
           /\ delivers fragments finish = true
           /\ LlamaService.content ai
              = LlamaService.strip_control_tokens (joined fragments).
Proof.
  unfold generateStreamingResponse, LlamaService.generateStreamingResponse.
  unfold Async.bind at 1. unfold in_process, Async.zoom, Async.modify at 1.
  fold (logged contextMessages t). generalize (logged contextMessages t) as t0.
  intros t0. unfold Async.bind at 1. unfold now at 1. unfold Async.gets at 1.
  unfold Async.bind at 1.
  destruct (wait_engine_shape t0) as (fd & c1 & m1 & a1 & n1 & k1 & s1 & ->).
  rewrite streamed_of_disturbed.
  destruct fd.
  { exists (inl Err.CanceledError). do 8 eexists.
    split; [reflexivity|]. split; [reflexivity | discriminate]. }
  destruct stream as [e|fragments finish].
  { exists (inl e). do 8 eexists.
    split; [reflexivity|]. split; [reflexivity | discriminate]. }
  unfold Async.bind at 1.
  match goal with |- context [LlamaService.read_stream _ _ _ ?x ?y ?t1] =>
    destruct (read_stream_shape fragments x y t1)
      as (r & c & m & a & n & k & s & fc & toks & -> & Htoks & Hr) end.
  rewrite streamed_twice. simpl List.app.
  destruct r as [e|[text count]].
  { exists (inl e). do 8 eexists.
    split; [reflexivity|]. split; [exact Htoks | discriminate]. }
  specialize (Hr _ eq_refl). simpl in Hr. subst text.
  unfold Async.bind at 1.
  match goal with |- context [wait_engine ?t1] =>
    destruct (wait_engine_shape t1) as (fd & c2 & m2 & a2 & n2 & k2 & s2 & ->) end.
  rewrite streamed_of_disturbed, streamed_twice, List.app_nil_r.
  destruct fd.
  { exists (inl (Err.Error "AbortError")). do 8 eexists.
    split; [reflexivity|]. split; [exact Htoks | discriminate]. }
  unfold Async.bind, now, Async.gets, Async.ret, Async.throw.
  destruct finish as [| |e].
  - eexists (inr _). do 8 eexists. split; [reflexivity|]. split; [exact Htoks|].
    intros ai [= <-]. now exists fragments, LlamaService.Stop.
  - destruct (Js.truthy _) eqn:Et.
    + eexists (inr _). do 8 eexists. split; [reflexivity|]. split; [exact Htoks|].
      intros ai [= <-]. now exists fragments, LlamaService.EndOfStream.
    + eexists (inl _). do 8 eexists.
      split; [reflexivity|]. split; [exact Htoks | discriminate].
  - exists (inl e). do 8 eexists.
    split; [reflexivity|]. split; [exact Htoks | discriminate].
Qed.

(** *** When nothing but time passes *)

Lemma fired_disturbed c m a n k s t :
  fired (disturbed c m a n k s t) = bool_decide (abortController t ∈ a).
Proof. reflexivity. Qed.

Lemma deliver_until_abort_quiet batch : forall t,
  quiet batch = true -> fired t = false ->
  deliver_until_abort batch t
  = disturbed (isCancelled t) (activeSessions (process t)) (aborted (process t))
      (controllers (process t)) (clock (process t) + elapsed batch) (schedule t) t.
Proof.
  induction batch as [|e batch IH]; intros t Hq Hf.
  - change (elapsed []) with 0. rewrite Z.add_0_r. apply disturbed_refl.
  - rewrite quiet_cons in Hq. apply andb_prop in Hq as [H1 H2].
    simpl deliver_until_abort.
    destruct (deliver_shape e t) as (c1 & m1 & a1 & n1 & -> & Q1).
    destruct (Q1 H1) as (-> & -> & -> & ->).
    rewrite fired_disturbed. fold (signal_fired (abortController t) (process t)).
    fold (fired t). rewrite Hf.
    rewrite IH; [|exact H2|exact Hf].
    apply disturbed_twice. rewrite (elapsed_cons e batch).
    change (clock (process (disturbed (isCancelled t) (activeSessions (process t))
                              (aborted (process t)) (controllers (process t))
                              (clock (process t) + elapsed [e]) (schedule t) t)))
      with (clock (process t) + elapsed [e]).
    lia.
Qed.

Lemma wait_engine_quiet t :
  fired t = false -> quiet (List.hd [] (schedule t)) = true ->
  wait_engine t
  = (inr false,
     disturbed (isCancelled t) (activeSessions (process t)) (aborted (process t))
       (controllers (process t))
       (clock (process t) + elapsed (List.hd [] (schedule t)))
       (List.tl (schedule t)) t).
Proof.
  intros Hf Hq. unfold wait_engine, next_batch. rewrite Hf.
  destruct t as [[d k m a n l] s ac c fc we wr sch].
  destruct sch as [|batch rest]; simpl in *.
  - rewrite Hf. unfold disturbed; simpl. now rewrite Z.add_0_r.
  - rewrite deliver_until_abort_quiet; [|exact Hq|exact Hf]. simpl.
    unfold fired, signal_fired in *; simpl in *. now rewrite Hf.
Qed.

Lemma elapsed_app b1 b2 : elapsed (b1 ++ b2) = elapsed b1 + elapsed b2.
Proof.
  induction b1 as [|e b1 IH]; [reflexivity|].
  change ((e :: b1) ++ b2)%list with (e :: (b1 ++ b2))%list.
  rewrite (elapsed_cons e (b1 ++ b2)), (elapsed_cons e b1), IH. lia.
Qed.

Lemma counted_cons f fragments :
  counted (f :: fragments)
  = (if Js.truthy f then 1 else 0) + counted fragments.
Proof.
  unfold counted; simpl. destruct (Js.truthy f); simpl List.length; lia.
Qed.

(** While only time passes, every fragment is relayed. *)
Lemma read_stream_quiet fragments1 : forall fragments2 acc count t,
  isCancelled t = false -> writableEnded t = false -> fired t = false ->
  List.forallb quiet (List.firstn (List.length fragments1) (schedule t)) = true ->
  LlamaService.read_stream wait_engine onToken (fragments1 ++ fragments2) acc count t
  = LlamaService.read_stream wait_engine onToken fragments2
      (acc ++ joined fragments1) (count + counted fragments1)
      (streamed false (activeSessions (process t)) (aborted (process t))
         (controllers (process t))
         (clock (process t)
          + elapsed (List.concat (List.firstn (List.length fragments1) (schedule t))))
         (List.skipn (List.length fragments1) (schedule t))
         (fullContent t ++ joined fragments1)
         (relayed (fullContent t) fragments1) t).
Proof.
  induction fragments1 as [|f fs IH]; intros fragments2 acc count t Hc Hw Hf Hq.
  - destruct t as [[d k m a n l] s ac c fc we wr sch]. simpl in *. subst c.
    unfold streamed; simpl.
    change (counted []) with 0. change (elapsed []) with 0.
    now rewrite !append_empty_r, !Z.add_0_r, List.app_nil_r.
  - change ((f :: fs) ++ fragments2)%list with (f :: (fs ++ fragments2))%list.
    simpl LlamaService.read_stream. unfold Async.bind at 1.
    assert (Hq1 : quiet (List.hd [] (schedule t)) = true
                  /\ List.forallb quiet
                       (List.firstn (List.length fs) (List.tl (schedule t))) = true).
    { destruct (schedule t) as [|b rest]; simpl in *.
      - split; [reflexivity|]. now destruct (List.length fs).
      - now apply andb_prop in Hq. }
    destruct Hq1 as [Hq1 Hq2].
    rewrite (wait_engine_quiet t Hf Hq1).
    assert (Ek : elapsed (List.concat (List.firstn (S (List.length fs)) (schedule t)))
                 = elapsed (List.hd [] (schedule t))
                   + elapsed (List.concat
                                (List.firstn (List.length fs) (List.tl (schedule t))))).
    { destruct (schedule t) as [|b rest]; simpl List.firstn; simpl List.concat.
      - simpl List.hd. simpl List.tl. now destruct (List.length fs).
      - apply elapsed_app. }
    assert (Es : List.skipn (S (List.length fs)) (schedule t)
                 = List.skipn (List.length fs) (List.tl (schedule t))).
    { destruct (schedule t) as [|b rest]; simpl; [now destruct (List.length fs)|reflexivity]. }
    rewrite Ek, Es, (counted_cons f fs).
    destruct t as [[d k m a n l] s ac c fc we wr sch]. simpl in *. subst c we.
    destruct (Js.truthy f) eqn:Et.
    + unfold Async.bind at 1.
      unfold onToken, sendEvent, Async.bind, Async.gets, Async.modify, Async.ret,
        disturbed; simpl.
      rewrite IH; simpl; auto.
      f_equal;
        first [ apply append_assoc
              | lia
              | unfold streamed; simpl;
                now rewrite append_assoc, <- List.app_assoc, Z.add_assoc ].
    + unfold disturbed. rewrite IH; simpl; auto.
      rewrite (falsy_empty _ Et).
      change ("" ++ joined fs) with (joined fs).
      f_equal; first [ lia | unfold streamed; simpl; now rewrite Z.add_assoc ].
Qed.

(** *** When a cancellation arrives *)


Lemma deliver_session e t : session (deliver e t) = session t.
Proof. destruct (deliver_shape e t) as (c & m & a & n & -> & _). reflexivity. Qed.



Lemma cancellable_streamed c n k s fc toks t :
  cancellable t ->
  cancellable (streamed c (activeSessions (process t)) (aborted (process t)) n k s fc toks t).
Proof. intros H. exact H. Qed.



End EngineCall.

(** *** A call that runs to its end *)

Section EngineQuiet.

Import ChatController.

Lemma forallb_hd {A} (p : list A -> bool) (l : list (list A)) :
  List.forallb p l = true -> p [] = true -> p (List.hd [] l) = true.
Proof. destruct l as [|b l]; simpl; [auto|]. now intros [H _]%andb_prop. Qed.

Lemma forallb_tl {A} (p : A -> bool) (l : list A) :
  List.forallb p l = true -> List.forallb p (List.tl l) = true.
Proof. destruct l as [|b l]; simpl; [auto|]. now intros [_ H]%andb_prop. Qed.

Lemma forallb_firstn {A} (p : A -> bool) (n : nat) : forall l,
  List.forallb p l = true -> List.forallb p (List.firstn n l) = true.
Proof.
  induction n as [|n IH]; intros [|x l]; simpl; auto.
  intros [H1 H2]%andb_prop. rewrite H1. now apply IH.
Qed.

Lemma forallb_skipn {A} (p : A -> bool) (n : nat) : forall l,
  List.forallb p l = true -> List.forallb p (List.skipn n l) = true.
Proof.
  induction n as [|n IH]; intros [|x l]; simpl; auto.
  intros [H1 H2]%andb_prop. now apply IH.
Qed.

Lemma skipn_tl {A} (n : nat) (l : list A) :
  List.skipn n (List.tl l) = List.skipn (S n) l.
Proof. destruct l; simpl; [now destruct n | reflexivity]. Qed.

Lemma tl_skipn {A} (n : nat) : forall l : list A,
  List.tl (List.skipn n l) = List.skipn (S n) l.
Proof.
  induction n as [|n IH]; intros l; [reflexivity|].
  destruct l as [|x l]; [reflexivity|]. simpl List.skipn at 1. rewrite IH. reflexivity.
Qed.

(** An engine call during which nothing but time passes: every fragment is
    relayed, and the call returns the text that the stream delivers. *)
Lemma generate_quiet contextMessages fragments finish t :
  isCancelled t = false -> writableEnded t = false -> fired t = false ->
  List.forallb quiet (schedule t) = true ->
  delivers fragments finish = true ->
  exists ai k,
    generateStreamingResponse contextMessages (LlamaService.Stream fragments finish) t
    = (inr ai,
       streamed false (activeSessions (process t)) (aborted (process t))
         (controllers (process t)) k
         (List.skipn (S (S (List.length fragments))) (schedule t))
         (fullContent t ++ joined fragments) (relayed (fullContent t) fragments)
         (logged contextMessages t))
    /\ LlamaService.content ai = LlamaService.strip_control_tokens (joined fragments).
Proof.
  intros Hc Hw Hf Hq Hd.
  unfold generateStreamingResponse, LlamaService.generateStreamingResponse.
  unfold Async.bind at 1. unfold in_process, Async.zoom, Async.modify at 1.
  fold (logged contextMessages t).
  destruct t as [[d k m a n l] s ac c fc we wr sch]. simpl in Hc, Hw, Hq. subst c we.
  unfold logged, set_process, set_engineLog. simpl.
  unfold Async.bind at 1. unfold now at 1. unfold Async.gets at 1.
  unfold Async.bind at 1.
  rewrite wait_engine_quiet; [|exact Hf|simpl; apply forallb_hd; [exact Hq|reflexivity]].
  unfold disturbed. simpl.
  replace (LlamaService.read_stream wait_engine onToken fragments)
    with (LlamaService.read_stream wait_engine onToken (fragments ++ [])%list)
    by (now rewrite List.app_nil_r).
  unfold Async.bind at 1.
  rewrite read_stream_quiet;
    [ | reflexivity | reflexivity | exact Hf
      | simpl; apply forallb_firstn, forallb_tl; exact Hq ].
  simpl LlamaService.read_stream. unfold Async.ret at 1. unfold streamed. simpl.
  change ("" ++ joined fragments) with (joined fragments).
  unfold Async.bind at 1.
  rewrite wait_engine_quiet;
    [ | exact Hf
      | simpl; apply forallb_hd; [apply forallb_skipn, forallb_tl; exact Hq|reflexivity] ].
  unfold disturbed. simpl.
  rewrite tl_skipn, !skipn_tl.
  unfold Async.bind, now, Async.gets, Async.ret, Async.throw. simpl.
  destruct finish as [| |e]; simpl in Hd; [| rewrite Hd | discriminate].
  all: eexists _, _; split; [reflexivity|]; reflexivity.
Qed.

End EngineQuiet.

(** ** The blocks of a streaming turn *)

#[local] Opaque ChatController.await ChatController.delete_session
  ChatController.sendEvent ChatController.generateStreamingResponse ChatController.createHandoffRequest
  ConversationService.addMessage ConversationService.getContextMessages
  ConversationService.checkLimits ConversationService.getConversation
  EmergencyDetector.detectEmergency EmergencyDetector.detectProhibitedTopic
  EmergencyDetector.validateResponse LlamaService.strip_control_tokens
  ChatController.deflection with_message message_row elapsed.

Ltac norm :=
  unfold logged, streamed, disturbed, ChatController.set_process,
    ChatController.set_db, ChatController.set_clock,
    ChatController.set_activeSessions, ChatController.set_aborted,
    ChatController.set_controllers, ChatController.set_engineLog,
    ChatController.set_isCancelled, ChatController.set_fullContent,
    ChatController.set_writableEnded, ChatController.set_written,
    ChatController.set_schedule;
  simpl.

Ltac step_await c Q :=
  match goal with
  | |- context [ChatController.await ?q ?t] =>
      let m := fresh "m" in
      let a := fresh "a" in
      let n := fresh "n" in
      destruct (await_shape q t) as (c & m & a & n & -> & Q);
      unfold ChatController.in_process, Async.zoom, ChatController.query; norm
  end.

Lemma token_not_done toks s m md ts :
  List.forallb is_token toks = true -> ~ In (ChatController.EvDone s m md ts) toks.
Proof.
  intros H Hin. rewrite List.forallb_forall in H. now specialize (H _ Hin).
Qed.

Ltac event := rewrite sendEvent_run; norm.

Ltac unregister :=
  match goal with
  | |- context [ChatController.delete_session ?t] =>
      let m := fresh "m" in
      destruct (delete_session_shape t) as (m & ->)
  end.

Ltac run_catch :=
  unfold ChatController.sendMessageStream_catch, ChatController.res_end,
    Async.bind, Async.gets, Async.modify;
  unregister; norm.

Ltac in_cases H Htoks :=
  repeat (rewrite List.in_app_iff in H);
  repeat match type of H with
         | context [if ?b then _ else _] => destruct b
         end;
  simpl in H;
  repeat match type of H with
         | _ \/ _ => destruct H as [H|H]
         end;
  try contradiction; try discriminate;
  try (exfalso; exact (token_not_done _ _ _ _ _ Htoks H)).

Section Blocks.

Import ChatController.

Lemma accepted_turn safetyMode sessionId message conversation w stream pending :
  ConversationService.getConversation sessionId (db w) = Some conversation ->
  Conv.status conversation <> StaffTaken ->
  within_limits (checked_at (clock w) pending) sessionId (db w) ->
  exists c m a n,
    sendMessageStream safetyMode (patient_request sessionId message) stream pending w
    = snd (Async.try_catch (dispatch safetyMode conversation sessionId message stream)
             sendMessageStream_catch
             (accepted c m a n conversation sessionId message pending w))
    /\ (quiet (List.hd [] pending) = true ->
        quiet (List.hd [] (List.tl pending)) = true ->
        quiet (List.hd [] (List.tl (List.tl pending))) = true ->
        c = false /\ m = registered sessionId w /\ a = aborted w
        /\ n = S (controllers w)).
Proof.
  intros Hc Hs Hl.
  destruct (within_limits_run _ _ _ Hl) as (l & El & Ex).
  unfold sendMessageStream, Async.try_catch, sendMessageStream_try, open_turn,
    dispatch, accepted, registered.
  rewrite patient_request_sessionId, patient_request_message,
    patient_request_emergency, patient_request_prohibited.
  destruct w as [d now sessions ab n log]; simpl in *.
  unfold Async.bind, Async.gets. unfold checked_at in *.
  step_await c1 Q1. rewrite Hc, (not_taken _ Hs).
  step_await c2 Q2. rewrite El. simpl. rewrite Ex.
  step_await c3 Q3. rewrite addMessage_known by (eapply conversation_known; eassumption).
  norm.
  eexists c3, _, _, _. split; [reflexivity|].
  intros q1 q2 q3.
  destruct (Q1 q1) as (-> & -> & -> & ->). destruct (Q2 q2) as (-> & -> & -> & ->).
  exact (Q3 q3).
Qed.

(** The emergency block stores the canned text and opens the handoff. *)
Lemma emergency_block conversation sessionId message t :
  known (Conv.id conversation) (db (process t)) ->
  matches_keyword SafetyRules.emergencyKeywords message ->
  exists assistant handoff,
    let t' := snd (Async.try_catch
                     (stream_emergency conversation sessionId
                        (EmergencyDetector.detectEmergency message))
                     sendMessageStream_catch t) in
    engineLog (process t') = engineLog (process t)
    /\ ai_messages (db (process t')) = (ai_messages (db (process t)) ++ [assistant])%list
    /\ (Msg.role assistant, Msg.content assistant)
       = (Assistant, SafetyRules.message SafetyRules.emergencyResponse)
    /\ ai_handoff_requests (db (process t'))
       = (ai_handoff_requests (db (process t)) ++ [handoff])%list
    /\ Handoff.priority handoff = Emergency
    /\ Handoff.status handoff = Pending
    /\ Handoff.conversation_id handoff = Conv.id conversation.
Proof.
  intros Hk He.
  unfold stream_emergency. rewrite (detectEmergency_emergency _ He).
  destruct t as [[d k m a n l] s ac c fc we wr sch]; simpl in *.
  unfold Async.try_catch, Async.bind, Async.ret.
  step_await c1 Q1. rewrite addMessage_known by exact Hk. norm.
  step_await c2 Q2.
  rewrite createHandoffRequest_known by (simpl; now apply known_with_message).
  norm.
  unfold short_circuit, now, res_end, Async.bind, Async.gets, Async.modify. norm.
  event. event. event.
  do 2 eexists. rewrite messages_with_message, handoffs_with_message.
  repeat split.
Qed.

(** The generation block when the validator rejects the generated text. *)
Lemma generated_invalid conversation sessionId message fragments finish t :
  known (Conv.id conversation) (db (process t)) ->
  EmergencyDetector.isValid
    (EmergencyDetector.validateResponse
       (LlamaService.strip_control_tokens (joined fragments))) = false ->
  override_step t
    (snd (Async.try_catch
            (stream_generated conversation sessionId
               (EmergencyDetector.detectEmergency message)
               (LlamaService.Stream fragments finish))
            sendMessageStream_catch t)).
Proof.
  intros Hk Hv.
  unfold stream_generated.
  destruct t as [[d k m a n l] s ac c fc we wr sch]; simpl in *.
  unfold Async.try_catch. unfold Async.bind at 1.
  step_await c1 Q1. rewrite getContextMessages_run.
  unfold now, Async.bind, Async.gets, Async.modify, Async.ret. norm. event.
  destruct (EmergencyDetector.isUrgent (EmergencyDetector.detectEmergency message)) eqn:Hu;
    [rewrite (detectEmergency_urgent _ Hu); norm; event|].
  all: match goal with |- context [generateStreamingResponse ?x ?y ?t0] =>
        destruct (generate_shape x y t0)
          as (r & c3 & m3 & a3 & n3 & k3 & s3 & fc3 & toks & -> & Htoks & Hr) end; norm.
  all: destruct r as [e|ai];
    [ run_catch;
      destruct (String.eqb (Err.name e) "AbortError" || c3)%bool; norm;
      [|event]
    | destruct (Hr ai eq_refl) as (fs & fin & [= <- <-] & _ & Econtent);
      unfold stream_validated; rewrite Econtent, Hv; norm;
      unfold finish_turn, res_end, Async.bind, Async.gets, Async.modify; norm;
      destruct c3; norm;
      [ | step_await c4 Q2; rewrite addMessage_known by exact Hk; norm;
          unfold now, Async.gets; norm; event ];
      unregister; norm ].
  all: unfold override_step; norm; rewrite ?messages_with_message, ?Hu.
  all: split;
    [ first [ left; reflexivity
            | right; eexists; split; [reflexivity|]; repeat split ]
    | intros s' m' md' ts' Hin; in_cases Hin Htoks;
      first [ left; assumption
            | right; injection Hin as <- <- <- <-; split; reflexivity ] ].
Qed.

End Blocks.

Section Blocks2.

Import ChatController.

(** The fast-mode block, whatever happens around it. *)
Lemma fast_block conversation sessionId stream t :
  known (Conv.id conversation) (db (process t)) ->
  fast_step stream t
    (snd (Async.try_catch (stream_fast conversation sessionId stream)
            sendMessageStream_catch t)).
Proof.
  intros Hk.
  unfold stream_fast.
  destruct t as [[d k m a n l] s ac c fc we wr sch]; simpl in *.
  unfold Async.try_catch. unfold Async.bind at 1.
  step_await c1 Q1. rewrite getContextMessages_run.
  unfold now, Async.bind, Async.gets, Async.modify, Async.ret. norm. event.
  match goal with |- context [generateStreamingResponse ?x ?y ?t0] =>
    destruct (generate_shape x y t0)
      as (r & c3 & m3 & a3 & n3 & k3 & s3 & fc3 & toks & -> & Htoks & Hr) end; norm.
  destruct r as [e|ai];
    [ run_catch;
      destruct (String.eqb (Err.name e) "AbortError" || c3)%bool; norm;
      [|event]
    | destruct (Hr ai eq_refl) as (fs & fin & -> & Hd & Econtent);
      unfold finish_turn, res_end, Async.bind, Async.gets, Async.modify; norm;
      destruct c3; norm;
      [ | step_await c4 Q2; rewrite addMessage_known by exact Hk; norm;
          unfold now, Async.gets; norm; event ] ].
  all: unfold fast_step; norm;
    rewrite ?messages_with_message, ?handoffs_with_message, ?Econtent.
  all: (split; [eexists; reflexivity|]); (split; [reflexivity|]).
  all: first [ left; reflexivity
             | right; eexists _, _; unfold delivered; rewrite Hd;
               split; [reflexivity|]; split; [reflexivity|]; repeat split ].
Qed.





End Blocks2.

Section Blocks3.

Import ChatController.

(** The fast-mode block when the stream delivers a text and nothing but
    time passes. *)
Lemma fast_completed conversation sessionId fragments finish t :
  known (Conv.id conversation) (db (process t)) ->
  isCancelled t = false -> writableEnded t = false -> fired t = false ->
  List.forallb quiet (schedule t) = true ->
  delivers fragments finish = true ->
  fast_done sessionId (LlamaService.strip_control_tokens (joined fragments)) fragments t
    (snd (Async.try_catch
            (stream_fast conversation sessionId (LlamaService.Stream fragments finish))
            sendMessageStream_catch t)).
Proof.
  intros Hk Hc Hw Hf Hq Hd.
  unfold stream_fast.
  destruct t as [[d k m a n l] s ac c fc we wr sch]; simpl in Hk, Hc, Hw, Hq.
  subst c we.
  unfold Async.try_catch. unfold Async.bind at 1.
  step_await c1 Q1.
  destruct (Q1 (forallb_hd quiet sch Hq eq_refl)) as (-> & -> & -> & ->). clear Q1. simpl.
  rewrite getContextMessages_run.
  unfold now, Async.bind, Async.gets, Async.modify, Async.ret. norm. event.
  match goal with |- context [generateStreamingResponse ?x _ ?t0] =>
    destruct (generate_quiet x fragments finish t0 eq_refl eq_refl Hf
                (forallb_tl quiet sch Hq) Hd) as (ai & k' & E & Econtent)
  end.
  rewrite E. clear E. norm.
  unfold finish_turn, res_end, Async.bind, Async.gets, Async.modify. norm.
  step_await c4 Q2.
  match type of Q2 with ?P -> _ =>
    assert (Hq2 : P)
      by (apply forallb_hd; [apply forallb_skipn, forallb_tl; exact Hq | reflexivity])
  end.
  destruct (Q2 Hq2) as (-> & -> & -> & ->). clear Q2.
  rewrite addMessage_known by exact Hk. norm.
  unfold now, Async.gets. norm. event.
  unfold fast_done, fast_row. norm.
  rewrite messages_with_message, handoffs_with_message, Econtent.
  split; [eexists; reflexivity|]. split; [reflexivity|].
  split; [eexists; split; [reflexivity|]; repeat split|].
  split; [reflexivity|].
  eexists _, _, _. rewrite <- !List.app_assoc. reflexivity.
Qed.

End Blocks3.

(** ** The non-streaming endpoint *)

Section Plain.

#[local] Opaque ConversationService.addMessage ConversationService.getContextMessages
  ConversationService.checkLimits ConversationService.getConversation
  EmergencyDetector.detectEmergency EmergencyDetector.detectProhibitedTopic
  EmergencyDetector.validateResponse LlamaService.strip_control_tokens
  ChatController.deflection ChatController.createHandoffRequest
  with_message message_row.

Ltac enter Hc Hs Hl :=
  let l := fresh "l" in
  let El := fresh "El" in
  let Ex := fresh "Ex" in
  destruct (within_limits_run _ _ _ Hl) as (l & El & Ex);
  unfold ChatController.sendMessage, ChatController.sendMessage_try;
  rewrite patient_request_sessionId, patient_request_message,
    patient_request_emergency, patient_request_prohibited;
  match goal with w : world |- _ => destruct w as [d now sessions ab n log] end;
  simpl in *;
  unfold Async.bind, ChatController.query, Async.gets; simpl;
  rewrite Hc, (not_taken _ Hs); simpl; rewrite El, Ex; simpl;
  rewrite addMessage_known by (eapply conversation_known; eassumption); simpl.

Lemma emergency_sendMessage sessionId message conversation w reply :
  ConversationService.getConversation sessionId (ChatController.db w) = Some conversation ->
  Conv.status conversation <> StaffTaken ->
  within_limits (ChatController.clock w) sessionId (ChatController.db w) ->
  matches_keyword SafetyRules.emergencyKeywords message ->
  emergency_outcome message conversation w
    (snd (ChatController.sendMessage true (patient_request sessionId message) reply w)).
Proof.
  intros Hc Hs Hl Hk. enter Hc Hs Hl.
  rewrite (detectEmergency_emergency _ Hk). simpl.
  pose proof (conversation_known _ _ _ Hc) as K.
  rewrite addMessage_known by (now apply known_with_message). simpl.
  rewrite createHandoffRequest_known by (simpl; now do 2 apply known_with_message). simpl.
  unfold emergency_outcome. simpl.
  rewrite handoffs_with_message, handoffs_with_message.
  split; [reflexivity|]. split.
  - do 2 eexists. rewrite !messages_with_message, <- List.app_assoc. simpl. repeat split.
  - eexists. repeat split.
Qed.

Lemma rejected_sendMessage sessionId message conversation w data_content tokens latency :
  ConversationService.getConversation sessionId (ChatController.db w) = Some conversation ->
  Conv.status conversation <> StaffTaken ->
  within_limits (ChatController.clock w) sessionId (ChatController.db w) ->
  EmergencyDetector.isEmergency (EmergencyDetector.detectEmergency message) = false ->
  EmergencyDetector.isProhibited (EmergencyDetector.detectProhibitedTopic message) = false ->
  Js.truthy data_content = true ->
  EmergencyDetector.isValid
    (EmergencyDetector.validateResponse
       (LlamaService.strip_control_tokens data_content)) = false ->
  overridden_reply sessionId (urgentPrefix true message ++ ChatController.deflection) w
    (ChatController.sendMessage true (patient_request sessionId message)
       (LlamaService.Completion data_content tokens latency) w).
Proof.
  intros Hc Hs Hl He Hp Ht Hv. enter Hc Hs Hl.
  rewrite He, Hp, getContextMessages_run. simpl.
  unfold ChatController.generateResponse, Async.bind, Async.modify. simpl.
  rewrite Ht. simpl. rewrite Hv. simpl.
  pose proof (conversation_known _ _ _ Hc) as K.
  unfold urgentPrefix, overridden_reply, overridden. simpl.
  destruct (EmergencyDetector.isUrgent (EmergencyDetector.detectEmergency message)) eqn:Hu.
  - rewrite (detectEmergency_urgent _ Hu). simpl.
    rewrite addMessage_known by (now apply known_with_message). simpl.
    rewrite append_assoc.
    do 4 eexists. rewrite !messages_with_message, <- List.app_assoc. simpl.
    repeat split.
  - simpl.
    rewrite addMessage_known by (now apply known_with_message). simpl.
    do 4 eexists. rewrite !messages_with_message, <- List.app_assoc. simpl.
    repeat split.
Qed.

Lemma fast_sendMessage sessionId message conversation w data_content tokens latency :
  ConversationService.getConversation sessionId (ChatController.db w) = Some conversation ->
  Conv.status conversation <> StaffTaken ->
  within_limits (ChatController.clock w) sessionId (ChatController.db w) ->
  Js.truthy data_content = true ->
  fast_reply sessionId message data_content w
    (ChatController.sendMessage false (patient_request sessionId message)
       (LlamaService.Completion data_content tokens latency) w).
Proof.
  intros Hc Hs Hl Ht. enter Hc Hs Hl.
  rewrite getContextMessages_run. simpl.
  unfold ChatController.generateResponse, Async.bind, Async.modify. simpl.
  rewrite Ht. simpl.
  pose proof (conversation_known _ _ _ Hc) as K.
  rewrite addMessage_known by (now apply known_with_message). simpl.
  unfold fast_reply. simpl.
  do 5 eexists. rewrite !messages_with_message, !handoffs_with_message, <- List.app_assoc.
  simpl. repeat split.
Qed.

Lemma fast_sendMessage_failed sessionId message conversation w reply :
  ConversationService.getConversation sessionId (ChatController.db w) = Some conversation ->
  Conv.status conversation <> StaffTaken ->
  within_limits (ChatController.clock w) sessionId (ChatController.db w) ->
  completed reply = None ->
  failed_reply message w
    (ChatController.sendMessage false (patient_request sessionId message) reply w).
Proof.
  intros Hc Hs Hl Hr. enter Hc Hs Hl.
  rewrite getContextMessages_run. simpl.
  unfold ChatController.generateResponse, Async.bind, Async.modify. simpl.
  unfold failed_reply, question.
  destruct reply as [e|data_content tokens latency]; simpl in *.
  - rewrite messages_with_message, handoffs_with_message.
    split; [reflexivity|]. split; [eexists; reflexivity|].
    split; [eexists; split; [|reflexivity]; reflexivity | reflexivity].
  - destruct (Js.truthy data_content); [discriminate|]. simpl.
    rewrite messages_with_message, handoffs_with_message.
    split; [reflexivity|]. split; [eexists; reflexivity|].
    split; [eexists; split; [|reflexivity]; reflexivity | reflexivity].
Qed.

End Plain.

(** ** Accepted turns *)

Section Accepted.

Lemma accepted_messages c m a n conversation sessionId message pending (w : world) :
  exists user,
    question message user
    /\ ai_messages (ChatController.db (ChatController.process
                      (accepted c m a n conversation sessionId message pending w)))
       = (ai_messages (ChatController.db w) ++ [user])%list.
Proof.
  unfold accepted; simpl. rewrite messages_with_message.
  eexists. split; [|reflexivity]. reflexivity.
Qed.

Lemma accepted_handoffs c m a n conversation sessionId message pending (w : world) :
  ai_handoff_requests (ChatController.db (ChatController.process
                         (accepted c m a n conversation sessionId message pending w)))
  = ai_handoff_requests (ChatController.db w).
Proof. reflexivity. Qed.

Lemma accepted_known c m a n conversation sessionId message pending (w : world) :
  ConversationService.getConversation sessionId (ChatController.db w) = Some conversation ->
  known (Conv.id conversation)
    (ChatController.db (ChatController.process
                          (accepted c m a n conversation sessionId message pending w))).
Proof. intros H. apply known_with_message. exact (conversation_known _ _ _ H). Qed.

End Accepted.

Section Accepted2.



End Accepted2.

(** ** Urgent turns *)

Section Urgent.

#[local] Transparent EmergencyDetector.detectEmergency.

Lemma urgent_not_emergency message :
  EmergencyDetector.isUrgent (EmergencyDetector.detectEmergency message) = true ->
  EmergencyDetector.isEmergency (EmergencyDetector.detectEmergency message) = false.
Proof.
  unfold EmergencyDetector.detectEmergency.
  destruct (EmergencyDetector.nonempty _); cbn; [discriminate|].
  destruct (EmergencyDetector.nonempty _); cbn; [reflexivity | discriminate].
Qed.

End Urgent.

Section UrgentTurns.

Import ChatController.

Lemma urgent_sendMessage sessionId message conversation w data_content tokens latency :
  ConversationService.getConversation sessionId (db w) = Some conversation ->
  Conv.status conversation <> StaffTaken ->
  within_limits (clock w) sessionId (db w) ->
  EmergencyDetector.isUrgent (EmergencyDetector.detectEmergency message) = true ->
  EmergencyDetector.isProhibited (EmergencyDetector.detectProhibitedTopic message) = false ->
  Js.truthy data_content = true ->
  urgent_reply sessionId
    (SafetyRules.message SafetyRules.urgentResponse ++ blank_line
     ++ validated_text (LlamaService.strip_control_tokens data_content)) w
    (sendMessage true (patient_request sessionId message)
       (LlamaService.Completion data_content tokens latency) w).
Proof.
  intros Hc Hs Hl Hu Hp Ht.
  destruct (within_limits_run _ _ _ Hl) as (l & El & Ex).
  unfold sendMessage, sendMessage_try.
  rewrite patient_request_sessionId, patient_request_message,
    patient_request_emergency, patient_request_prohibited.
  destruct w as [d now sessions ab n log]; simpl in *.
  unfold Async.bind, query, Async.gets; simpl.
  rewrite Hc, (not_taken _ Hs); simpl. rewrite El, Ex; simpl.
  rewrite addMessage_known by (eapply conversation_known; eassumption). simpl.
  rewrite (urgent_not_emergency _ Hu), Hp, getContextMessages_run. simpl.
  unfold generateResponse, Async.bind, Async.modify. simpl.
  rewrite Ht. simpl. rewrite Hu, (detectEmergency_urgent _ Hu).
  pose proof (conversation_known _ _ _ Hc) as K.
  unfold urgent_reply, validated_text.
  destruct (EmergencyDetector.isValid _); simpl.
  all: rewrite addMessage_known by (now apply known_with_message); simpl.
  all: do 4 eexists; rewrite !messages_with_message, <- List.app_assoc; simpl.
  all: repeat split.
Qed.

Lemma urgent_block conversation sessionId message stream b rest t :
  EmergencyDetector.isUrgent (EmergencyDetector.detectEmergency message) = true ->
  isCancelled t = false -> writableEnded t = false ->
  schedule t = (b :: rest)%list -> quiet b = true ->
  exists timestamp more,
    written (snd (Async.try_catch
                    (stream_generated conversation sessionId
                       (EmergencyDetector.detectEmergency message) stream)
                    sendMessageStream_catch t))
    = (written t
       ++ EvStart sessionId timestamp
          :: EvToken (urgentPrefix true message) (urgentPrefix true message) :: more)%list.
Proof.
  intros Hu Hc Hw Hs Hb.
  unfold stream_generated, urgentPrefix. rewrite Hu. simpl andb. cbv iota.
  destruct t as [[d k m a n l] s ac c fc we wr sch]; simpl in Hc, Hw, Hs.
  subst c we sch.
  unfold Async.try_catch. unfold Async.bind at 1.
  step_await c1 Q1. destruct (Q1 Hb) as (-> & -> & -> & ->). clear Q1. simpl.
  rewrite getContextMessages_run.
  unfold now, Async.bind, Async.gets, Async.modify, Async.ret. norm. event.
  rewrite (detectEmergency_urgent _ Hu); norm; event.
  match goal with |- context [generateStreamingResponse ?x ?y ?t0] =>
    destruct (generate_shape x y t0)
      as (r & c3 & m3 & a3 & n3 & k3 & s3 & fc3 & toks & -> & Htoks & Hr) end; norm.
  destruct r as [e|ai];
    [ run_catch;
      destruct (String.eqb (Err.name e) "AbortError" || c3)%bool; norm;
      [|event]
    | unfold stream_validated;
      destruct (EmergencyDetector.isValid _); norm;
      unfold finish_turn, res_end, Async.bind, Async.gets, Async.modify; norm;
      destruct c3; norm;
      [ | step_await c4 Q2;
          match goal with |- context [ConversationService.addMessage ?a ?b ?c ?d ?e ?f] =>
            destruct (ConversationService.addMessage a b c d e f) as [[err|row] d'] end;
          norm;
          [ run_catch;
            destruct (String.eqb (Err.name err) "AbortError" || c4)%bool; norm;
            [|event]
          | unfold now, Async.gets; norm; event; unregister; norm ]
        | unregister; norm
        | step_await c4 Q2;
          match goal with |- context [ConversationService.addMessage ?a ?b ?c ?d ?e ?f] =>
            destruct (ConversationService.addMessage a b c d e f) as [[err|row] d'] end;
          norm;
          [ run_catch;
            destruct (String.eqb (Err.name err) "AbortError" || c4)%bool; norm;
            [|event]
          | unfold now, Async.gets; norm; event; unregister; norm ] ] ].
  all: try (unregister; norm).
  all: rewrite <- ?List.app_assoc; simpl; eexists _, _; reflexivity.
Qed.

End UrgentTurns.

(** ** Turns *)

(** C1: in safety mode a turn whose message matches an emergency keyword
    never invokes the engine, stores one assistant message holding the
    canned emergency text after the user's message, and opens one pending
    handoff request of priority [emergency]; this holds for the
    non-streaming endpoint and, whatever happens around the turn, for the
    streaming endpoint. *)
Theorem emergency_short_circuit sessionId message conversation (w : world)
    reply stream pending :
  ConversationService.getConversation sessionId (ChatController.db w) = Some conversation ->
  Conv.status conversation <> StaffTaken ->
  matches_keyword SafetyRules.emergencyKeywords message ->
  (within_limits (ChatController.clock w) sessionId (ChatController.db w) ->
   emergency_outcome message conversation w
     (snd (ChatController.sendMessage true (patient_request sessionId message) reply w)))
  /\ (within_limits (checked_at (ChatController.clock w) pending) sessionId
        (ChatController.db w) ->
      emergency_outcome message conversation w
        (ChatController.process
           (ChatController.sendMessageStream true (patient_request sessionId message)
              stream pending w))).
Proof.
  intros Hc Hs Hk. split; intros Hl.
  - now apply emergency_sendMessage.
  - destruct (accepted_turn true sessionId message conversation w stream pending Hc Hs Hl)
      as (c & m & a & n & -> & _).
    unfold dispatch.
    assert (He : EmergencyDetector.isEmergency (EmergencyDetector.detectEmergency message)
                 = true) by now rewrite (detectEmergency_emergency _ Hk).
    rewrite He. simpl negb. cbv iota.
    pose proof (conversation_known _ _ _ Hc) as K.
    destruct (emergency_block conversation sessionId message
                (accepted c m a n conversation sessionId message pending w))
      as (assistant & handoff & H); [now apply known_with_message | exact Hk |].
    cbv zeta in H. destruct H as (Hlog & Hmsg & Hrow & Hh & Hp & Hst & Hid).
    split; [exact Hlog|]. split.
    + eexists _, assistant. rewrite Hmsg. simpl.
      rewrite messages_with_message, <- List.app_assoc. simpl.
      split; [reflexivity|]. split; [reflexivity | exact Hrow].
    + exists handoff. rewrite Hh. simpl. rewrite handoffs_with_message. auto.
Qed.

Lemma emergency_short_circuit_witness :
  emergency_outcome "I have chest pain" Scenario.conversation Scenario.w
    (snd (ChatController.sendMessage true (patient_request Scenario.sid "I have chest pain")
            Scenario.rest_well_reply Scenario.w))
  /\ emergency_outcome "I have chest pain" Scenario.conversation Scenario.w
       (ChatController.process
          (ChatController.sendMessageStream true (patient_request Scenario.sid "I have chest pain") Scenario.rest_well
             [[ChatController.CancelRequest Scenario.sid]] Scenario.w)).
Proof.
  refine ((fun H => conj (proj1 H _) (proj2 H _))
            (emergency_short_circuit Scenario.sid "I have chest pain"
               Scenario.conversation Scenario.w Scenario.rest_well_reply
               Scenario.rest_well [[ChatController.CancelRequest Scenario.sid]] _ _ _)).
  - vm_compute. reflexivity.
  - vm_compute. reflexivity.
  - vm_compute. reflexivity.
  - vm_compute. discriminate.
  - exists "chest pain". split; [vm_compute; tauto | vm_compute; reflexivity].
Defined.

(** C2 on a scenario: the validator rejects the text that the engine
    generates for a message that is neither urgent nor prohibited.  The
    non-streaming endpoint answers with the deflection, marked
    [safetyOverride], and stores it; nothing of the rejected text is shown.
    The streaming endpoint stores the deflection and sends it in the [done]
    event, marked [safetyOverride], but by then it has written the rejected
    text, fragment by fragment, in [token] events. *)
Theorem rejected_text_is_streamed :
  let t := ChatController.sendMessageStream true Scenario.headache
             Scenario.a_cold_streamed [] Scenario.w in
  let out := ChatController.sendMessage true Scenario.headache Scenario.a_cold
               Scenario.w in
  EmergencyDetector.isValid (EmergencyDetector.validateResponse "You have a cold.") = false
  /\ ((exists md timestamp,
         fst out = ChatController.json
                     (ChatController.ReplyBody Scenario.sid ChatController.deflection
                        Assistant md timestamp)
         /\ md_get "safetyOverride" md = Some (JBool true))
      /\ List.last (Scenario.contents (snd out)) (User, "")
         = (Assistant, ChatController.deflection))
  /\ List.map (fun e => match e with
                        | ChatController.EvToken token content => Some (token, content)
                        | _ => None
                        end) (ChatController.written t)
     = [None; Some ("You have", "You have"); Some (" a cold.", "You have a cold."); None]
  /\ List.map (fun e => match e with
                        | ChatController.EvDone _ m md _ =>
                            Some (m, md_get "safetyOverride" md)
                        | _ => None
                        end) (ChatController.written t)
     = [None; None; None; Some (ChatController.deflection, Some (JBool true))]
  /\ option_map
       (fun m => (Msg.role m, Msg.content m, md_get "safetyOverride" (Msg.metadata m)))
       (List.last (List.map Some (ai_messages (ChatController.db (ChatController.process t))))
          None)
     = Some (Assistant, ChatController.deflection, Some (JBool true)).
Proof.
  vm_compute. split; [reflexivity|]. split; [|repeat split; reflexivity].
  split; [|reflexivity]. eexists _, _. split; reflexivity.
Qed.

(** When the validator rejects the generated text of a safety-mode turn
    that is neither an emergency nor prohibited, the text stored for the
    assistant is not the generated one and the row is marked
    [safetyOverride]: the non-streaming endpoint stores and returns the
    deflection, preceded by the urgent advisory when the message is urgent;
    the streaming endpoint, whatever happens around the turn, stores after
    the user's message at most one assistant message, the deflection, and
    writes no [done] event with another text. *)
Theorem rejected_reply_is_replaced sessionId message conversation (w : world) :
  ConversationService.getConversation sessionId (ChatController.db w) = Some conversation ->
  Conv.status conversation <> StaffTaken ->
  EmergencyDetector.isEmergency (EmergencyDetector.detectEmergency message) = false ->
  EmergencyDetector.isProhibited (EmergencyDetector.detectProhibitedTopic message) = false ->
  (forall data_content tokens latency,
     within_limits (ChatController.clock w) sessionId (ChatController.db w) ->
     Js.truthy data_content = true ->
     EmergencyDetector.isValid
       (EmergencyDetector.validateResponse
          (LlamaService.strip_control_tokens data_content)) = false ->
     overridden_reply sessionId (urgentPrefix true message ++ ChatController.deflection) w
       (ChatController.sendMessage true (patient_request sessionId message)
          (LlamaService.Completion data_content tokens latency) w)
     /\ urgentPrefix true message ++ ChatController.deflection
        <> LlamaService.strip_control_tokens data_content)
  /\ (forall fragments finish pending,
        within_limits (checked_at (ChatController.clock w) pending) sessionId
          (ChatController.db w) ->
        EmergencyDetector.isValid
          (EmergencyDetector.validateResponse
             (LlamaService.strip_control_tokens (joined fragments))) = false ->
        overridden_stream message w
          (ChatController.sendMessageStream true (patient_request sessionId message)
             (LlamaService.Stream fragments finish) pending w)
        /\ ChatController.deflection
           <> LlamaService.strip_control_tokens (joined fragments)).
Proof.
  intros Hc Hs He Hp. split.
  - intros data_content tokens latency Hl Ht Hv. split.
    + now apply rejected_sendMessage with (conversation := conversation).
    + destruct (rejected_not_canned _ Hv) as [N1 N2].
      unfold urgentPrefix. simpl andb.
      destruct (EmergencyDetector.isUrgent _).
      * rewrite append_assoc. intros E. now apply N2.
      * intros E. now apply N1.
  - intros fragments finish pending Hl Hv. split.
    + destruct (accepted_turn true sessionId message conversation w
                  (LlamaService.Stream fragments finish) pending Hc Hs Hl)
        as (c & m & a & n & -> & _).
      unfold dispatch. rewrite He, Hp. simpl negb. cbv iota.
      destruct (generated_invalid conversation sessionId message fragments finish
                  (accepted c m a n conversation sessionId message pending w))
        as [Hm Hd]; [now apply accepted_known | exact Hv |].
      destruct (accepted_messages c m a n conversation sessionId message pending w)
        as (user & Hu & Em).
      rewrite Em in Hm. split.
      * exists user. split; [exact Hu|]. unfold stored.
        destruct Hm as [Hm | (assistant & Hm & Ho)]; [left; exact Hm|].
        right. exists assistant. split; [|exact Ho].
        rewrite Hm, <- List.app_assoc. reflexivity.
      * intros s' m' md ts Hin. destruct (Hd s' m' md ts Hin) as [[]|H]. exact H.
    + destruct (rejected_not_canned _ Hv) as [N1 _]. intros E. now apply N1.
Qed.

Lemma rejected_reply_is_replaced_witness :
  overridden_reply Scenario.sid
    (urgentPrefix true "I have a high fever" ++ ChatController.deflection) Scenario.w
    (ChatController.sendMessage true Scenario.high_fever Scenario.a_cold Scenario.w)
  /\ overridden_stream "I have a high fever" Scenario.w
       (ChatController.sendMessageStream true Scenario.high_fever
          Scenario.a_cold_streamed [] Scenario.w).
Proof.
  refine ((fun H => conj (proj1 (proj1 H "You have a cold." 6 40%N _ _ _))
                         (proj1 (proj2 H ["You have"; " a cold."] LlamaService.Stop [] _ _)))
            (rejected_reply_is_replaced Scenario.sid "I have a high fever"
               Scenario.conversation Scenario.w _ _ _ _)).
  all: first [ vm_compute; reflexivity | vm_compute; discriminate ].
Defined.

(** C4 as the code has it: a fast-mode turn is still subject to the limits
    check, and it stores the user's message. *)
Lemma fast_mode_counterexample :
  ChatController.sendMessage false Scenario.headache Scenario.a_cold Scenario.expired
  = (ChatController.status_json 429 (ChatController.ErrorBody "RATE_LIMITED"),
     Scenario.expired)
  /\ Scenario.contents
       (snd (ChatController.sendMessage false Scenario.headache Scenario.a_cold Scenario.w))
     = (Scenario.contents Scenario.w
        ++ [(User, "What helps with a headache?"); (Assistant, "You have a cold.")])%list.
Proof. split; vm_compute; reflexivity. Qed.

(** C4, as it holds of the code: a fast-mode turn that passes the
    conversation and limits checks, which fast mode does not skip, stores
    the user's message; whatever the message and the generated text are,
    it then invokes the engine once and opens no handoff.  The
    non-streaming endpoint stores and returns the text of the engine as the
    service cleans it, unvalidated and marked [fastMode], when the engine
    delivers one, and answers 500 without storing an assistant message when
    it does not.  The streaming endpoint stores at most one assistant
    message, and only a text that the stream delivered, cleaned and marked
    [fastMode]; it stores none when the stream delivers none; and when the
    stream delivers a text and nothing but time passes it stores that text
    and writes the [start] event, a [token] event for each fragment and the
    [done] event with the text. *)
Theorem fast_mode_turn sessionId message conversation (w : world) :
  ConversationService.getConversation sessionId (ChatController.db w) = Some conversation ->
  Conv.status conversation <> StaffTaken ->
  (forall reply,
     within_limits (ChatController.clock w) sessionId (ChatController.db w) ->
     let out := ChatController.sendMessage false (patient_request sessionId message)
                  reply w in
     match reply with
     | LlamaService.Completion data_content _ _ =>
         if Js.truthy data_content
         then fast_reply sessionId message data_content w out
         else failed_reply message w out
     | LlamaService.Unavailable _ => failed_reply message w out
     end)
  /\ (forall stream pending,
        within_limits (checked_at (ChatController.clock w) pending) sessionId
          (ChatController.db w) ->
        let t' := ChatController.sendMessageStream false
                    (patient_request sessionId message) stream pending w in
        fast_stream message stream w t'
        /\ (delivered stream = None ->
            exists user, question message user /\ stored w [user] t')
        /\ (forall fragments finish,
              stream = LlamaService.Stream fragments finish ->
              delivers fragments finish = true ->
              List.forallb quiet pending = true ->
              ChatController.signal_fired (ChatController.controllers w) w = false ->
              fast_stream_done sessionId message
                (LlamaService.strip_control_tokens (joined fragments)) fragments w t')).
Proof.
  intros Hc Hs. split.
  - intros reply Hl out. subst out.
    destruct reply as [e|data_content tokens latency].
    + now apply fast_sendMessage_failed with (conversation := conversation).
    + destruct (Js.truthy data_content) eqn:Ht.
      * now apply fast_sendMessage with (conversation := conversation).
      * apply fast_sendMessage_failed with (conversation := conversation); auto.
        simpl. now rewrite Ht.
  - intros stream pending Hl t'. subst t'.
    destruct (accepted_turn false sessionId message conversation w stream pending
                Hc Hs Hl) as (c & m & a & n & -> & Hquiet).
    unfold dispatch. simpl negb. cbv iota.
    assert (Hfast :
              fast_stream message stream w
                (snd (Async.try_catch
                        (ChatController.stream_fast conversation sessionId stream)
                        ChatController.sendMessageStream_catch
                        (accepted c m a n conversation sessionId message pending w)))).
    { destruct (fast_block conversation sessionId stream
                  (accepted c m a n conversation sessionId message pending w))
        as (Hlog & Hh & Hm); [now apply accepted_known |].
      destruct (accepted_messages c m a n conversation sessionId message pending w)
        as (user & Hu & Em).
      rewrite Em in Hm. rewrite accepted_handoffs in Hh.
      split; [exact Hlog|]. split; [exact Hh|].
      exists user. split; [exact Hu|]. unfold stored.
      destruct Hm as [Hm | (content & assistant & Hd & Hm & Ho)]; [left; exact Hm|].
      right. exists content, assistant. split; [exact Hd|]. split; [|exact Ho].
      rewrite Hm, <- List.app_assoc. reflexivity. }
    split; [exact Hfast|]. split.
    + intros Hnone. destruct Hfast as (_ & _ & user & Hu & [Hst|Hst]).
      * exists user. split; [exact Hu | exact Hst].
      * destruct Hst as (content & assistant & Hd & _). congruence.
    + intros fragments finish -> Hd Hq Hf.
      pose proof (forallb_tl _ _ Hq) as Hq1.
      pose proof (forallb_tl _ _ Hq1) as Hq2.
      pose proof (forallb_tl _ _ Hq2) as Hq3.
      destruct (Hquiet (forallb_hd quiet _ Hq eq_refl) (forallb_hd quiet _ Hq1 eq_refl)
                  (forallb_hd quiet _ Hq2 eq_refl)) as (-> & -> & -> & ->).
      destruct (fast_completed conversation sessionId fragments finish
                  (accepted false (registered sessionId w) (ChatController.aborted w)
                     (S (ChatController.controllers w)) conversation sessionId message
                     pending w))
        as (_ & _ & (assistant & Hm & Hrow) & Hend & started & md & finished & Hwr);
        [ now apply accepted_known | reflexivity | reflexivity | exact Hf
        | exact Hq3 | exact Hd | ].
      destruct (accepted_messages false (registered sessionId w) (ChatController.aborted w)
                  (S (ChatController.controllers w)) conversation sessionId message
                  pending w) as (user & Hu & Em).
      split; [|split; [exact Hend|]].
      * exists user, assistant. split; [exact Hu|]. split; [|exact Hrow].
        unfold stored. rewrite Hm, Em, <- List.app_assoc. reflexivity.
      * exists started, md, finished. exact Hwr.
Qed.

Lemma fast_mode_turn_witness :
  fast_reply Scenario.sid "I have chest pain" "You have a cold." Scenario.w
    (ChatController.sendMessage false Scenario.chest_pain Scenario.a_cold Scenario.w)
  /\ failed_reply "I have chest pain" Scenario.w
       (ChatController.sendMessage false Scenario.chest_pain
          (LlamaService.Unavailable (Err.Error "connect ECONNREFUSED")) Scenario.w)
  /\ fast_stream "I have chest pain" Scenario.a_cold_streamed Scenario.w
       (ChatController.sendMessageStream false Scenario.chest_pain
          Scenario.a_cold_streamed [[ChatController.ClientClose]] Scenario.w)
  /\ fast_stream_done Scenario.sid "I have chest pain" "You have a cold."
       ["You have"; " a cold."] Scenario.w
       (ChatController.sendMessageStream false Scenario.chest_pain
          Scenario.a_cold_streamed [] Scenario.w).
Proof.
  pose proof (fast_mode_turn Scenario.sid "I have chest pain" Scenario.conversation
                Scenario.w eq_refl) as H.
  assert (Hs : Conv.status Scenario.conversation <> StaffTaken) by discriminate.
  destruct (H Hs) as [H1 H2].
  split; [exact (H1 Scenario.a_cold ltac:(vm_compute; reflexivity))|].
  split; [exact (H1 (LlamaService.Unavailable (Err.Error "connect ECONNREFUSED"))
                   ltac:(vm_compute; reflexivity))|].
  split.
  - exact (proj1 (H2 Scenario.a_cold_streamed [[ChatController.ClientClose]]
                    ltac:(vm_compute; reflexivity))).
  - exact (proj2 (proj2 (H2 Scenario.a_cold_streamed [] ltac:(vm_compute; reflexivity)))
             ["You have"; " a cold."] LlamaService.Stop eq_refl eq_refl eq_refl eq_refl).
Defined.

(** C3 on the scenarios: a turn for an unknown session is answered with
    404 and a turn for a staff-owned conversation with 403, both leaving
    the process as it was; a turn for a closed conversation is served like
    any other by both endpoints: the user's message is stored, the engine is
    invoked, and the generated reply is stored and returned. *)
Theorem closed_conversation_is_served :
  ChatController.sendMessage true (patient_request "no-such-session" "hello")
    Scenario.rest_well_reply Scenario.w
  = (ChatController.status_json 404 (ChatController.ErrorBody "NOT_FOUND"), Scenario.w)
  /\ ChatController.sendMessage true Scenario.headache Scenario.rest_well_reply Scenario.taken
     = (ChatController.status_json 403 (ChatController.ErrorBody "FORBIDDEN"), Scenario.taken)
  /\ option_map Conv.status
       (ConversationService.getConversation Scenario.sid (ChatController.db Scenario.closed))
     = Some Closed
  /\ (let out := ChatController.sendMessage true Scenario.headache
                   Scenario.rest_well_reply Scenario.closed in
      ChatController.code (fst out) = 200%nat
      /\ ChatController.engineLog (snd out)
         = [[(User, "What helps with a headache?")]]
      /\ Scenario.contents (snd out)
         = (Scenario.contents Scenario.closed
            ++ [(User, "What helps with a headache?");
                (Assistant, "Rest and drink water.")])%list)
  /\ (let t := ChatController.sendMessageStream true Scenario.headache
                 Scenario.rest_well [] Scenario.closed in
      ChatController.engineLog (ChatController.process t)
      = [[(User, "What helps with a headache?")]]
      /\ Scenario.contents (ChatController.process t)
         = (Scenario.contents Scenario.closed
            ++ [(User, "What helps with a headache?");
                (Assistant, "Rest and drink water.")])%list
      /\ List.map is_done (ChatController.written t)
         = [false; false; false; false; false; true]).
Proof. vm_compute. repeat split; reflexivity. Qed.




(** C6 on a scenario: for an urgent message whose generated text is
    rejected, the streaming endpoint announces the advisory as the leading
    token and marks the turn with [urgentGuidance], but stores the
    deflection without the advisory and sends it so in the [done] event;
    the non-streaming endpoint stores the advisory followed by the
    deflection. *)
Theorem streamed_override_drops_advisory :
  let advisory := SafetyRules.message SafetyRules.urgentResponse in
  let t := ChatController.sendMessageStream true Scenario.high_fever
             Scenario.a_cold_streamed [] Scenario.w in
  let out := ChatController.sendMessage true Scenario.high_fever Scenario.a_cold
               Scenario.w in
  EmergencyDetector.isUrgent (EmergencyDetector.detectEmergency "I have a high fever")
  = true
  /\ List.nth_error (ChatController.written t) 1
     = Some (ChatController.EvToken (advisory ++ ChatController.blank_line)
               (advisory ++ ChatController.blank_line))
  /\ List.last (Scenario.contents (ChatController.process t)) (User, "")
     = (Assistant, ChatController.deflection)
  /\ option_map
       (fun m => (Msg.content m, md_get "urgentGuidance" (Msg.metadata m)))
       (List.last (List.map Some (ai_messages (ChatController.db (ChatController.process t))))
          None)
     = Some (ChatController.deflection, Some (JBool true))
  /\ List.map (fun e => match e with
                        | ChatController.EvDone _ m md _ =>
                            Some (m, md_get "urgentGuidance" md)
                        | _ => None
                        end) (List.skipn 4 (ChatController.written t))
     = [Some (ChatController.deflection, Some (JBool true))]
  /\ List.last (Scenario.contents (snd out)) (User, "")
     = (Assistant, advisory ++ ChatController.blank_line ++ ChatController.deflection).
Proof. vm_compute. repeat split; reflexivity. Qed.

(** C7 on the scenarios: a streaming turn that ends with a validated reply
    has removed its entry of [activeSessions]; a turn that ends in the
    emergency block, in fast mode, or with the rejection of an unknown
    session has ended its response and left its entry in the map. *)
Theorem short_circuit_stays_registered :
  let entry := Some {| SessionData.abortController := 0%nat;
                       SessionData.isCancelled := false |} in
  let validated := ChatController.sendMessageStream true Scenario.headache
                     Scenario.rest_well [] Scenario.w in
  let emergency := ChatController.sendMessageStream true Scenario.chest_pain
                     Scenario.rest_well [] Scenario.w in
  let fast := ChatController.sendMessageStream false Scenario.headache
                Scenario.rest_well [] Scenario.w in
  let unknown := ChatController.sendMessageStream true
                   (patient_request "no-such-session" "hello")
                   Scenario.rest_well [] Scenario.w in
  (ChatController.writableEnded validated = true
   /\ ChatController.activeSessions (ChatController.process validated) !! Scenario.sid = None)
  /\ (ChatController.writableEnded emergency = true
      /\ ChatController.activeSessions (ChatController.process emergency) !! Scenario.sid
         = entry)
  /\ (ChatController.writableEnded fast = true
      /\ ChatController.activeSessions (ChatController.process fast) !! Scenario.sid = entry)
  /\ (ChatController.writableEnded unknown = true
      /\ ChatController.activeSessions (ChatController.process unknown) !! "no-such-session"
         = entry).
Proof. vm_compute. repeat split; reflexivity. Qed.

(** ** Rejected turns *)

(** A turn for a conversation that a staff member has taken is answered
    with 403 by the non-streaming endpoint and with at most a [FORBIDDEN]
    error event by the streaming endpoint, in either mode and whatever
    happens around the turn; it stores nothing and never invokes the
    engine. *)
Theorem staff_owned_turn_is_rejected safetyMode sessionId message conversation
    (w : world) reply stream pending :
  ConversationService.getConversation sessionId (ChatController.db w) = Some conversation ->
  Conv.status conversation = StaffTaken ->
  ChatController.sendMessage safetyMode (patient_request sessionId message) reply w
  = (ChatController.status_json 403 (ChatController.ErrorBody "FORBIDDEN"), w)
  /\ rejected_stream "FORBIDDEN" w
       (ChatController.sendMessageStream safetyMode (patient_request sessionId message)
          stream pending w).
Proof.
  intros Hc Hs. split.
  - unfold ChatController.sendMessage, ChatController.sendMessage_try.
    rewrite patient_request_sessionId.
    destruct w as [d now sessions ab n log]; simpl in *.
    unfold Async.bind, ChatController.query, Async.gets; simpl.
    rewrite Hc, Hs. reflexivity.
  - unfold ChatController.sendMessageStream, Async.try_catch,
      ChatController.sendMessageStream_try, ChatController.open_turn.
    rewrite patient_request_sessionId.
    destruct w as [d now sessions ab n log]; simpl in *.
    unfold Async.bind.
    step_await c1 Q1. rewrite Hc, Hs. simpl.
    unfold ChatController.reject_with, ChatController.res_end, Async.bind, Async.modify.
    event.
    unfold rejected_stream; simpl. repeat split.
    destruct c1; simpl; [right | left]; reflexivity.
Qed.

Lemma staff_owned_turn_is_rejected_witness :
  ChatController.sendMessage true Scenario.headache Scenario.rest_well_reply Scenario.taken
  = (ChatController.status_json 403 (ChatController.ErrorBody "FORBIDDEN"), Scenario.taken)
  /\ rejected_stream "FORBIDDEN" Scenario.taken
       (ChatController.sendMessageStream true Scenario.headache Scenario.rest_well
          [[ChatController.Elapse 5]] Scenario.taken).
Proof.
  refine (staff_owned_turn_is_rejected true Scenario.sid
            "What helps with a headache?" _ Scenario.taken
            Scenario.rest_well_reply Scenario.rest_well
            [[ChatController.Elapse 5]] _ _).
  - vm_compute. reflexivity.
  - reflexivity.
Defined.

(** A turn for a session that no conversation has is answered with 404 by
    the non-streaming endpoint and with at most a [NOT_FOUND] error event
    by the streaming endpoint; it stores nothing and never invokes the
    engine. *)
Theorem unknown_session_turn_is_rejected safetyMode sessionId message
    (w : world) reply stream pending :
  ConversationService.getConversation sessionId (ChatController.db w) = None ->
  ChatController.sendMessage safetyMode (patient_request sessionId message) reply w
  = (ChatController.status_json 404 (ChatController.ErrorBody "NOT_FOUND"), w)
  /\ rejected_stream "NOT_FOUND" w
       (ChatController.sendMessageStream safetyMode (patient_request sessionId message)
          stream pending w).
Proof.
  intros Hc. split.
  - unfold ChatController.sendMessage, ChatController.sendMessage_try.
    rewrite patient_request_sessionId.
    destruct w as [d now sessions ab n log]; simpl in *.
    unfold Async.bind, ChatController.query, Async.gets; simpl.
    rewrite Hc. reflexivity.
  - unfold ChatController.sendMessageStream, Async.try_catch,
      ChatController.sendMessageStream_try, ChatController.open_turn.
    rewrite patient_request_sessionId.
    destruct w as [d now sessions ab n log]; simpl in *.
    unfold Async.bind.
    step_await c1 Q1. rewrite Hc. simpl.
    unfold ChatController.reject_with, ChatController.res_end, Async.bind, Async.modify.
    event.
    unfold rejected_stream; simpl. repeat split.
    destruct c1; simpl; [right | left]; reflexivity.
Qed.

Lemma unknown_session_turn_is_rejected_witness :
  ChatController.sendMessage true (patient_request "no-such-session" "hello")
    Scenario.rest_well_reply Scenario.w
  = (ChatController.status_json 404 (ChatController.ErrorBody "NOT_FOUND"), Scenario.w)
  /\ rejected_stream "NOT_FOUND" Scenario.w
       (ChatController.sendMessageStream true (patient_request "no-such-session" "hello")
          Scenario.rest_well [] Scenario.w).
Proof.
  refine (unknown_session_turn_is_rejected true "no-such-session" "hello"
            Scenario.w Scenario.rest_well_reply Scenario.rest_well [] _).
  vm_compute. reflexivity.
Defined.

(** ** Urgent turns, in general *)

(** For an urgent message that is neither an emergency nor prohibited, the
    non-streaming endpoint stores and returns the urgent advisory, a blank
    line and then the generated text or, if the validator rejects it, the
    deflection; the streaming endpoint, while nothing but time passes
    before generation, writes the advisory as the first [token] event,
    right after the [start] event. *)
Theorem urgent_advisory_leads sessionId message conversation (w : world) :
  ConversationService.getConversation sessionId (ChatController.db w) = Some conversation ->
  Conv.status conversation <> StaffTaken ->
  EmergencyDetector.isUrgent (EmergencyDetector.detectEmergency message) = true ->
  EmergencyDetector.isProhibited (EmergencyDetector.detectProhibitedTopic message) = false ->
  (forall data_content tokens latency,
     within_limits (ChatController.clock w) sessionId (ChatController.db w) ->
     Js.truthy data_content = true ->
     urgent_reply sessionId
       (SafetyRules.message SafetyRules.urgentResponse ++ ChatController.blank_line
        ++ validated_text (LlamaService.strip_control_tokens data_content)) w
       (ChatController.sendMessage true (patient_request sessionId message)
          (LlamaService.Completion data_content tokens latency) w))
  /\ (forall stream b1 b2 b3 b4 rest,
        within_limits
          (checked_at (ChatController.clock w) (b1 :: b2 :: b3 :: b4 :: rest)%list)
          sessionId (ChatController.db w) ->
        quiet b1 = true -> quiet b2 = true -> quiet b3 = true -> quiet b4 = true ->
        exists timestamp more,
          ChatController.written
            (ChatController.sendMessageStream true (patient_request sessionId message)
               stream (b1 :: b2 :: b3 :: b4 :: rest)%list w)
          = ChatController.EvStart sessionId timestamp
            :: ChatController.EvToken (urgentPrefix true message)
                 (urgentPrefix true message) :: more).
Proof.
  intros Hc Hs Hu Hp. split.
  - intros data_content tokens latency Hl Ht.
    now apply urgent_sendMessage with (conversation := conversation).
  - intros stream b1 b2 b3 b4 rest Hl Q1 Q2 Q3 Q4.
    destruct (accepted_turn true sessionId message conversation w stream _ Hc Hs Hl)
      as (c & m & a & n & -> & Hquiet).
    destruct (Hquiet Q1 Q2 Q3) as (-> & -> & -> & ->). clear Hquiet.
    unfold dispatch. rewrite (urgent_not_emergency _ Hu), Hp. simpl negb. cbv iota.
    destruct (urgent_block conversation sessionId message stream b4 rest
                (accepted false (registered sessionId w) (ChatController.aborted w)
                   (S (ChatController.controllers w)) conversation sessionId message (b1 :: b2 :: b3 :: b4 :: rest)%list w)
                Hu eq_refl eq_refl eq_refl Q4) as (timestamp & more & E).
    exists timestamp, more. exact E.
Qed.

Lemma urgent_advisory_leads_witness :
  urgent_reply Scenario.sid
    (SafetyRules.message SafetyRules.urgentResponse ++ ChatController.blank_line
     ++ validated_text (LlamaService.strip_control_tokens "Rest and drink water."))
    Scenario.w
    (ChatController.sendMessage true Scenario.high_fever Scenario.rest_well_reply
       Scenario.w)
  /\ exists timestamp more,
       ChatController.written
         (ChatController.sendMessageStream true Scenario.high_fever Scenario.rest_well
            [[]; []; []; []] Scenario.w)
       = ChatController.EvStart Scenario.sid timestamp
         :: ChatController.EvToken (urgentPrefix true "I have a high fever")
              (urgentPrefix true "I have a high fever") :: more.
Proof.
  refine ((fun H => conj (proj1 H "Rest and drink water." 5 40%N _ _)
                         (proj2 H Scenario.rest_well [] [] [] [] [] _ _ _ _ _))
            (urgent_advisory_leads Scenario.sid "I have a high fever"
               Scenario.conversation Scenario.w _ _ _ _)).
  all: first [ vm_compute; reflexivity | vm_compute; discriminate ].
Defined.

(** * Further properties *)

#[local] Transparent ChatController.await ChatController.delete_session
  ChatController.sendEvent ChatController.generateStreamingResponse
  ChatController.createHandoffRequest ConversationService.addMessage
  ConversationService.getContextMessages ConversationService.checkLimits
  ConversationService.getConversation EmergencyDetector.detectEmergency
  EmergencyDetector.detectProhibitedTopic EmergencyDetector.validateResponse
  LlamaService.strip_control_tokens ChatController.deflection with_message message_row
  elapsed.

(** ** Turns over the limits *)

Section OverLimits.

Lemma checkLimits_over now sessionId conversation d :
  ConversationService.getConversation sessionId d = Some conversation ->
  over_limits now conversation d ->
  exists l, ConversationService.checkLimits now sessionId d = (inr l, d)
            /\ ConversationService.exceeded l = true.
Proof.
  intros Hc Ho. unfold ConversationService.checkLimits. rewrite Hc.
  destruct (Nat.leb _ _) eqn:E1; [eexists; split; reflexivity|].
  destruct (Z.leb _ _) eqn:E2; [eexists; split; reflexivity|].
  exfalso. apply Nat.leb_gt in E1. apply Z.leb_gt in E2.
  destruct Ho as [Ho|Ho]; lia.
Qed.

Lemma within_or_over now sessionId conversation d :
  ConversationService.getConversation sessionId d = Some conversation ->
  within_limits now sessionId d \/ over_limits now conversation d.
Proof.
  intros Hc. unfold within_limits, over_limits, ConversationService.checkLimits.
  rewrite Hc.
  destruct (Nat.leb _ _) eqn:E1; [right; left; now apply Nat.leb_le|].
  destruct (Z.leb _ _) eqn:E2; [right; right; now apply Z.leb_le|].
  left. reflexivity.
Qed.

End OverLimits.

(** A turn for a conversation that holds fifty messages or is twenty-four
    hours old is answered with 429 by the non-streaming endpoint and with at
    most a [RATE_LIMITED] error event by the streaming endpoint, in either
    mode; it stores nothing, not even the user's message, and never invokes
    the engine. *)
Theorem over_limit_turn_is_rejected safetyMode sessionId message conversation
    (w : world) reply stream pending :
  ConversationService.getConversation sessionId (ChatController.db w) = Some conversation ->
  Conv.status conversation <> StaffTaken ->
  (over_limits (ChatController.clock w) conversation (ChatController.db w) ->
   ChatController.sendMessage safetyMode (patient_request sessionId message) reply w
   = (ChatController.status_json 429 (ChatController.ErrorBody "RATE_LIMITED"), w))
  /\ (over_limits (checked_at (ChatController.clock w) pending) conversation
        (ChatController.db w) ->
      rejected_stream "RATE_LIMITED" w
        (ChatController.sendMessageStream safetyMode (patient_request sessionId message)
           stream pending w)).
Proof.
  intros Hc Hs. split; intros Ho.
  - destruct (checkLimits_over _ _ _ _ Hc Ho) as (l & El & Ex).
    unfold ChatController.sendMessage, ChatController.sendMessage_try.
    rewrite patient_request_sessionId.
    destruct w as [d now sessions ab n log]; simpl in *.
    unfold Async.bind, ChatController.query, Async.gets; simpl.
    rewrite Hc, (not_taken _ Hs); simpl. rewrite El; simpl. rewrite Ex. reflexivity.
  - destruct (checkLimits_over _ _ _ _ Hc Ho) as (l & El & Ex).
    unfold ChatController.sendMessageStream, Async.try_catch,
      ChatController.sendMessageStream_try, ChatController.open_turn.
    rewrite patient_request_sessionId.
    destruct w as [d now sessions ab n log]; simpl in *.
    unfold Async.bind. unfold checked_at in El.
    step_await c1 Q1. rewrite Hc, (not_taken _ Hs).
    step_await c2 Q2. rewrite El. simpl. rewrite Ex.
    unfold ChatController.reject_with, ChatController.res_end, Async.bind, Async.modify.
    rewrite sendEvent_run. norm.
    unfold rejected_stream; simpl. repeat split.
    destruct c2; simpl; [right | left]; reflexivity.
Qed.

Lemma over_limit_turn_is_rejected_witness :
  ChatController.sendMessage true Scenario.headache Scenario.rest_well_reply Scenario.expired
  = (ChatController.status_json 429 (ChatController.ErrorBody "RATE_LIMITED"),
     Scenario.expired)
  /\ rejected_stream "RATE_LIMITED" Scenario.expired
       (ChatController.sendMessageStream false Scenario.headache Scenario.rest_well
          [[ChatController.Elapse 5]] Scenario.expired).
Proof.
  refine ((fun H => conj (proj1 (H true) _) (proj2 (H false) _))
            (fun mode => over_limit_turn_is_rejected mode Scenario.sid
               "What helps with a headache?" Scenario.conversation Scenario.expired
               Scenario.rest_well_reply Scenario.rest_well [[ChatController.Elapse 5]]
               eq_refl _)).
  - right. vm_compute. discriminate.
  - right. vm_compute. discriminate.
  - vm_compute. discriminate.
Defined.

(** ** Keyword and pattern matching inside longer texts *)

Section Embedding.

Lemma append_cons c (a b : string) : String c a ++ b = String c (a ++ b).
Proof. reflexivity. Qed.

Lemma toLowerCase_app (a b : string) :
  Js.toLowerCase (a ++ b) = Js.toLowerCase a ++ Js.toLowerCase b.
Proof.
  induction a as [|c a IH]; [reflexivity|].
  rewrite append_cons. simpl Js.toLowerCase. rewrite IH. reflexivity.
Qed.

Lemma startsWith_empty (s : string) : Js.startsWith s "" = true.
Proof. now destruct s. Qed.

Lemma startsWith_app_l (s sub post : string) :
  Js.startsWith s sub = true -> Js.startsWith (s ++ post) sub = true.
Proof.
  revert s. induction sub as [|a sub IH]; intros s H; [apply startsWith_empty|].
  destruct s as [|b s]; [discriminate|].
  rewrite append_cons. simpl in *.
  apply andb_prop in H as [H1 H2]. rewrite H1. now apply IH.
Qed.

Lemma includes_unfold (s sub : string) :
  Js.includes s sub
  = (Js.startsWith s sub
     || match s with EmptyString => false | String _ s' => Js.includes s' sub end)%bool.
Proof. now destruct s. Qed.

Lemma includes_app_l (s sub post : string) :
  Js.includes s sub = true -> Js.includes (s ++ post) sub = true.
Proof.
  induction s as [|c s IH]; intros H.
  - rewrite includes_unfold in H. rewrite orb_false_r in H.
    rewrite includes_unfold. apply orb_true_intro. left.
    now apply (startsWith_app_l "" sub post).
  - rewrite includes_unfold in H. rewrite append_cons, includes_unfold.
    apply orb_prop in H as [H|H]; apply orb_true_intro.
    + left. now apply (startsWith_app_l (String c s)).
    + right. now apply IH.
Qed.

Lemma includes_app_r (pre s sub : string) :
  Js.includes s sub = true -> Js.includes (pre ++ s) sub = true.
Proof.
  intros H. induction pre as [|c pre IH]; [exact H|].
  rewrite append_cons, includes_unfold. apply orb_true_intro. now right.
Qed.

Lemma matches_keyword_embedded rules (pre text post : string) :
  matches_keyword rules text -> matches_keyword rules (pre ++ text ++ post).
Proof.
  intros (k & Hin & Hk). exists k. split; [exact Hin|].
  rewrite !toLowerCase_app. apply includes_app_r. now apply includes_app_l.
Qed.

Lemma matches_prefix_unfold r (s : string) :
  Regex.matches_prefix r s
  = (Regex.nullable r
     || match s with
        | EmptyString => false
        | String c s' => Regex.matches_prefix (Regex.deriv c r) s'
        end)%bool.
Proof. now destruct s. Qed.

Lemma test_unfold r (s : string) :
  Regex.test r s
  = (Regex.matches_prefix r s
     || match s with EmptyString => false | String _ s' => Regex.test r s' end)%bool.
Proof. now destruct s. Qed.

Lemma matches_prefix_app (s post : string) : forall r,
  Regex.matches_prefix r s = true -> Regex.matches_prefix r (s ++ post) = true.
Proof.
  induction s as [|c s IH]; intros r H.
  - rewrite matches_prefix_unfold, orb_false_r in H.
    rewrite matches_prefix_unfold, H. reflexivity.
  - rewrite matches_prefix_unfold in H. rewrite append_cons, matches_prefix_unfold.
    apply orb_prop in H as [H|H]; apply orb_true_intro; [now left|].
    right. now apply IH.
Qed.

Lemma test_app_l r (s post : string) :
  Regex.test r s = true -> Regex.test r (s ++ post) = true.
Proof.
  induction s as [|c s IH]; intros H.
  - rewrite test_unfold, orb_false_r in H.
    rewrite test_unfold. apply orb_true_intro. left.
    now apply (matches_prefix_app "" post).
  - rewrite test_unfold in H. rewrite append_cons, test_unfold.
    apply orb_prop in H as [H|H]; apply orb_true_intro.
    + left. now apply (matches_prefix_app (String c s)).
    + right. now apply IH.
Qed.

Lemma test_app_r r (pre s : string) :
  Regex.test r s = true -> Regex.test r (pre ++ s) = true.
Proof.
  intros H. induction pre as [|c pre IH]; [exact H|].
  rewrite append_cons, test_unfold. apply orb_true_intro. now right.
Qed.

Lemma matching_nonempty rules (text : string) :
  EmergencyDetector.nonempty (EmergencyDetector.matching rules (Js.toLowerCase text)) = true ->
  matches_keyword rules text.
Proof.
  unfold EmergencyDetector.matching. intros H.
  destruct (List.filter _ rules) as [|k l] eqn:E; [discriminate|].
  assert (Hin : In k (List.filter
            (fun k => Js.includes (Js.toLowerCase text) (Js.toLowerCase k)) rules))
    by (rewrite E; now left).
  apply List.filter_In in Hin as [H1 H2]. now exists k.
Qed.

End Embedding.

(** A message that contains a text with an emergency keyword is classified
    as an emergency whatever surrounds that text, and never as urgent; a
    message that contains a text with a prohibited topic is classified as
    prohibited. *)
Theorem keyword_is_not_masked (pre text post : string) :
  (matches_keyword SafetyRules.emergencyKeywords text ->
   let detection := EmergencyDetector.detectEmergency (pre ++ text ++ post) in
   EmergencyDetector.isEmergency detection = true
   /\ EmergencyDetector.isUrgent detection = false
   /\ EmergencyDetector.response detection = Some SafetyRules.emergencyResponse)
  /\ (matches_keyword SafetyRules.prohibitedTopics text ->
      let detection := EmergencyDetector.detectProhibitedTopic (pre ++ text ++ post) in
      EmergencyDetector.isProhibited detection = true
      /\ EmergencyDetector.refusal detection = Some SafetyRules.refusalResponse).
Proof.
  split; intros H detection; subst detection.
  - rewrite (detectEmergency_emergency _ (matches_keyword_embedded _ pre text post H)).
    repeat split.
  - unfold EmergencyDetector.detectProhibitedTopic.
    rewrite (nonempty_matching _ _ (matches_keyword_embedded _ pre text post H)).
    repeat split.
Qed.

Lemma keyword_is_not_masked_witness :
  EmergencyDetector.isEmergency
    (EmergencyDetector.detectEmergency
       ("My fever is high and " ++ "I have CHEST PAIN" ++ " since noon")) = true
  /\ EmergencyDetector.isProhibited
       (EmergencyDetector.detectProhibitedTopic
          ("Tell me about " ++ "Euthanasia" ++ " please")) = true.
Proof.
  refine (conj
            (proj1 (proj1 (keyword_is_not_masked "My fever is high and "
                             "I have CHEST PAIN" " since noon") _))
            (proj1 (proj2 (keyword_is_not_masked "Tell me about " "Euthanasia" " please")
                      _))).
  - exists "chest pain". split; [vm_compute; tauto | vm_compute; reflexivity].
  - exists "euthanasia". split; [vm_compute; tauto | vm_compute; reflexivity].
Defined.

(** A generated text that contains a text the validator rejects is rejected
    too, whatever precedes and follows it. *)
Theorem rejected_text_stays_rejected (pre text post : string) :
  EmergencyDetector.isValid (EmergencyDetector.validateResponse text) = false ->
  EmergencyDetector.isValid (EmergencyDetector.validateResponse (pre ++ text ++ post))
  = false.
Proof.
  unfold EmergencyDetector.validateResponse.
  destruct (EmergencyDetector.nonempty
              (EmergencyDetector.matching SafetyRules.restrictedActions
                 (Js.toLowerCase text))) eqn:E1.
  - intros _.
    rewrite (nonempty_matching _ _
               (matches_keyword_embedded _ pre text post (matching_nonempty _ _ E1))).
    reflexivity.
  - destruct (List.existsb _ EmergencyDetector.diagnosisPatterns) eqn:E2;
      [|discriminate].
    intros _.
    destruct (EmergencyDetector.nonempty
                (EmergencyDetector.matching SafetyRules.restrictedActions
                   (Js.toLowerCase (pre ++ text ++ post)))); [reflexivity|].
    replace (List.existsb
               (fun pattern => Regex.test pattern (pre ++ text ++ post))
               EmergencyDetector.diagnosisPatterns) with true; [reflexivity|].
    symmetry. apply List.existsb_exists.
    apply List.existsb_exists in E2 as (r & Hin & Hr).
    exists r. split; [exact Hin|]. apply test_app_r. now apply test_app_l.
Qed.

Lemma rejected_text_stays_rejected_witness :
  EmergencyDetector.isValid
    (EmergencyDetector.validateResponse
       ("Based on what you say, " ++ "You have a cold." ++ " Rest well.")) = false.
Proof.
  refine (rejected_text_stays_rejected "Based on what you say, " "You have a cold."
            " Rest well." _).
  vm_compute. reflexivity.
Defined.

(** ** Cancel requests and the registry of turns *)

(** A cancel request for a session that has a turn registered marks the
    entry of the session as cancelled, keeping its AbortController, fires
    the signal of that AbortController and of no other, leaves the entries
    of all other sessions, the store and the record of engine invocations as
    they were, and is idempotent; for a session without a registered turn it
    changes nothing. *)
Theorem cancel_reaches_only_its_session (sessionId : string) (w : world) :
  Js.truthy sessionId = true ->
  let w' := snd (ChatController.cancelGeneration sessionId w) in
  (ChatController.activeSessions w !! sessionId = None -> w' = w)
  /\ (forall sessionData,
        ChatController.activeSessions w !! sessionId = Some sessionData ->
        ChatController.activeSessions w' !! sessionId
        = Some {| SessionData.abortController := SessionData.abortController sessionData;
                  SessionData.isCancelled := true |}
        /\ ChatController.signal_fired (SessionData.abortController sessionData) w' = true
        /\ (forall c, c <> SessionData.abortController sessionData ->
              ChatController.signal_fired c w' = ChatController.signal_fired c w)
        /\ (forall other, other <> sessionId ->
              ChatController.activeSessions w' !! other
              = ChatController.activeSessions w !! other)
        /\ ChatController.db w' = ChatController.db w
        /\ ChatController.engineLog w' = ChatController.engineLog w
        /\ snd (ChatController.cancelGeneration sessionId w') = w').
Proof.
  intros Ht w'. subst w'. unfold ChatController.cancelGeneration. rewrite Ht. simpl negb.
  cbv iota. split.
  - intros ->. reflexivity.
  - intros sessionData ->.
    destruct w as [d k m a n l]. simpl.
    unfold ChatController.signal_fired, ChatController.abort; simpl.
    split; [apply lookup_insert_eq|].
    split; [apply bool_decide_eq_true; set_solver|].
    split.
    { intros c Hc. apply bool_decide_ext. rewrite elem_of_union, elem_of_singleton.
      split; [intros [H|H]; [congruence | exact H] | intros H; right; exact H]. }
    split; [intros other Ho; now apply lookup_insert_ne|].
    split; [reflexivity|]. split; [reflexivity|].
    rewrite lookup_insert_eq. simpl.
    unfold ChatController.set_aborted, ChatController.set_activeSessions; simpl.
    rewrite insert_insert_eq. f_equal.
    apply leibniz_equiv. intros c. rewrite !elem_of_union. tauto.
Qed.

Lemma cancel_reaches_only_its_session_witness :
  let w' := snd (ChatController.cancelGeneration Scenario.sid
                   (ChatController.process
                      (ChatController.open_turn Scenario.headache [] Scenario.w))) in
  ChatController.activeSessions w' !! Scenario.sid
  = Some {| SessionData.abortController := 0; SessionData.isCancelled := true |}
  /\ ChatController.signal_fired 0 w' = true.
Proof.
  intros w'.
  destruct (proj2 (cancel_reaches_only_its_session Scenario.sid
                     (ChatController.process
                        (ChatController.open_turn Scenario.headache [] Scenario.w))
                     eq_refl)
              {| SessionData.abortController := 0; SessionData.isCancelled := false |})
    as (Hentry & Hfired & _).
  - vm_compute. reflexivity.
  - split; [exact Hentry | exact Hfired].
Defined.

(** A second streaming turn for a session replaces the registration of the
    first: a cancel request for the session then fires the signal of the
    second turn and not that of the first, which can no longer be
    cancelled. *)
Theorem later_turn_takes_the_registration (first second : ChatController.request)
    pending1 pending2 (w : world) :
  Js.truthy (ChatController.sessionId first) = true ->
  ChatController.sessionId second = ChatController.sessionId first ->
  ChatController.signal_fired (ChatController.controllers w) w = false ->
  let t1 := ChatController.open_turn first pending1 w in
  let t2 := ChatController.open_turn second pending2 (ChatController.process t1) in
  let w' := snd (ChatController.cancelGeneration (ChatController.sessionId first)
                   (ChatController.process t2)) in
  ChatController.abortController t1 <> ChatController.abortController t2
  /\ ChatController.signal_fired (ChatController.abortController t2) w' = true
  /\ ChatController.signal_fired (ChatController.abortController t1) w' = false.
Proof.
  intros Ht Hs Hf t1 t2 w'. subst t1 t2 w'.
  unfold ChatController.cancelGeneration. rewrite Ht. simpl negb. cbv iota.
  destruct w as [d k m a n l]. simpl in *. rewrite Hs, lookup_insert_eq. simpl.
  unfold ChatController.signal_fired, ChatController.abort in *; simpl in *.
  split; [lia|].
  split; [apply bool_decide_eq_true; set_solver|].
  apply bool_decide_eq_false. apply bool_decide_eq_false in Hf.
  intros [H|H]%elem_of_union; [|contradiction].
  apply elem_of_singleton in H. lia.
Qed.

Lemma later_turn_takes_the_registration_witness :
  let t1 := ChatController.open_turn Scenario.headache [] Scenario.w in
  let t2 := ChatController.open_turn Scenario.high_fever [] (ChatController.process t1) in
  ChatController.signal_fired (ChatController.abortController t1)
    (snd (ChatController.cancelGeneration Scenario.sid (ChatController.process t2)))
  = false.
Proof.
  refine (proj2 (proj2 (later_turn_takes_the_registration Scenario.headache
                          Scenario.high_fever [] [] Scenario.w _ _ _))).
  - reflexivity.
  - reflexivity.
  - vm_compute. reflexivity.
Defined.

(** ** Takeover and release *)

Section StaffStore.

Lemma find_sql_update {A} (p q : A -> bool) (f : A -> A) (rows : list A) :
  (forall r, p (f r) = p r) ->
  List.find p (sql_update q f rows)
  = option_map (fun r => if q r then f r else r) (List.find p rows).
Proof.
  intros Hp. unfold sql_update.
  induction rows as [|r rows IH]; [reflexivity|]. simpl.
  destruct (q r) eqn:Eq; [rewrite Hp|]; destruct (p r); simpl; rewrite ?Eq; auto.
Qed.

Lemma filter_sql_update {A} (p q : A -> bool) (f : A -> A) (rows : list A) :
  (forall r, q r = true -> p (f r) = false) ->
  (forall r, q r = true -> p r = false) ->
  List.filter p (sql_update q f rows) = List.filter p rows.
Proof.
  intros H1 H2. unfold sql_update.
  induction rows as [|r rows IH]; [reflexivity|]. simpl.
  destruct (q r) eqn:E.
  - rewrite (H1 r E), (H2 r E). exact IH.
  - destruct (p r); now rewrite IH.
Qed.

Lemma map_sql_update {A B} (g : A -> B) (q : A -> bool) (f : A -> A) (rows : list A) :
  (forall r, g (f r) = g r) ->
  List.map g (sql_update q f rows) = List.map g rows.
Proof.
  intros H. unfold sql_update. rewrite List.map_map. apply List.map_ext.
  intros r. destruct (q r); auto.
Qed.

Lemma conversation_by_id sessionId d c :
  ConversationService.getConversation sessionId d = Some c ->
  ConversationService.by_id (Conv.id c) c = true
  /\ ConversationService.by_session sessionId c = true.
Proof.
  intros H. apply List.find_some in H as [_ H]. split; [apply Nat.eqb_refl | exact H].
Qed.

Lemma known_sql_update cid (q : Conv.t -> bool) (f : Conv.t -> Conv.t) rows :
  (forall r, Conv.id (f r) = Conv.id r) ->
  List.existsb (ConversationService.by_id cid) (sql_update q f rows)
  = List.existsb (ConversationService.by_id cid) rows.
Proof.
  intros H. unfold sql_update.
  induction rows as [|r rows IH]; [reflexivity|]. simpl. rewrite IH. f_equal.
  unfold ConversationService.by_id. destruct (q r); [now rewrite H|reflexivity].
Qed.

Lemma takeoverChat_run sessionId staffId conversation (w : world) :
  ConversationService.getConversation sessionId (ChatController.db w) = Some conversation ->
  staffId <> 0 ->
  HandoffController.takeoverChat sessionId (Some staffId) w
  = (HandoffController.ok "Successfully took over conversation",
     ChatController.set_db
       (taken_over (ChatController.clock w) staffId sessionId conversation
          (ChatController.db w)) w).
Proof.
  intros Hc Hs.
  unfold HandoffController.takeoverChat, HandoffController.missing.
  destruct (Z.eqb_spec staffId 0) as [|_]; [contradiction|].
  unfold HandoffController.takeoverChat_try, HandoffController.update_handoffs,
    Async.bind, ChatController.query, Async.gets, Async.ret.
  destruct w as [d now sessions ab n log]; simpl in *.
  rewrite Hc. simpl.
  rewrite addMessage_known; [reflexivity|].
  unfold known; simpl. rewrite known_sql_update by reflexivity.
  exact (conversation_known _ _ _ Hc).
Qed.

Lemma releaseChat_run sessionId staffId conversation (w : world) :
  ConversationService.getConversation sessionId (ChatController.db w) = Some conversation ->
  staffId <> 0 ->
  Conv.staff_id conversation = Some staffId ->
  HandoffController.releaseChat sessionId (Some staffId) w
  = (HandoffController.ok "Conversation released back to AI",
     ChatController.set_db
       (released (ChatController.clock w) staffId sessionId conversation
          (ChatController.db w)) w).
Proof.
  intros Hc Hs Ho.
  unfold HandoffController.releaseChat, HandoffController.missing.
  destruct (Z.eqb_spec staffId 0) as [|_]; [contradiction|].
  unfold HandoffController.releaseChat_try, HandoffController.update_handoffs,
    Async.bind, ChatController.query, Async.gets, Async.ret.
  destruct w as [d now sessions ab n log]; simpl in *.
  rewrite Hc. simpl. rewrite bool_decide_eq_true_2 by exact Ho. simpl.
  rewrite addMessage_known; [reflexivity|].
  unfold known; simpl. rewrite known_sql_update by reflexivity.
  exact (conversation_known _ _ _ Hc).
Qed.

Lemma releaseChat_refused sessionId staffId conversation (w : world) :
  ConversationService.getConversation sessionId (ChatController.db w) = Some conversation ->
  staffId <> 0 ->
  Conv.staff_id conversation <> Some staffId ->
  HandoffController.releaseChat sessionId (Some staffId) w
  = (HandoffController.failure 403 "FORBIDDEN" "You are not assigned to this conversation",
     w).
Proof.
  intros Hc Hs Ho.
  unfold HandoffController.releaseChat, HandoffController.missing.
  destruct (Z.eqb_spec staffId 0) as [|_]; [contradiction|].
  unfold HandoffController.releaseChat_try, HandoffController.update_handoffs,
    Async.bind, ChatController.query, Async.gets, Async.ret.
  destruct w as [d now sessions ab n log]; simpl in *.
  rewrite Hc. simpl. rewrite bool_decide_eq_false_2 by exact Ho. reflexivity.
Qed.

(** The conversation of the session after a status update. *)
Lemma conversation_after_status now status staffId sessionId conversation cid r content md
    hs d :
  ConversationService.getConversation sessionId d = Some conversation ->
  ConversationService.getConversation sessionId
    (with_message now cid r content md
       (set_handoffs hs
          (set_conversations
             (sql_update (ConversationService.by_session sessionId)
                (ConversationService.set_status now status staffId)
                (ai_conversations d)) d)))
  = Some (ConversationService.set_status now status staffId conversation).
Proof.
  intros Hc. destruct (conversation_by_id _ _ _ Hc) as [_ Hsid].
  unfold ConversationService.getConversation in *. simpl.
  rewrite !find_sql_update by reflexivity. rewrite Hc. simpl. rewrite Hsid.
  now destruct (ConversationService.by_id cid _).
Qed.

Lemma contents_with_message now cid r content md d (w : world) :
  Scenario.contents (ChatController.set_db (with_message now cid r content md d) w)
  = (List.map (fun m => (Msg.role m, Msg.content m)) (ai_messages d)
     ++ [(r, content)])%list.
Proof. unfold Scenario.contents; simpl. now rewrite List.map_app. Qed.

Lemma none_left_after_update {A} (q : A -> bool) (f : A -> A) (rows : list A) :
  (forall r, q r = true -> q (f r) = false) ->
  List.filter q (sql_update q f rows) = [].
Proof.
  intros H. unfold sql_update. induction rows as [|r rows IH]; [reflexivity|]. simpl.
  destruct (q r) eqn:E; [rewrite (H r E) | rewrite E]; exact IH.
Qed.

Lemma handoff_in_assigned cid now staffId s h :
  HandoffController.handoff_in cid s (HandoffController.assign now staffId h)
  = (Nat.eqb (Handoff.conversation_id h) cid && handoff_status_eqb Assigned s)%bool.
Proof. reflexivity. Qed.

Lemma handoff_in_resolved cid now s h :
  HandoffController.handoff_in cid s (HandoffController.resolve now h)
  = (Nat.eqb (Handoff.conversation_id h) cid && handoff_status_eqb Resolved s)%bool.
Proof. reflexivity. Qed.

Lemma handoff_in_other cid s s' h :
  s <> s' -> HandoffController.handoff_in cid s h = true ->
  HandoffController.handoff_in cid s' h = false.
Proof.
  unfold HandoffController.handoff_in. intros Hne [-> H]%andb_prop.
  destruct (Handoff.status h), s, s'; try discriminate; try reflexivity; congruence.
Qed.

End StaffStore.

(** Takeover never refuses an existing conversation: whatever its status and
    whoever holds it, the staff member who asks becomes its owner, its
    pending handoff requests are assigned, and one system message is added;
    a closed conversation becomes [staff-taken] again with its [closed_at]
    still set. *)
Theorem takeover_always_succeeds (sessionId : string) (staffId : Z)
    (conversation : Conv.t) (w : world) :
  ConversationService.getConversation sessionId (ChatController.db w) = Some conversation ->
  staffId <> 0 ->
  let out := HandoffController.takeoverChat sessionId (Some staffId) w in
  fst out = HandoffController.ok "Successfully took over conversation"
  /\ conversation_is sessionId StaffTaken (Some staffId) (Conv.closed_at conversation)
       (snd out)
  /\ handoffs_in (Conv.id conversation) Pending (snd out) = []
  /\ added w (snd out) [(System, "A staff member has joined the conversation.")]
  /\ ChatController.engineLog (snd out) = ChatController.engineLog w.
Proof.
  intros Hc Hs out. subst out. rewrite (takeoverChat_run _ _ _ _ Hc Hs).
  destruct w as [d now sessions ab n log]; simpl in *.
  split; [reflexivity|]. split.
  { eexists. split; [apply conversation_after_status; exact Hc|]. repeat split. }
  split.
  { unfold handoffs_in, taken_over; simpl. rewrite none_left_after_update; [reflexivity|].
    intros h _. rewrite handoff_in_assigned. apply andb_false_r. }
  split; [|reflexivity].
  unfold added, taken_over. rewrite contents_with_message. reflexivity.
Qed.

Lemma takeover_always_succeeds_witness :
  conversation_is Scenario.sid StaffTaken (Some 9) (Some 1500)
    (snd (HandoffController.takeoverChat Scenario.sid (Some 9) Scenario.closed)).
Proof.
  refine (proj1 (proj2 (takeover_always_succeeds Scenario.sid 9
                          (ConversationService.set_closed 1500 Scenario.conversation)
                          Scenario.closed _ _))).
  - vm_compute. reflexivity.
  - discriminate.
Defined.

(** Only the staff member who holds a conversation can release it: for
    anyone else the call is answered with 403 and changes nothing.  After a
    takeover, the release by the same staff member returns the conversation
    to the assistant with no owner, resolves the handoff requests the
    takeover assigned, and adds one system message. *)
Theorem release_returns_the_conversation (sessionId : string) (staffId : Z)
    (conversation : Conv.t) (w : world) :
  ConversationService.getConversation sessionId (ChatController.db w) = Some conversation ->
  staffId <> 0 ->
  let taken := snd (HandoffController.takeoverChat sessionId (Some staffId) w) in
  let out := HandoffController.releaseChat sessionId (Some staffId) taken in
  (forall other, other <> 0 -> other <> staffId ->
     HandoffController.releaseChat sessionId (Some other) taken
     = (HandoffController.failure 403 "FORBIDDEN"
          "You are not assigned to this conversation", taken))
  /\ fst out = HandoffController.ok "Conversation released back to AI"
  /\ conversation_is sessionId AiActive None (Conv.closed_at conversation) (snd out)
  /\ handoffs_in (Conv.id conversation) Pending (snd out) = []
  /\ handoffs_in (Conv.id conversation) Assigned (snd out) = []
  /\ added taken (snd out)
       [(System, "The conversation has been returned to AI assistance.")].
Proof.
  intros Hc Hs taken out. subst out taken.
  rewrite (takeoverChat_run _ _ _ _ Hc Hs).
  destruct w as [d now sessions ab n log]; simpl.
  pose proof (conversation_after_status now StaffTaken (Some staffId) sessionId
                conversation (Conv.id conversation) System
                "A staff member has joined the conversation."
                [("staffId", JNum staffId); ("action", JStr "takeover")]
                (sql_update (HandoffController.handoff_in (Conv.id conversation) Pending)
                   (HandoffController.assign now staffId) (ai_handoff_requests d))
                d Hc) as Hc1.
  fold (taken_over now staffId sessionId conversation d) in Hc1.
  split.
  { intros other Ho Hne.
    eapply releaseChat_refused; [simpl; exact Hc1 | exact Ho | simpl; congruence]. }
  erewrite releaseChat_run; [|simpl; exact Hc1 | exact Hs | reflexivity]. simpl.
  split; [reflexivity|]. split.
  { eexists. split; [apply conversation_after_status; exact Hc1|]. repeat split. }
  split.
  { unfold handoffs_in, released, taken_over; simpl.
    rewrite filter_sql_update.
    - rewrite none_left_after_update; [reflexivity|].
      intros h _. rewrite handoff_in_assigned. apply andb_false_r.
    - intros h _. rewrite handoff_in_resolved. apply andb_false_r.
    - intros h. now apply handoff_in_other. }
  split.
  { unfold handoffs_in, released; simpl.
    rewrite none_left_after_update; [reflexivity|].
    intros h _. rewrite handoff_in_resolved. apply andb_false_r. }
  unfold added, released. rewrite contents_with_message. reflexivity.
Qed.

Lemma release_returns_the_conversation_witness :
  conversation_is Scenario.sid AiActive None None
    (snd (HandoffController.releaseChat Scenario.sid (Some 7) Scenario.taken)).
Proof.
  refine (proj1 (proj2 (proj2 (release_returns_the_conversation Scenario.sid 7
                                 Scenario.conversation Scenario.w _ _)))).
  - vm_compute. reflexivity.
  - discriminate.
Defined.

(** ** The matcher *)

Section Matcher.

Lemma append_empty_l (a : string) : "" ++ a = a.
Proof. reflexivity. Qed.

Lemma length_append (a b : string) :
  String.length (a ++ b) = (String.length a + String.length b)%nat.
Proof. induction a; rewrite ?append_cons, ?append_empty_l; simpl; congruence. Qed.

Lemma suffix_of_refl (s : string) : suffix_of s s.
Proof. exists "". reflexivity. Qed.

Lemma suffix_of_trans (a b c : string) : suffix_of a b -> suffix_of b c -> suffix_of a c.
Proof.
  intros [u ->] [v ->]. exists (v ++ u). symmetry. apply append_assoc.
Qed.

Lemma suffix_of_cons (c : ascii) (t s : string) : suffix_of t s -> suffix_of t (String c s).
Proof. intros [u ->]. exists (String c u). reflexivity. Qed.

Lemma suffix_of_length (t s : string) :
  suffix_of t s -> (String.length t <= String.length s)%nat.
Proof. intros [u ->]. rewrite length_append. lia. Qed.

Lemma advances_here : advances (fun p s => Some (p, s)).
Proof. intros p s q rest [= <- <-]. apply suffix_of_refl. Qed.

Lemma run_advances (r : Pattern.pattern) :
  forall prev s k, advances k ->
  forall q rest, Pattern.run r prev s k = Some (q, rest) -> suffix_of rest s.
Proof.
  induction r as [|p|a IHa b IHb|a IHa|a IHa| | |]; intros prev s k Hk q rest; simpl.
  - apply Hk.
  - destruct s as [|c s']; [discriminate|]. destruct (p c); [|discriminate].
    intros H. apply suffix_of_cons. exact (Hk _ _ _ _ H).
  - apply IHa. intros p' s' q' rest'. apply IHb. exact Hk.
  - generalize (String.length s). intros fuel. revert prev s q rest.
    induction fuel as [|fuel IH]; intros prev s q rest.
    + apply Hk.
    + match goal with
      | |- context [Pattern.run a prev s ?k'] =>
          destruct (Pattern.run a prev s k') as [[q' rest']|] eqn:E
      end.
      * intros [= <- <-]. revert E. apply IHa.
        intros p' s' q'' rest''.
        destruct (Nat.ltb _ _); [apply IH | discriminate].
      * apply Hk.
  - destruct (Pattern.run a prev s _); [discriminate | apply Hk].
  - destruct (xorb _ _); [apply Hk | discriminate].
  - destruct prev; [discriminate | apply Hk].
  - destruct s; [apply Hk | discriminate].
Qed.

Lemma exec_advances (r : Pattern.pattern) prev s q rest :
  Pattern.exec r prev s = Some (q, rest) -> suffix_of rest s.
Proof. apply run_advances, advances_here. Qed.

(** An iteration followed by nothing always matches. *)
Lemma many_matches (a : Pattern.pattern) prev s :
  Pattern.run (Pattern.Many a) prev s (fun p' s' => Some (p', s')) <> None.
Proof.
  simpl. destruct (String.length s) as [|fuel]; [discriminate|].
  match goal with
  | |- context [Pattern.run a prev s ?k'] => destruct (Pattern.run a prev s k')
  end; discriminate.
Qed.

Lemma consuming_after_char (p : ascii -> bool) (r : Pattern.pattern) :
  consuming (Pattern.Cat (Pattern.Chr p) r).
Proof.
  intros prev s q rest. unfold Pattern.exec. simpl.
  destruct s as [|c s']; [discriminate|]. destruct (p c); [|discriminate].
  intros H. apply run_advances in H; [|apply advances_here].
  apply suffix_of_length in H. simpl. lia.
Qed.

Lemma subsequence_refl (s : string) : subsequence s s.
Proof. induction s; constructor; assumption. Qed.

Lemma subsequence_suffix (t s : string) : suffix_of t s -> subsequence t s.
Proof.
  intros [u ->]. induction u; rewrite ?append_cons, ?append_empty_l; [apply subsequence_refl|].
  constructor. assumption.
Qed.

Lemma subsequence_trans (a b c : string) :
  subsequence a b -> subsequence b c -> subsequence a c.
Proof.
  intros Hab Hbc. revert a Hab.
  induction Hbc as [|x t s H IH|x t s H IH]; intros a Hab.
  - exact Hab.
  - inversion Hab; subst.
    + constructor. apply IH. assumption.
    + apply subsequence_drop. apply IH. assumption.
  - apply subsequence_drop. apply IH. assumption.
Qed.

Lemma subsequence_length (t s : string) :
  subsequence t s -> (String.length t <= String.length s)%nat.
Proof. induction 1; simpl; lia. Qed.

Lemma all_chars_subsequence (p : ascii -> bool) (t s : string) :
  subsequence t s -> all_chars p s = true -> all_chars p t = true.
Proof.
  induction 1; simpl; auto.
  - intros [H1 H2]%andb_true_iff. rewrite H1. auto.
  - intros [_ H2]%andb_true_iff. auto.
Qed.

Lemma all_chars_app (p : ascii -> bool) (a b : string) :
  all_chars p (a ++ b) = (all_chars p a && all_chars p b)%bool.
Proof.
  induction a; rewrite ?append_cons, ?append_empty_l; simpl; [reflexivity|].
  rewrite IHa. apply andb_assoc.
Qed.

Lemma keep_chars_subsequence (p : ascii -> bool) (s : string) :
  subsequence (keep_chars p s) s.
Proof. induction s; simpl; [constructor|]. destruct (p a); constructor; assumption. Qed.

Lemma all_chars_keep_chars (p : ascii -> bool) (s : string) :
  all_chars p (keep_chars p s) = true.
Proof.
  induction s as [|c s IH]; simpl; [reflexivity|].
  destruct (p c) eqn:E; simpl; rewrite ?E; assumption.
Qed.

Lemma keep_chars_all (p : ascii -> bool) (s : string) :
  all_chars p s = true -> keep_chars p s = s.
Proof.
  induction s as [|c s IH]; simpl; [reflexivity|].
  intros [H1 H2]%andb_true_iff. rewrite H1, IH; auto.
Qed.

Lemma all_chars_and (p q : ascii -> bool) (s : string) :
  all_chars p s = true -> all_chars q s = true ->
  all_chars (fun c => (p c && q c)%bool) s = true.
Proof.
  induction s as [|c s IH]; simpl; [reflexivity|].
  intros [-> H1]%andb_true_iff [-> H2]%andb_true_iff. simpl. auto.
Qed.

Lemma all_chars_weaken (p q : ascii -> bool) (s : string) :
  (forall c, p c = true -> q c = true) -> all_chars p s = true -> all_chars q s = true.
Proof.
  intros Hpq. induction s as [|c s IH]; simpl; [reflexivity|].
  intros [H1 H2]%andb_true_iff. rewrite (Hpq _ H1). simpl. auto.
Qed.

(** *** Replacement *)

Lemma replace_from_subsequence (r : Pattern.pattern) (fuel : nat) :
  forall prev s, subsequence (Pattern.replace_from fuel r "" prev s) s.
Proof.
  induction fuel as [|fuel IH]; intros prev s; simpl; [apply subsequence_refl|].
  destruct (Pattern.exec r prev s) as [[q rest]|] eqn:E.
  - destruct (Nat.ltb _ _).
    + eapply subsequence_trans; [apply IH|].
      apply subsequence_suffix. eapply exec_advances. exact E.
    + destruct s; [constructor|]. apply subsequence_keep, IH.
  - destruct s; [constructor|]. apply subsequence_keep, IH.
Qed.

Lemma replace_subsequence (r : Pattern.pattern) (s : string) :
  subsequence (Pattern.replace r "" s) s.
Proof. apply replace_from_subsequence. Qed.

Lemma replace_from_chr (p : ascii -> bool) (fuel : nat) :
  forall prev s, (String.length s < fuel)%nat ->
  Pattern.replace_from fuel (Pattern.Chr p) "" prev s = keep_chars (fun c => negb (p c)) s.
Proof.
  induction fuel as [|fuel IH]; intros prev s Hf; [lia|].
  destruct s as [|c s']; [reflexivity|]. simpl in Hf.
  cbn [Pattern.replace_from Pattern.exec Pattern.run keep_chars].
  destruct (p c); simpl.
  - rewrite (proj2 (Nat.ltb_lt _ _)) by lia. rewrite append_empty_l.
    apply IH. lia.
  - f_equal. apply IH. lia.
Qed.

Lemma replace_chr (p : ascii -> bool) (s : string) :
  Pattern.replace (Pattern.Chr p) "" s = keep_chars (fun c => negb (p c)) s.
Proof. apply replace_from_chr. lia. Qed.

Lemma replace_from_all_chars (P : ascii -> bool) (r : Pattern.pattern) (by_ : string) :
  consuming r -> all_chars P by_ = true ->
  (forall prev c s', Pattern.exec r prev (String c s') = None -> P c = true) ->
  forall fuel prev s, (String.length s < fuel)%nat ->
  all_chars P (Pattern.replace_from fuel r by_ prev s) = true.
Proof.
  intros Hr Hby Hno.
  induction fuel as [|fuel IH]; intros prev s Hf; [lia|]. simpl.
  destruct (Pattern.exec r prev s) as [[q rest]|] eqn:E.
  - pose proof (Hr _ _ _ _ E) as Hlt.
    apply Nat.ltb_lt in Hlt. rewrite Hlt.
    rewrite all_chars_app, Hby. simpl. apply IH.
    apply Nat.ltb_lt in Hlt. lia.
  - destruct s as [|c s']; [reflexivity|]. simpl.
    rewrite (Hno _ _ _ E). simpl. apply IH. simpl in Hf. lia.
Qed.

Lemma replace_from_length (r : Pattern.pattern) (by_ : string) :
  consuming r -> (String.length by_ <= 1)%nat ->
  forall fuel prev s, (String.length s < fuel)%nat ->
  (String.length (Pattern.replace_from fuel r by_ prev s) <= String.length s)%nat.
Proof.
  intros Hr Hby.
  induction fuel as [|fuel IH]; intros prev s Hf; [lia|]. simpl.
  destruct (Pattern.exec r prev s) as [[q rest]|] eqn:E.
  - pose proof (Hr _ _ _ _ E) as Hlt.
    pose proof Hlt as Hlt'. apply Nat.ltb_lt in Hlt'. rewrite Hlt'.
    rewrite length_append. specialize (IH q rest). lia.
  - destruct s as [|c s']; [simpl; lia|]. simpl. simpl in Hf.
    specialize (IH (Some c) s'). lia.
Qed.

End Matcher.

(** ** The patterns of the safety filter *)

Section FilterPatterns.

Lemma run_cat (a b : Pattern.pattern) prev s k :
  Pattern.run (Pattern.Cat a b) prev s k
  = Pattern.run a prev s (fun prev' s' => Pattern.run b prev' s' k).
Proof. reflexivity. Qed.

Lemma run_chr (p : ascii -> bool) prev s k :
  Pattern.run (Pattern.Chr p) prev s k
  = match s with
    | String c s' => if p c then k (Some c) s' else None
    | EmptyString => None
    end.
Proof. reflexivity. Qed.

Lemma run_word_boundary prev s k :
  Pattern.run Pattern.WordBoundary prev s k
  = if xorb (Pattern.word_before prev) (Pattern.word_after s) then k prev s else None.
Proof. reflexivity. Qed.

Lemma run_not_ahead (a : Pattern.pattern) prev s k :
  Pattern.run (Pattern.NotAhead a) prev s k
  = match Pattern.run a prev s (fun prev' s' => Some (prev', s')) with
    | Some _ => None
    | None => k prev s
    end.
Proof. reflexivity. Qed.

Lemma drop_while_all (p : ascii -> bool) (s : string) :
  all_chars p s = true -> drop_while p s = "".
Proof.
  induction s as [|c s IH]; simpl; [reflexivity|].
  intros [-> H]%andb_true_iff. auto.
Qed.

Lemma drop_while_stops (p : ascii -> bool) (s : string) :
  all_chars p s = false ->
  exists c v, drop_while p s = String c v /\ p c = false.
Proof.
  induction s as [|c s IH]; simpl; [discriminate|].
  destruct (p c) eqn:E; simpl; eauto.
Qed.

(** A greedy run of characters of a class, followed by something that
    cannot start with a character of the class, ends where the class ends. *)
Lemma many_chr (p : ascii -> bool) k :
  (forall q c s', p c = true -> k q (String c s') = None) ->
  forall prev s,
    exists q, Pattern.run (Pattern.Many (Pattern.Chr p)) prev s k = k q (drop_while p s).
Proof.
  intros Hk prev s. simpl.
  assert (Hfuel : (String.length s <= String.length s)%nat) by lia.
  revert Hfuel. generalize (String.length s) at 2 3. intros fuel. revert prev s.
  induction fuel as [|fuel IH]; intros prev s Hf.
  - destruct s; [|simpl in Hf; lia]. eauto.
  - destruct s as [|c s']; [eauto|]. simpl drop_while.
    destruct (p c) eqn:E.
    + simpl in Hf. rewrite (proj2 (Nat.ltb_lt _ _)) by (simpl; lia).
      destruct (IH (Some c) s') as [q Hq]; [lia|]. rewrite Hq.
      exists q. destruct (k q (drop_while p s')) eqn:Ek; [reflexivity|].
      apply Hk. exact E.
    + eauto.
Qed.

Lemma ci_lt (c : ascii) : Js.ci "<" c = is_lt c.
Proof. destruct c as [[] [] [] [] [] [] [] []]; reflexivity. Qed.

Lemma exec_tag_none prev c t :
  Pattern.exec SafetyFilter.tag prev (String c t) = None -> tag_here c t = false.
Proof.
  unfold Pattern.exec, SafetyFilter.tag, SafetyFilter.lt, Pattern.exactly, Pattern.Some1,
    SafetyFilter.not_gt, tag_here, is_lt.
  rewrite !run_cat, run_chr.
  destruct (Ascii.eqb "<" c) eqn:Ec.
  - apply Ascii.eqb_eq in Ec. subst c. rewrite Ascii.eqb_refl. simpl andb.
    destruct t as [|d t']; [reflexivity|].
    cbv beta. rewrite !run_cat, run_chr. cbv beta. fold (is_gt d). destruct (is_gt d); [reflexivity|]. simpl negb.
    match goal with
    | |- context [Pattern.run (Pattern.Many (Pattern.Chr ?p)) ?prev' t' ?k] =>
        destruct (many_chr p k) with (prev := prev') (s := t') as [q Hq]
    end.
    { intros q x s' Hx. rewrite run_chr.
      destruct (Ascii.eqb ">" x) eqn:Ex; [|reflexivity].
      apply Ascii.eqb_eq in Ex. subst x. discriminate. }
    rewrite Hq. clear Hq.
    destruct (all_chars (fun c => negb (is_gt c)) t') eqn:Ea; [reflexivity|].
    apply drop_while_stops in Ea as (x & v & Ed & Ex).
    unfold is_gt in Ed. rewrite Ed, run_chr.
    unfold is_gt in Ex. apply negb_false_iff in Ex. rewrite Ascii.eqb_sym, Ex.
    discriminate.
  - rewrite Ascii.eqb_sym, Ec. reflexivity.
Qed.

Lemma tag_consuming : consuming SafetyFilter.tag.
Proof. apply consuming_after_char. Qed.

Lemma tagged_has_tag (s : string) : tagged s -> has_tag s = true.
Proof.
  intros (a & u & v & -> & Hu & Hall).
  induction a as [|x a IH].
  - rewrite append_empty_l. change ("<" ++ u ++ ">" ++ v) with (String "<" (u ++ ">" ++ v)).
    simpl. destruct u as [|d u]; [congruence|].
    rewrite append_cons. simpl in Hall. apply andb_true_iff in Hall as [Hd Hu'].
    unfold tag_here. change (is_lt "<") with true. rewrite Hd, all_chars_app.
    change (">" ++ v) with (String ">" v). simpl. rewrite andb_false_r. reflexivity.
  - rewrite append_cons. simpl. rewrite IH. apply orb_true_r.
Qed.

Lemma replace_from_unmatched (P : ascii -> bool) (r : Pattern.pattern) :
  (forall prev c s', P c = true -> Pattern.exec r prev (String c s') = None) ->
  forall fuel prev s, all_chars P s = true ->
  Pattern.replace_from fuel r "" prev s = s.
Proof.
  intros Hno. induction fuel as [|fuel IH]; intros prev s Hs; [reflexivity|]. simpl.
  destruct s as [|c s'].
  - destruct (Pattern.exec r prev "") as [[q rest]|] eqn:E; [|reflexivity].
    apply exec_advances, suffix_of_length in E.
    destruct rest; [reflexivity | simpl in E; lia].
  - simpl in Hs. apply andb_true_iff in Hs as [Hc Hs].
    rewrite (Hno _ _ _ Hc). rewrite IH by exact Hs. reflexivity.
Qed.

Lemma replace_tag_has_no_tag (fuel : nat) :
  forall prev s, (String.length s < fuel)%nat ->
  has_tag (Pattern.replace_from fuel SafetyFilter.tag "" prev s) = false.
Proof.
  induction fuel as [|fuel IH]; intros prev s Hf; [lia|]. simpl.
  destruct (Pattern.exec SafetyFilter.tag prev s) as [[q rest]|] eqn:E.
  - pose proof (tag_consuming _ _ _ _ E) as Hlt.
    rewrite (proj2 (Nat.ltb_lt _ _) Hlt), append_empty_l. apply IH. lia.
  - destruct s as [|c s']; [reflexivity|]. simpl in Hf.
    simpl. rewrite IH by lia. rewrite orb_false_r.
    apply exec_tag_none in E. unfold tag_here in *.
    destruct (is_lt c); [|reflexivity]. simpl in *.
    destruct s' as [|d t'].
    + destruct fuel; reflexivity.
    + destruct fuel as [|fuel']; [simpl in Hf; lia|].
      destruct (is_gt d) eqn:Ed.
      * simpl in E.
        assert (En : Pattern.exec SafetyFilter.tag (Some c) (String d t') = None).
        { unfold Pattern.exec, SafetyFilter.tag, SafetyFilter.lt, Pattern.exactly.
          rewrite run_cat, run_chr. unfold is_gt in Ed. apply Ascii.eqb_eq in Ed. subst d.
          reflexivity. }
        cbn [Pattern.replace_from]. rewrite En, Ed. reflexivity.
      * simpl in E. apply negb_false_iff in E.
        pose proof (replace_from_subsequence SafetyFilter.tag (S fuel') (Some c) (String d t'))
          as Hsub.
        assert (Hall : all_chars (fun c => negb (is_gt c)) (String d t') = true)
          by (simpl; rewrite Ed, E; reflexivity).
        pose proof (all_chars_subsequence _ _ _ Hsub Hall) as Hout.
        destruct (Pattern.replace_from (S fuel') SafetyFilter.tag "" (Some c) (String d t'))
          as [|x out]; [reflexivity|].
        simpl in Hout. apply andb_true_iff in Hout as [-> ->]. reflexivity.
Qed.

Lemma keep_chars_has_no_tag (p : ascii -> bool) (s : string) :
  p ">"%char = true -> has_tag s = false -> has_tag (keep_chars p s) = false.
Proof.
  intros Hgt. induction s as [|c t IH]; [reflexivity|]. simpl.
  intros [Hh Ht]%orb_false_iff. specialize (IH Ht).
  destruct (p c) eqn:Ep; [|exact IH]. simpl. rewrite IH, orb_false_r.
  unfold tag_here in *. destruct (is_lt c); [|reflexivity]. simpl in *.
  destruct t as [|d t']; [reflexivity|]. simpl.
  destruct (is_gt d) eqn:Ed.
  - unfold is_gt in Ed. apply Ascii.eqb_eq in Ed. subst d. rewrite Hgt. reflexivity.
  - simpl in Hh. apply negb_false_iff in Hh.
    assert (Hall : all_chars (fun c => negb (is_gt c)) (String d t') = true)
      by (simpl; rewrite Ed, Hh; reflexivity).
    pose proof (all_chars_subsequence _ _ _ (keep_chars_subsequence p (String d t')) Hall)
      as Hout.
    simpl in Hout.
    destruct (if p d then String d (keep_chars p t') else keep_chars p t') as [|x out];
      [reflexivity|].
    simpl in Hout. apply andb_true_iff in Hout as [-> ->]. reflexivity.
Qed.

Lemma exec_script_none prev c s' :
  is_lt c = false -> Pattern.exec SafetyFilter.script prev (String c s') = None.
Proof.
  intros Hc. unfold Pattern.exec, SafetyFilter.script.
  cbn [Pattern.literal_ci]. rewrite !run_cat, run_chr, ci_lt, Hc. reflexivity.
Qed.

Lemma exec_tag_none_lt prev c s' :
  is_lt c = false -> Pattern.exec SafetyFilter.tag prev (String c s') = None.
Proof.
  intros Hc. unfold Pattern.exec, SafetyFilter.tag, SafetyFilter.lt, Pattern.exactly.
  rewrite !run_cat, run_chr. unfold is_lt in Hc. rewrite Ascii.eqb_sym, Hc. reflexivity.
Qed.

End FilterPatterns.

(** ** The session token *)

Section SessionToken.

Lemma run_times_some (p : ascii -> bool) (n : nat) :
  forall prev a rest k,
    String.length a = n -> all_chars p a = true ->
    exists q, Pattern.run (Pattern.times n (Pattern.Chr p)) prev (a ++ rest) k = k q rest.
Proof.
  induction n as [|n IH]; intros prev a rest k Hl Ha.
  - destruct a; [|discriminate]. exists prev. reflexivity.
  - destruct a as [|c a]; [discriminate|]. simpl in Hl, Ha.
    apply andb_true_iff in Ha as [Hc Ha].
    cbn [Pattern.times]. rewrite run_cat, run_chr, append_cons, Hc.
    apply IH; [lia | exact Ha].
Qed.

Lemma run_times_all (p : ascii -> bool) (n : nat) prev a k :
  String.length a = n -> all_chars p a = true ->
  exists q, Pattern.run (Pattern.times n (Pattern.Chr p)) prev a k = k q "".
Proof.
  intros Hl Ha. destruct (run_times_some p n prev a "" k Hl Ha) as [q Hq].
  rewrite append_empty_r in Hq. eauto.
Qed.

Lemma run_times_inv (p : ascii -> bool) (n : nat) :
  forall prev s k m,
    Pattern.run (Pattern.times n (Pattern.Chr p)) prev s k = Some m ->
    exists a rest q,
      s = a ++ rest /\ String.length a = n /\ all_chars p a = true /\ k q rest = Some m.
Proof.
  induction n as [|n IH]; intros prev s k m H.
  - exists "", s, prev. auto.
  - cbn [Pattern.times] in H. rewrite run_cat, run_chr in H.
    destruct s as [|c s']; [discriminate|]. destruct (p c) eqn:Ec; [|discriminate].
    apply IH in H as (a & rest & q & -> & Hl & Ha & Hk).
    exists (String c a), rest, q. simpl. rewrite Ec, Ha, Hl. auto.
Qed.

Lemma test_from_anchored (r : Pattern.pattern) (s : string) (c : ascii) :
  Pattern.test_from (Pattern.Cat Pattern.AtStart r) (Some c) s = false.
Proof.
  revert c. induction s as [|d s IH]; intros c; [reflexivity|].
  cbn [Pattern.test_from]. unfold Pattern.exec. rewrite run_cat.
  cbn [Pattern.run]. apply IH.
Qed.

Lemma test_anchored (r : Pattern.pattern) (s : string) :
  Pattern.test (Pattern.Cat Pattern.AtStart r) s
  = match Pattern.run r None s (fun prev' s' => Some (prev', s')) with
    | Some _ => true
    | None => false
    end.
Proof.
  unfold Pattern.test.
  destruct s as [|c s]; cbn [Pattern.test_from]; unfold Pattern.exec; rewrite run_cat;
    change (Pattern.run Pattern.AtStart None ?s ?k) with (k None s); cbv beta.
  - destruct (Pattern.run r None "" _); reflexivity.
  - destruct (Pattern.run r None (String c s) _); [reflexivity|].
    apply test_from_anchored.
Qed.

Lemma uuidRegex_shape (s : string) :
  Pattern.test SafetyFilter.uuidRegex s = true <-> uuid_shape s.
Proof.
  unfold SafetyFilter.uuidRegex. rewrite test_anchored.
  unfold SafetyFilter.hex, SafetyFilter.dash, Pattern.exactly, uuid_shape, is_hex.
  split.
  - destruct (Pattern.run _ None s _) as [m|] eqn:R; [intros _ | discriminate].
    rewrite run_cat in R.
    apply run_times_inv in R as (a & r1 & q1 & -> & La & Ha & R).
    rewrite run_cat, run_chr in R. destruct r1 as [|x1 r1]; [discriminate|].
    destruct (Ascii.eqb "-" x1) eqn:E1; [|discriminate].
    apply Ascii.eqb_eq in E1. subst x1. rewrite run_cat in R.
    apply run_times_inv in R as (b & r2 & q2 & -> & Lb & Hb & R).
    rewrite run_cat, run_chr in R. destruct r2 as [|x2 r2]; [discriminate|].
    destruct (Ascii.eqb "-" x2) eqn:E2; [|discriminate].
    apply Ascii.eqb_eq in E2. subst x2. rewrite run_cat in R.
    apply run_times_inv in R as (c & r3 & q3 & -> & Lc & Hc & R).
    rewrite run_cat, run_chr in R. destruct r3 as [|x3 r3]; [discriminate|].
    destruct (Ascii.eqb "-" x3) eqn:E3; [|discriminate].
    apply Ascii.eqb_eq in E3. subst x3. rewrite run_cat in R.
    apply run_times_inv in R as (d & r4 & q4 & -> & Ld & Hd & R).
    rewrite run_cat, run_chr in R. destruct r4 as [|x4 r4]; [discriminate|].
    destruct (Ascii.eqb "-" x4) eqn:E4; [|discriminate].
    apply Ascii.eqb_eq in E4. subst x4. rewrite run_cat in R.
    apply run_times_inv in R as (e & r5 & q5 & -> & Le & He & R).
    destruct r5; [|discriminate].
    exists a, b, c, d, e. rewrite append_empty_r.
    rewrite !all_chars_app, Ha, Hb, Hc, Hd, He. auto 10.
  - intros (a & b & c & d & e & -> & La & Lb & Lc & Ld & Le & Hall).
    rewrite !all_chars_app in Hall.
    apply andb_true_iff in Hall as [Ha Hall]. apply andb_true_iff in Hall as [Hb Hall].
    apply andb_true_iff in Hall as [Hc Hall]. apply andb_true_iff in Hall as [Hd He].
    rewrite run_cat.
    match goal with
    | |- context [Pattern.run (Pattern.times 8 (Pattern.Chr ?p)) ?prev (a ++ ?rest) ?k] =>
        destruct (run_times_some p 8 prev a rest k La Ha) as [q1 ->]
    end.
    rewrite run_cat, run_chr, append_cons, append_empty_l, Ascii.eqb_refl, run_cat.
    match goal with
    | |- context [Pattern.run (Pattern.times 4 (Pattern.Chr ?p)) ?prev (b ++ ?rest) ?k] =>
        destruct (run_times_some p 4 prev b rest k Lb Hb) as [q2 ->]
    end.
    rewrite run_cat, run_chr, append_cons, append_empty_l, Ascii.eqb_refl, run_cat.
    match goal with
    | |- context [Pattern.run (Pattern.times 4 (Pattern.Chr ?p)) ?prev (c ++ ?rest) ?k] =>
        destruct (run_times_some p 4 prev c rest k Lc Hc) as [q3 ->]
    end.
    rewrite run_cat, run_chr, append_cons, append_empty_l, Ascii.eqb_refl, run_cat.
    match goal with
    | |- context [Pattern.run (Pattern.times 4 (Pattern.Chr ?p)) ?prev (d ++ ?rest) ?k] =>
        destruct (run_times_some p 4 prev d rest k Ld Hd) as [q4 ->]
    end.
    rewrite run_cat, run_chr, append_cons, append_empty_l, Ascii.eqb_refl, run_cat.
    match goal with
    | |- context [Pattern.run (Pattern.times 12 (Pattern.Chr ?p)) ?prev e ?k] =>
        destruct (run_times_all p 12 prev e k Le He) as [q5 ->]
    end.
    reflexivity.
Qed.

End SessionToken.

(** [validateSession] lets a request through exactly when [sessionId] is
    truthy and its text has the shape of a UUID, whatever the type of the
    value; every other request is answered 400 BAD_REQUEST.  The request it
    lets through is unchanged. *)
Theorem session_token_must_be_a_uuid (b : SafetyFilter.body) :
  (SafetyFilter.validateSession b = SafetyFilter.Next b
   <-> SafetyFilter.falsy (SafetyFilter.sessionId b) = false
       /\ uuid_shape (SafetyFilter.toString (SafetyFilter.sessionId b)))
  /\ (SafetyFilter.validateSession b = SafetyFilter.Next b
      \/ SafetyFilter.validateSession b = SafetyFilter.Rejected 400 "BAD_REQUEST").
Proof.
  unfold SafetyFilter.validateSession.
  destruct (SafetyFilter.falsy (SafetyFilter.sessionId b)); simpl.
  - split; [|auto]. split; [discriminate | intros [? _]; discriminate].
  - destruct (Pattern.test SafetyFilter.uuidRegex _) eqn:E; simpl.
    + apply uuidRegex_shape in E. split; [|auto]. split; auto.
    + split; [|auto]. split; [discriminate|].
      intros [_ H]. apply uuidRegex_shape in H. congruence.
Qed.

(** ** The text of a message *)

Section MessageText.

(** A greedy run of characters of a class, followed by nothing, ends where
    the class ends. *)
Lemma many_chr_here (p : ascii -> bool) :
  forall prev s,
    exists q,
      Pattern.run (Pattern.Many (Pattern.Chr p)) prev s (fun prev' s' => Some (prev', s'))
      = Some (q, drop_while p s).
Proof.
  intros prev s. simpl.
  assert (Hfuel : (String.length s <= String.length s)%nat) by lia.
  revert Hfuel. generalize (String.length s) at 2 3. intros fuel. revert prev s.
  induction fuel as [|fuel IH]; intros prev s Hf.
  - destruct s; [|simpl in Hf; lia]. eauto.
  - destruct s as [|c s']; [eauto|]. simpl drop_while.
    destruct (p c) eqn:E; [|eauto].
    simpl in Hf. rewrite (proj2 (Nat.ltb_lt _ _)) by (simpl; lia).
    destruct (IH (Some c) s') as [q Hq]; [lia|]. rewrite Hq. eauto.
Qed.

Lemma exec_whitespace prev c s' :
  exists q,
    Pattern.exec SafetyFilter.whitespace prev (String c s')
    = if Js.is_space c then Some (q, drop_while Js.is_space s') else None.
Proof.
  unfold Pattern.exec, SafetyFilter.whitespace, Pattern.Some1.
  rewrite run_cat, run_chr.
  destruct (Js.is_space c); [|exists None; reflexivity].
  apply many_chr_here.
Qed.

Lemma whitespace_consuming : consuming SafetyFilter.whitespace.
Proof. apply consuming_after_char. Qed.

Lemma keep_chars_drop_while (p : ascii -> bool) (s : string) :
  keep_chars (fun c => negb (p c)) (drop_while p s) = keep_chars (fun c => negb (p c)) s.
Proof.
  induction s as [|c s IH]; [reflexivity|]. simpl.
  destruct (p c) eqn:E; simpl; [exact IH | rewrite E; reflexivity].
Qed.

Lemma keep_chars_app (p : ascii -> bool) (a b : string) :
  keep_chars p (a ++ b) = keep_chars p a ++ keep_chars p b.
Proof.
  induction a as [|c a IH]; [reflexivity|]. rewrite append_cons. simpl.
  destruct (p c); rewrite ?append_cons, IH; reflexivity.
Qed.

(** Collapsing white space leaves the other characters as they are. *)
Lemma replace_whitespace_keeps (fuel : nat) :
  forall prev s, (String.length s < fuel)%nat ->
  keep_chars (fun c => negb (Js.is_space c))
    (Pattern.replace_from fuel SafetyFilter.whitespace " " prev s)
  = keep_chars (fun c => negb (Js.is_space c)) s.
Proof.
  induction fuel as [|fuel IH]; intros prev s Hf; [lia|].
  destruct s as [|c s'].
  - cbn [Pattern.replace_from].
    destruct (Pattern.exec SafetyFilter.whitespace prev "") as [[q rest]|] eqn:E;
      [discriminate | reflexivity].
  - simpl in Hf. cbn [Pattern.replace_from].
    destruct (exec_whitespace prev c s') as [q ->].
    destruct (Js.is_space c) eqn:Ec.
    + pose proof (suffix_of_length (drop_while Js.is_space s') s') as Hl.
      assert (Hs : suffix_of (drop_while Js.is_space s') s').
      { clear. induction s' as [|d s IH]; [apply suffix_of_refl|]. simpl.
        destruct (Js.is_space d); [apply suffix_of_cons, IH | apply suffix_of_refl]. }
      specialize (Hl Hs).
      rewrite (proj2 (Nat.ltb_lt _ _)) by (simpl; lia).
      rewrite keep_chars_app. change (keep_chars _ " ") with "".
      rewrite append_empty_l, IH by lia.
      simpl. rewrite Ec. simpl. apply keep_chars_drop_while.
    + simpl. rewrite Ec. simpl. f_equal. apply IH. lia.
Qed.

Lemma replace_whitespace_chars (s : string) :
  all_chars (fun c => (Ascii.eqb c " " || negb (Js.is_space c))%bool)
    (Pattern.replace SafetyFilter.whitespace " " s) = true.
Proof.
  apply replace_from_all_chars; [apply whitespace_consuming | reflexivity | | lia].
  intros prev c s' H. destruct (exec_whitespace prev c s') as [q Hq].
  rewrite Hq in H. destruct (Js.is_space c); [discriminate|]. apply orb_true_r.
Qed.

Lemma replace_whitespace_length (s : string) :
  (String.length (Pattern.replace SafetyFilter.whitespace " " s) <= String.length s)%nat.
Proof.
  apply replace_from_length; [apply whitespace_consuming | simpl; lia | lia].
Qed.

Lemma keep_chars_trimStart (s : string) :
  keep_chars (fun c => negb (Js.is_space c)) (Js.trimStart s)
  = keep_chars (fun c => negb (Js.is_space c)) s.
Proof.
  induction s as [|c s IH]; [reflexivity|]. simpl.
  destruct (Js.is_space c) eqn:E; simpl; [exact IH | rewrite E; reflexivity].
Qed.

Lemma keep_chars_trimEnd (s : string) :
  keep_chars (fun c => negb (Js.is_space c)) (Js.trimEnd s)
  = keep_chars (fun c => negb (Js.is_space c)) s.
Proof.
  induction s as [|c s IH]; [reflexivity|]. cbn [Js.trimEnd].
  destruct (Js.trimEnd s) as [|d t] eqn:Et.
  - cbn [keep_chars] in IH. cbn [keep_chars]. rewrite <- IH.
    destruct (Js.is_space c) eqn:E; simpl; rewrite ?E; reflexivity.
  - cbn [keep_chars]. cbn [keep_chars] in IH. rewrite <- IH. reflexivity.
Qed.

Lemma keep_chars_trim (s : string) :
  keep_chars (fun c => negb (Js.is_space c)) (Js.trim s)
  = keep_chars (fun c => negb (Js.is_space c)) s.
Proof. unfold Js.trim. rewrite keep_chars_trimEnd. apply keep_chars_trimStart. Qed.

Lemma keep_chars_twice (p q : ascii -> bool) (s : string) :
  keep_chars p (keep_chars q s) = keep_chars (fun c => (p c && q c)%bool) s.
Proof.
  induction s as [|c s IH]; [reflexivity|]. simpl.
  destruct (q c) eqn:Eq; simpl.
  - destruct (p c); simpl; rewrite IH; reflexivity.
  - rewrite andb_false_r. exact IH.
Qed.

Lemma keep_chars_ext (p q : ascii -> bool) (s : string) :
  (forall c, p c = q c) -> keep_chars p s = keep_chars q s.
Proof.
  intros H. induction s as [|c s IH]; [reflexivity|]. simpl. rewrite H, IH. reflexivity.
Qed.

Lemma keep_chars_comm (p q : ascii -> bool) (s : string) :
  keep_chars p (keep_chars q s) = keep_chars q (keep_chars p s).
Proof.
  rewrite !keep_chars_twice. apply keep_chars_ext. intros c. apply andb_comm.
Qed.

(** What [validateMessage] stores in [req.body.message]. *)
Lemma normalised_text (trimmed : string) :
  let m := Pattern.replace SafetyFilter.nul ""
             (Pattern.replace SafetyFilter.whitespace " " trimmed) in
  (String.length m <= String.length trimmed)%nat
  /\ all_chars (fun c => (Ascii.eqb c " " || negb (Js.is_space c))%bool) m = true
  /\ all_chars (fun c => negb (Ascii.eqb "000" c)) m = true
  /\ keep_chars (fun c => negb (Js.is_space c)) m
     = keep_chars (fun c => (negb (Ascii.eqb "000" c) && negb (Js.is_space c))%bool) trimmed.
Proof.
  intros m. subst m. unfold SafetyFilter.nul, Pattern.exactly. rewrite replace_chr.
  repeat split.
  - etransitivity; [apply subsequence_length, keep_chars_subsequence|].
    apply replace_whitespace_length.
  - eapply all_chars_subsequence; [apply keep_chars_subsequence|].
    apply replace_whitespace_chars.
  - apply all_chars_keep_chars.
  - rewrite keep_chars_comm. unfold Pattern.replace.
    rewrite replace_whitespace_keeps by lia. apply keep_chars_twice.
Qed.

End MessageText.

(** [validateMessage] lets a request through exactly when [message] is a
    string whose trimmed length is between 1 and 2000; every other request
    is answered 400 BAD_REQUEST.  The message it hands on is at most as long
    as the trimmed text, holds no NUL and no white space other than the
    space, and has the characters of the original that are neither white
    space nor NUL, in their order; [sessionId] is untouched. *)
Theorem accepted_message_is_normalised (b : SafetyFilter.body) :
  (forall b', SafetyFilter.validateMessage b = SafetyFilter.Next b' ->
     exists raw m,
       SafetyFilter.message b = SafetyFilter.Text raw
       /\ SafetyFilter.sessionId b' = SafetyFilter.sessionId b
       /\ SafetyFilter.message b' = SafetyFilter.Text m
       /\ (String.length m <= String.length (Js.trim raw) <= 2000)%nat
       /\ all_chars (fun c => (Ascii.eqb c " " || negb (Js.is_space c))%bool) m = true
       /\ all_chars (fun c => negb (Ascii.eqb "000" c)) m = true
       /\ keep_chars (fun c => negb (Js.is_space c)) m
          = keep_chars (fun c => (negb (Ascii.eqb "000" c) && negb (Js.is_space c))%bool) raw)
  /\ ((exists b', SafetyFilter.validateMessage b = SafetyFilter.Next b')
      <-> exists raw, SafetyFilter.message b = SafetyFilter.Text raw
                      /\ (1 <= String.length (Js.trim raw) <= 2000)%nat)
  /\ ((exists b', SafetyFilter.validateMessage b = SafetyFilter.Next b')
      \/ SafetyFilter.validateMessage b = SafetyFilter.Rejected 400 "BAD_REQUEST").
Proof.
  unfold SafetyFilter.validateMessage, SafetyFilter.bad_request,
    SafetyFilter.minMessageLength, SafetyFilter.maxMessageLength.
  destruct (SafetyFilter.message b) as [| |raw|t x] eqn:Em.
  1,2,4: split; [discriminate|]; split; [|auto];
    split; [intros [? ?]; discriminate | intros (? & ? & _); discriminate].
  destruct (Js.truthy raw) eqn:Et; simpl.
  2: { destruct raw; [|discriminate]. split; [discriminate|]. split; [|auto].
       split; [intros [? ?]; discriminate|].
       intros (? & [= <-] & H). simpl in H. lia. }
  destruct (Nat.ltb (String.length (Js.trim raw)) 1) eqn:E1.
  { apply Nat.ltb_lt in E1. split; [discriminate|]. split; [|auto].
    split; [intros [? ?]; discriminate|]. intros (? & [= <-] & H). lia. }
  destruct (Nat.ltb 2000 (String.length (Js.trim raw))) eqn:E2.
  { apply Nat.ltb_lt in E2. split; [discriminate|]. split; [|auto].
    split; [intros [? ?]; discriminate|]. intros (? & [= <-] & H). lia. }
  apply Nat.ltb_ge in E1, E2.
  split; [|split; [|eauto]].
  - intros b' [= <-]. simpl.
    destruct (normalised_text (Js.trim raw)) as (H1 & H2 & H3 & H4).
    exists raw, (Pattern.replace SafetyFilter.nul ""
                   (Pattern.replace SafetyFilter.whitespace " " (Js.trim raw))).
    repeat split; auto; try lia.
    rewrite H4, <- !keep_chars_twice, keep_chars_trim. reflexivity.
  - split; [intros _; exists raw; split; [reflexivity | lia] | eauto].
Qed.

(** ** Sanitizing *)

Section Sanitizing.

(** What [sanitizeContent] stores in [req.body.message]. *)
Lemma sanitized_text (message : string) :
  let sanitized :=
    Pattern.replace SafetyFilter.control ""
      (Pattern.replace SafetyFilter.tag "" (Pattern.replace SafetyFilter.script "" message)) in
  subsequence sanitized message
  /\ all_chars (fun c => negb (SafetyFilter.is_control c)) sanitized = true
  /\ has_tag sanitized = false
  /\ (all_chars (fun c => negb (is_lt c)) message = true ->
      sanitized = keep_chars (fun c => negb (SafetyFilter.is_control c)) message).
Proof.
  intros sanitized. subst sanitized. unfold SafetyFilter.control. rewrite replace_chr.
  repeat split.
  - eapply subsequence_trans; [apply keep_chars_subsequence|].
    eapply subsequence_trans; apply replace_subsequence.
  - apply all_chars_keep_chars.
  - apply keep_chars_has_no_tag; [reflexivity|].
    apply replace_tag_has_no_tag. lia.
  - intros Hm. unfold Pattern.replace.
    rewrite (replace_from_unmatched (fun c => negb (is_lt c)) SafetyFilter.script)
      by (auto; intros prev c s' Hc; apply exec_script_none, negb_true_iff, Hc).
    rewrite (replace_from_unmatched (fun c => negb (is_lt c)) SafetyFilter.tag)
      by (auto; intros prev c s' Hc; apply exec_tag_none_lt, negb_true_iff, Hc).
    reflexivity.
Qed.

End Sanitizing.

(** [sanitizeContent] only deletes characters from a message that is a
    string, and hands the request on.  What it leaves holds no control
    character and no tag (a [<], one or more characters other than [>], and
    a [>]); a message without [<] loses its control characters and nothing
    else. *)
Theorem sanitized_message_has_no_markup (sessionId : SafetyFilter.field) (message : string) :
  exists sanitized,
    SafetyFilter.sanitizeContent
      {| SafetyFilter.sessionId := sessionId; SafetyFilter.message := SafetyFilter.Text message |}
    = SafetyFilter.Next
        {| SafetyFilter.sessionId := sessionId;
           SafetyFilter.message := SafetyFilter.Text sanitized |}
    /\ subsequence sanitized message
    /\ all_chars (fun c => negb (SafetyFilter.is_control c)) sanitized = true
    /\ ~ tagged sanitized
    /\ (all_chars (fun c => negb (is_lt c)) message = true ->
        sanitized = keep_chars (fun c => negb (SafetyFilter.is_control c)) message).
Proof.
  destruct (sanitized_text message) as (H1 & H2 & H3 & H4).
  eexists. split; [reflexivity|]. repeat split; auto.
  intros H%tagged_has_tag. congruence.
Qed.

(** ** Script elements *)

Section ScriptElements.

Lemma replace_from_fuel (r : Pattern.pattern) (by_ : string) :
  forall f1 f2 prev s,
    (String.length s < f1)%nat -> (String.length s < f2)%nat ->
    Pattern.replace_from f1 r by_ prev s = Pattern.replace_from f2 r by_ prev s.
Proof.
  induction f1 as [|f1 IH]; intros f2 prev s H1 H2; [lia|].
  destruct f2 as [|f2]; [lia|]. cbn [Pattern.replace_from].
  destruct (Pattern.exec r prev s) as [[q rest]|] eqn:E.
  - destruct (Nat.ltb (String.length rest) (String.length s)) eqn:El.
    + apply Nat.ltb_lt in El. f_equal. apply IH; lia.
    + destruct s as [|c s']; [reflexivity|]. simpl in H1, H2.
      do 2 f_equal. apply IH; lia.
  - destruct s as [|c s']; [reflexivity|]. simpl in H1, H2.
    f_equal. apply IH; lia.
Qed.

Lemma replace_from_prev (r : Pattern.pattern) (by_ : string) :
  (forall p1 p2 s, Pattern.exec r p1 s = Pattern.exec r p2 s) ->
  forall fuel p1 p2 s,
    Pattern.replace_from fuel r by_ p1 s = Pattern.replace_from fuel r by_ p2 s.
Proof.
  intros H fuel p1 p2 s. destruct fuel; [reflexivity|].
  cbn [Pattern.replace_from]. rewrite (H p1 p2). reflexivity.
Qed.

(** A prefix in which the pattern cannot start is copied. *)
Lemma replace_prefix (P : ascii -> bool) (r : Pattern.pattern) :
  (forall prev c s', P c = true -> Pattern.exec r prev (String c s') = None) ->
  (forall p1 p2 s, Pattern.exec r p1 s = Pattern.exec r p2 s) ->
  forall pre rest, all_chars P pre = true ->
  Pattern.replace r "" (pre ++ rest) = pre ++ Pattern.replace r "" rest.
Proof.
  intros Hno Hprev pre rest. unfold Pattern.replace.
  generalize (@None ascii) at 1. induction pre as [|c pre IH]; intros prev Hpre.
  - rewrite !append_empty_l. apply replace_from_prev. exact Hprev.
  - simpl in Hpre. apply andb_true_iff in Hpre as [Hc Hpre].
    rewrite !append_cons. cbn [Pattern.replace_from String.length].
    rewrite (Hno _ _ _ Hc). f_equal. apply IH. exact Hpre.
Qed.

Lemma exec_script_prev p1 p2 s :
  Pattern.exec SafetyFilter.script p1 s = Pattern.exec SafetyFilter.script p2 s.
Proof.
  unfold Pattern.exec, SafetyFilter.script. cbn [Pattern.literal_ci].
  rewrite !run_cat, !run_chr. reflexivity.
Qed.

Lemma exec_tag_prev p1 p2 s :
  Pattern.exec SafetyFilter.tag p1 s = Pattern.exec SafetyFilter.tag p2 s.
Proof.
  unfold Pattern.exec, SafetyFilter.tag, SafetyFilter.lt, Pattern.exactly.
  rewrite !run_cat, !run_chr. reflexivity.
Qed.

Lemma run_literal_ci (lit : string) :
  forall x prev rest k,
    Js.toLowerCase x = Js.toLowerCase lit ->
    Pattern.run (Pattern.literal_ci lit) prev (x ++ rest) k = k (last_char prev x) rest.
Proof.
  induction lit as [|a lit IH]; intros x prev rest k H.
  - destruct x; [reflexivity | discriminate].
  - destruct x as [|c x]; [discriminate|]. simpl in H. injection H as Hc Hx.
    cbn [Pattern.literal_ci]. rewrite run_cat, run_chr, append_cons.
    unfold Js.ci. rewrite Hc, Ascii.eqb_refl. simpl last_char. apply IH. exact Hx.
Qed.

Lemma lower_t_is_word (c : ascii) : Js.lower_char c = "t"%char -> Js.is_word c = true.
Proof.
  destruct c as [[] [] [] [] [] [] [] []]; intros H;
    first [reflexivity | discriminate H].
Qed.

Lemma script_tag_ends_in_word prev (open : string) :
  Js.toLowerCase open = "<script" -> Pattern.word_before (last_char prev open) = true.
Proof.
  intros H.
  do 7 (destruct open as [|? open]; [discriminate|]).
  destruct open; [|discriminate].
  simpl in H. injection H as _ _ _ _ _ _ H. simpl. apply lower_t_is_word. exact H.
Qed.

(** An iteration whose body cannot match matches nothing. *)
Lemma many_zero (a : Pattern.pattern) prev s k :
  (forall k', Pattern.run a prev s k' = None) ->
  Pattern.run (Pattern.Many a) prev s k = k prev s.
Proof.
  intros H. simpl. destruct (String.length s); [reflexivity|]. rewrite H. reflexivity.
Qed.

Lemma ci_lt_lower (c : ascii) : Js.lower_char c = "<"%char -> c = "<"%char.
Proof.
  destruct c as [[] [] [] [] [] [] [] []]; intros H;
    first [reflexivity | discriminate H].
Qed.

Lemma exec_script_element prev (open inner close post : string) :
  Js.toLowerCase open = "<script" ->
  Pattern.word_after inner = false ->
  all_chars (fun c => negb (is_lt c)) inner = true ->
  Js.toLowerCase close = "</script>" ->
  exists q,
    Pattern.exec SafetyFilter.script prev (open ++ inner ++ close ++ post) = Some (q, post).
Proof.
  intros Ho Hw Hi Hc.
  destruct close as [|c0 close']; [discriminate|].
  assert (c0 = "<"%char) as ->.
  { simpl in Hc. injection Hc as Hc _. apply ci_lt_lower. exact Hc. }
  unfold Pattern.exec, SafetyFilter.script. rewrite run_cat.
  rewrite (run_literal_ci "<script" open) by exact Ho.
  rewrite run_cat, run_word_boundary.
  rewrite (script_tag_ends_in_word prev open Ho).
  assert (Hafter : Pattern.word_after (inner ++ String "<" close' ++ post) = false).
  { destruct inner; [reflexivity | exact Hw]. }
  rewrite Hafter. cbn [xorb]. rewrite run_cat.
  match goal with
  | |- context [Pattern.run (Pattern.Many SafetyFilter.not_lt) ?pv ?str ?k] =>
      assert (Hk : forall q c s', negb (Ascii.eqb c "<") = true -> k q (String c s') = None);
        [| destruct (many_chr (fun c => negb (Ascii.eqb c "<")) k Hk pv str) as [q Hq]]
  end.
  { intros q x s' Hx. rewrite run_cat.
    rewrite many_zero.
    - cbn [Pattern.literal_ci]. rewrite run_cat, run_chr, ci_lt.
      unfold is_lt. apply negb_true_iff in Hx. rewrite Hx. reflexivity.
    - intros k'. rewrite run_cat, run_not_ahead.
      destruct (Pattern.run _ q (String x s') _); [reflexivity|].
      unfold SafetyFilter.lt, Pattern.exactly. rewrite run_cat, run_chr.
      apply negb_true_iff in Hx. rewrite Ascii.eqb_sym, Hx. reflexivity. }
  change (Pattern.Chr (fun c => negb (Ascii.eqb c "<"))) with SafetyFilter.not_lt in Hq.
  rewrite Hq. clear Hq.
  assert (Hd : drop_while (fun c => negb (Ascii.eqb c "<")) (inner ++ String "<" close' ++ post)
               = String "<" close' ++ post).
  { clear -Hi. induction inner as [|c inner IH]; [reflexivity|].
    rewrite append_cons. simpl in Hi. apply andb_true_iff in Hi as [Hc Hi].
    simpl. unfold is_lt in Hc. rewrite Hc. apply IH. exact Hi. }
  rewrite Hd, run_cat, many_zero.
  - rewrite (run_literal_ci "</script>" (String "<" close')) by exact Hc. eauto.
  - intros k'. rewrite run_cat, run_not_ahead.
    rewrite (run_literal_ci "</script>" (String "<" close')) by exact Hc. reflexivity.
Qed.

End ScriptElements.

Section Chains.

Lemma replace_match (r : Pattern.pattern) (s post : string) q :
  (forall p1 p2 s, Pattern.exec r p1 s = Pattern.exec r p2 s) ->
  Pattern.exec r None s = Some (q, post) ->
  (String.length post < String.length s)%nat ->
  Pattern.replace r "" s = Pattern.replace r "" post.
Proof.
  intros Hprev E Hl. unfold Pattern.replace at 1. cbn [Pattern.replace_from].
  rewrite E, (proj2 (Nat.ltb_lt _ _) Hl), append_empty_l.
  unfold Pattern.replace.
  rewrite (replace_from_prev r "" Hprev _ q None).
  apply replace_from_fuel; lia.
Qed.

Lemma copies_repeat (n : nat) (c : ascii) (b : string) :
  SafetyFilter.copies n c (repeat_char n c ++ b) = true.
Proof.
  induction n as [|n IH]; [reflexivity|].
  simpl repeat_char. rewrite append_cons. simpl. rewrite Ascii.eqb_refl. exact IH.
Qed.

Lemma plain_char_dot (c : ascii) : plain_char c = true -> SafetyFilter.dot c = true.
Proof.
  destruct c as [[] [] [] [] [] [] [] []]; intros H;
    first [reflexivity | discriminate H].
Qed.

Lemma run_is_spam (s : string) :
  has_run 11 s -> all_chars plain_char s = true -> SafetyFilter.repeatedCharsPattern s = true.
Proof.
  intros (a & c & b & ->). induction a as [|x a IH]; intros H.
  - rewrite append_empty_l in *.
    change (repeat_char 11 c) with (String c (repeat_char 10 c)) in *.
    rewrite append_cons in *.
    simpl in H. apply andb_true_iff in H as [Hc _].
    cbn [SafetyFilter.repeatedCharsPattern].
    rewrite (plain_char_dot _ Hc).
    rewrite (copies_repeat 10 c b). reflexivity.
  - rewrite append_cons in *. simpl in H. apply andb_true_iff in H as [_ H].
    cbn [SafetyFilter.repeatedCharsPattern]. rewrite (IH H). apply orb_true_r.
Qed.

Lemma plain_char_of (c : ascii) :
  (Ascii.eqb c " " || negb (Js.is_space c))%bool = true ->
  negb (SafetyFilter.is_control c) = true ->
  plain_char c = true.
Proof.
  unfold plain_char. intros H1 H2. rewrite H2, andb_true_r. exact H1.
Qed.

Lemma all_chars_plain (s : string) :
  all_chars (fun c => (Ascii.eqb c " " || negb (Js.is_space c))%bool) s = true ->
  all_chars (fun c => negb (SafetyFilter.is_control c)) s = true ->
  all_chars plain_char s = true.
Proof.
  induction s as [|c s IH]; [reflexivity|]. simpl.
  intros [H1 H2]%andb_true_iff [H3 H4]%andb_true_iff.
  rewrite (plain_char_of c H1 H3). simpl. auto.
Qed.

End Chains.

(** [sanitizeContent] removes a script element together with what it
    encloses: where the text before it holds no [<], the element opens with
    [<script] in any case followed by nothing or by a character that is not
    part of a word, encloses no [<], and closes with [</script>] in any
    case, what is left is the text before it without its control characters,
    followed by what [sanitizeContent] leaves of the text after it. *)
Theorem script_element_is_removed_whole
    (sessionId : SafetyFilter.field) (pre open inner close post : string) :
  all_chars (fun c => negb (is_lt c)) pre = true ->
  Js.toLowerCase open = "<script" ->
  Pattern.word_after inner = false ->
  all_chars (fun c => negb (is_lt c)) inner = true ->
  Js.toLowerCase close = "</script>" ->
  exists rest,
    SafetyFilter.sanitizeContent
      {| SafetyFilter.sessionId := sessionId; SafetyFilter.message := SafetyFilter.Text post |}
    = SafetyFilter.Next
        {| SafetyFilter.sessionId := sessionId; SafetyFilter.message := SafetyFilter.Text rest |}
    /\ SafetyFilter.sanitizeContent
         {| SafetyFilter.sessionId := sessionId;
            SafetyFilter.message := SafetyFilter.Text (pre ++ open ++ inner ++ close ++ post) |}
       = SafetyFilter.Next
           {| SafetyFilter.sessionId := sessionId;
              SafetyFilter.message :=
                SafetyFilter.Text
                  (keep_chars (fun c => negb (SafetyFilter.is_control c)) pre ++ rest) |}.
Proof.
  intros Hpre Ho Hw Hi Hc.
  eexists. split; [reflexivity|].
  unfold SafetyFilter.sanitizeContent. cbn [SafetyFilter.message SafetyFilter.sessionId].
  do 3 f_equal.
  rewrite (replace_prefix (fun c => negb (is_lt c)) SafetyFilter.script)
    by (auto using exec_script_prev; intros prev c s' H;
        apply exec_script_none, negb_true_iff, H).
  destruct (exec_script_element None open inner close post Ho Hw Hi Hc) as [q E].
  rewrite (replace_match SafetyFilter.script _ post q exec_script_prev E).
  2: { rewrite !length_append.
       destruct open; [discriminate|]. simpl. lia. }
  rewrite (replace_prefix (fun c => negb (is_lt c)) SafetyFilter.tag)
    by (auto using exec_tag_prev; intros prev c s' H;
        apply exec_tag_none_lt, negb_true_iff, H).
  unfold SafetyFilter.control. rewrite !replace_chr. apply keep_chars_app.
Qed.

Lemma script_element_is_removed_whole_witness :
  SafetyFilter.sanitizeContent
    {| SafetyFilter.sessionId := SafetyFilter.Text Scenario.sid;
       SafetyFilter.message :=
         SafetyFilter.Text "I have <SCRIPT type='x'>steal(cookie)</Script>chest <i>pain</i>" |}
  = SafetyFilter.Next
      {| SafetyFilter.sessionId := SafetyFilter.Text Scenario.sid;
         SafetyFilter.message := SafetyFilter.Text "I have chest pain" |}.
Proof.
  destruct (script_element_is_removed_whole (SafetyFilter.Text Scenario.sid)
              "I have " "<SCRIPT" " type='x'>steal(cookie)" "</Script>" "chest <i>pain</i>"
              eq_refl eq_refl eq_refl eq_refl eq_refl) as (rest & Hrest & H).
  vm_compute in Hrest. injection Hrest as <-. exact H.
Defined.

(** A request that passes [validateSession], [validateMessage],
    [sanitizeContent] and [detectSpam], the chain of the patient's message
    routes, keeps its [sessionId], whose text has the shape of a UUID, and
    carries a message of at most 2000 characters, each a space or a
    character that is neither white space nor a control character, with no
    tag and no character eleven times in a row; when [sessionId] is a string
    the controller receives that token and that message, with the results of
    [detectEmergency] and [detectProhibitedTopic] on that message attached
    unless the message is empty, in which case none is attached.  The chain
    never throws: a request it does not hand on is answered 400
    BAD_REQUEST. *)
Theorem patient_message_arrives_clean (b : SafetyFilter.body) :
  (forall b', ChatRoutes.patientMessage b = SafetyFilter.Next b' ->
     exists m,
       SafetyFilter.sessionId b' = SafetyFilter.sessionId b
       /\ SafetyFilter.message b' = SafetyFilter.Text m
       /\ uuid_shape (SafetyFilter.toString (SafetyFilter.sessionId b))
       /\ (String.length m <= 2000)%nat
       /\ all_chars plain_char m = true
       /\ ~ tagged m
       /\ ~ has_run 11 m
       /\ forall sid, SafetyFilter.sessionId b = SafetyFilter.Text sid ->
            exists req,
              ChatRoutes.handled b' = Some req
              /\ ChatController.sessionId req = sid
              /\ ChatController.message req = m
              /\ (m <> "" ->
                  ChatController.emergencyDetection req
                  = Some (EmergencyDetector.detectEmergency m)
                  /\ ChatController.prohibitedDetection req
                     = Some (EmergencyDetector.detectProhibitedTopic m))
              /\ (m = "" ->
                  ChatController.emergencyDetection req = None
                  /\ ChatController.prohibitedDetection req = None))
  /\ ((exists b', ChatRoutes.patientMessage b = SafetyFilter.Next b')
      \/ ChatRoutes.patientMessage b = SafetyFilter.Rejected 400 "BAD_REQUEST").
Proof.
  unfold ChatRoutes.patientMessage.
  destruct (session_token_must_be_a_uuid b) as [Hs1 [Hs|Hs]];
    rewrite Hs; cbn [ChatRoutes.andThen]; [|split; [discriminate | auto]].
  apply Hs1 in Hs as [_ Hshape].
  destruct (accepted_message_is_normalised b) as (Hm1 & _ & [[b1 Hb1]|Hb1]);
    rewrite Hb1; cbn [ChatRoutes.andThen]; [|split; [discriminate | auto]].
  destruct (Hm1 _ Hb1) as (raw & m1 & Hraw & Hsid1 & Hmsg1 & Hlen1 & Hws1 & _ & _).
  destruct b1 as [sid1 msg1]. simpl in Hsid1, Hmsg1. subst sid1 msg1.
  destruct (sanitized_message_has_no_markup (SafetyFilter.sessionId b) m1)
    as (m2 & -> & Hsub & Hctl & Htag & _).
  cbn [ChatRoutes.andThen]. unfold SafetyFilter.detectSpam.
  cbn [SafetyFilter.message].
  assert (Hplain : all_chars plain_char m2 = true).
  { apply all_chars_plain; [|exact Hctl].
    eapply all_chars_subsequence; [exact Hsub | exact Hws1]. }
  destruct (SafetyFilter.repeatedCharsPattern m2) eqn:Espam; [split; [discriminate | auto]|].
  split; [|eauto].
  intros b' [= <-]. exists m2. cbn [SafetyFilter.message SafetyFilter.sessionId].
  repeat split; auto.
  - apply subsequence_length in Hsub. lia.
  - intros Hrun. rewrite (run_is_spam m2 Hrun Hplain) in Espam. discriminate.
  - intros sid Hsid. unfold ChatRoutes.handled. cbn [SafetyFilter.message SafetyFilter.sessionId].
    rewrite Hsid. eexists. split; [reflexivity|].
    unfold ChatController.emergencyDetectorMiddleware.
    cbn [ChatController.message ChatController.sessionId].
    destruct m2 as [|ch rest]; cbn.
    + repeat split; congruence.
    + repeat split; congruence.
Qed.

Lemma patient_message_arrives_clean_witness :
  let b := {| SafetyFilter.sessionId := SafetyFilter.Text Scenario.sid;
              SafetyFilter.message := SafetyFilter.Text "  I have   <b>chest</b> pain  " |} in
  let b' := {| SafetyFilter.sessionId := SafetyFilter.Text Scenario.sid;
               SafetyFilter.message := SafetyFilter.Text "I have chest pain" |} in
  ChatRoutes.patientMessage b = SafetyFilter.Next b'
  /\ (exists req,
        ChatRoutes.handled b' = Some req
        /\ ChatController.emergencyDetection req
           = Some (EmergencyDetector.detectEmergency "I have chest pain")
        /\ ChatController.prohibitedDetection req
           = Some (EmergencyDetector.detectProhibitedTopic "I have chest pain"))
  /\ ~ has_run 11 "I have chest pain"
  /\ ChatRoutes.patientMessage
       {| SafetyFilter.sessionId := SafetyFilter.Text Scenario.sid;
          SafetyFilter.message := SafetyFilter.Text "<b>" |}
     = SafetyFilter.Next
         {| SafetyFilter.sessionId := SafetyFilter.Text Scenario.sid;
            SafetyFilter.message := SafetyFilter.Text "" |}.
Proof.
  intros b b'.
  assert (E : ChatRoutes.patientMessage b = SafetyFilter.Next b') by (vm_compute; reflexivity).
  destruct (proj1 (patient_message_arrives_clean b) b' E)
    as (m & _ & Hm & _ & _ & _ & _ & Hrun & Hh).
  injection Hm as <-.
  split; [exact E|]. split; [|split; [exact Hrun | vm_compute; reflexivity]].
  destruct (Hh Scenario.sid eq_refl) as (req & Hreq & _ & _ & Hdet & _).
  exists req. split; [exact Hreq|]. apply Hdet. discriminate.
Defined.

Lemma session_token_must_be_a_uuid_witness :
  let ok := {| SafetyFilter.sessionId := SafetyFilter.Text Scenario.sid;
               SafetyFilter.message := SafetyFilter.Missing |} in
  let listed := {| SafetyFilter.sessionId := SafetyFilter.Other true Scenario.sid;
                   SafetyFilter.message := SafetyFilter.Missing |} in
  let short := {| SafetyFilter.sessionId := SafetyFilter.Text "3f2b8c1e";
                  SafetyFilter.message := SafetyFilter.Missing |} in
  (SafetyFilter.validateSession ok = SafetyFilter.Next ok /\ uuid_shape Scenario.sid)
  /\ SafetyFilter.validateSession listed = SafetyFilter.Next listed
  /\ (SafetyFilter.validateSession short = SafetyFilter.Rejected 400 "BAD_REQUEST"
      /\ ~ uuid_shape "3f2b8c1e").
Proof.
  intros ok listed short.
  pose proof (proj1 (proj1 (session_token_must_be_a_uuid ok)) eq_refl) as [_ Hshape].
  split; [split; [reflexivity | exact Hshape]|].
  split.
  - apply (proj2 (proj1 (session_token_must_be_a_uuid listed))).
    split; [reflexivity | exact Hshape].
  - split; [reflexivity|]. intros H.
    pose proof (proj2 (proj1 (session_token_must_be_a_uuid short)) (conj eq_refl H)) as E.
    vm_compute in E. discriminate E.
Defined.

Lemma accepted_message_is_normalised_witness :
  let b := {| SafetyFilter.sessionId := SafetyFilter.Text Scenario.sid;
              SafetyFilter.message := SafetyFilter.Text "  Hello    world  " |} in
  let b' := {| SafetyFilter.sessionId := SafetyFilter.Text Scenario.sid;
               SafetyFilter.message := SafetyFilter.Text "Hello world" |} in
  SafetyFilter.validateMessage b = SafetyFilter.Next b'
  /\ keep_chars (fun c => negb (Js.is_space c)) "Hello world" = "Helloworld"
  /\ SafetyFilter.validateMessage
       {| SafetyFilter.sessionId := SafetyFilter.Text Scenario.sid;
          SafetyFilter.message := SafetyFilter.Text (String "000" "") |}
     = SafetyFilter.Next
         {| SafetyFilter.sessionId := SafetyFilter.Text Scenario.sid;
            SafetyFilter.message := SafetyFilter.Text "" |}.
Proof.
  intros b b'.
  assert (E : SafetyFilter.validateMessage b = SafetyFilter.Next b') by (vm_compute; reflexivity).
  destruct (proj1 (accepted_message_is_normalised b) b' E)
    as (raw & m & Hraw & _ & Hm & _ & _ & _ & Hkeep).
  injection Hraw as <-. injection Hm as <-.
  split; [exact E|]. split; [exact Hkeep|]. vm_compute. reflexivity.
Defined.

Lemma sanitized_message_has_no_markup_witness :
  SafetyFilter.sanitizeContent
    {| SafetyFilter.sessionId := SafetyFilter.Text Scenario.sid;
       SafetyFilter.message := SafetyFilter.Text "Take <b>two</b> pills if 37 < t" |}
  = SafetyFilter.Next
      {| SafetyFilter.sessionId := SafetyFilter.Text Scenario.sid;
         SafetyFilter.message := SafetyFilter.Text "Take two pills if 37 < t" |}
  /\ ~ tagged "Take two pills if 37 < t"
  /\ subsequence "Take two pills if 37 < t" "Take <b>two</b> pills if 37 < t".
Proof.
  destruct (sanitized_message_has_no_markup (SafetyFilter.Text Scenario.sid)
              "Take <b>two</b> pills if 37 < t") as (m & E & Hsub & _ & Htag & _).
  assert (Em : m = "Take two pills if 37 < t").
  { vm_compute in E. injection E as <-. reflexivity. }
  subst m. split; [exact E|]. split; [exact Htag | exact Hsub].
Defined.

(** ** The staff's view *)

Section Ordering.

Context {A : Type} (before : A -> A -> bool).

Lemma insert_by_permutation (x : A) (rows : list A) :
  Permutation (Dashboard.insert_by before x rows) (x :: rows).
Proof.
  induction rows as [|y rows IH]; simpl; [reflexivity|].
  destruct (before x y); [reflexivity|].
  rewrite IH. apply perm_swap.
Qed.

Lemma order_by_permutation (rows : list A) :
  Permutation (Dashboard.order_by before rows) rows.
Proof.
  induction rows as [|x rows IH]; simpl; [reflexivity|].
  rewrite insert_by_permutation. apply perm_skip. exact IH.
Qed.

Hypothesis total : forall a b, before a b = true \/ before b a = true.
Hypothesis transitive : forall a b c, before a b = true -> before b c = true -> before a c = true.

Lemma insert_by_sorted (x : A) (rows : list A) :
  StronglySorted (fun a b => before a b = true) rows ->
  StronglySorted (fun a b => before a b = true) (Dashboard.insert_by before x rows).
Proof.
  induction 1 as [|y rows Hs IH Hy]; simpl.
  - constructor; constructor.
  - destruct (before x y) eqn:E.
    + constructor; [constructor; assumption|].
      constructor; [exact E|].
      eapply List.Forall_impl; [|exact Hy]. intros z Hz. eapply transitive; eauto.
    + constructor; [exact IH|].
      eapply Permutation_Forall; [symmetry; apply insert_by_permutation|].
      constructor; [|exact Hy].
      destruct (total x y) as [H|H]; [congruence | exact H].
Qed.

Lemma order_by_sorted (rows : list A) :
  StronglySorted (fun a b => before a b = true) (Dashboard.order_by before rows).
Proof.
  induction rows as [|x rows IH]; simpl; [constructor|].
  apply insert_by_sorted. exact IH.
Qed.

End Ordering.

Section Dashboards.

Lemma sorted_lookup {A} (R : A -> A -> Prop) (rows : list A) :
  StronglySorted R rows ->
  forall i j a b, (i < j)%nat -> rows !! i = Some a -> rows !! j = Some b -> R a b.
Proof.
  induction 1 as [|x rows Hs IH Hx]; intros i j a b Hij Ha Hb; [discriminate|].
  destruct j as [|j]; [lia|]. simpl in Hb.
  destruct i as [|i].
  - simpl in Ha. injection Ha as <-.
    rewrite List.Forall_forall in Hx. apply Hx.
    apply list_elem_of_In. eapply list_elem_of_lookup_2. exact Hb.
  - simpl in Ha. eapply IH; [|exact Ha | exact Hb]. lia.
Qed.

Lemma ahead_total (a b : Dashboard.pending_handoff) :
  Dashboard.ahead a b = true \/ Dashboard.ahead b a = true.
Proof.
  unfold Dashboard.ahead.
  destruct (Nat.ltb_spec (Dashboard.rank (Handoff.priority (Dashboard.request a)))
              (Dashboard.rank (Handoff.priority (Dashboard.request b)))); [auto|].
  destruct (Nat.ltb_spec (Dashboard.rank (Handoff.priority (Dashboard.request b)))
              (Dashboard.rank (Handoff.priority (Dashboard.request a)))); [auto|].
  rewrite !(proj2 (Nat.eqb_eq _ _)) by lia. simpl.
  destruct (Z.leb_spec (Handoff.created_at (Dashboard.request a))
              (Handoff.created_at (Dashboard.request b))); [auto|].
  right. apply Z.leb_le. lia.
Qed.

Lemma ahead_spec (a b : Dashboard.pending_handoff) :
  Dashboard.ahead a b = true <->
  (Dashboard.rank (Handoff.priority (Dashboard.request a))
   < Dashboard.rank (Handoff.priority (Dashboard.request b)))%nat
  \/ (Handoff.priority (Dashboard.request a) = Handoff.priority (Dashboard.request b)
      /\ Handoff.created_at (Dashboard.request a) <= Handoff.created_at (Dashboard.request b)).
Proof.
  unfold Dashboard.ahead.
  rewrite orb_true_iff, andb_true_iff, Nat.ltb_lt, Nat.eqb_eq, Z.leb_le.
  assert (Hr : forall p q, Dashboard.rank p = Dashboard.rank q <-> p = q).
  { intros p q; split; [|congruence]. destruct p, q; simpl; congruence. }
  rewrite Hr. reflexivity.
Qed.

Lemma ahead_transitive (a b c : Dashboard.pending_handoff) :
  Dashboard.ahead a b = true -> Dashboard.ahead b c = true -> Dashboard.ahead a c = true.
Proof.
  rewrite !ahead_spec. intros [H1|[H1 H1']] [H2|[H2 H2']].
  - left. lia.
  - left. rewrite <- H2. exact H1.
  - left. rewrite H1. exact H2.
  - right. split; [congruence | lia].
Qed.

Lemma joined_request (d : database) (hr : Handoff.t) :
  List.map Dashboard.request (Dashboard.joined d hr)
  = if (handoff_status_eqb (Handoff.status hr) Pending
        && List.existsb (ConversationService.by_id (Handoff.conversation_id hr))
             (ai_conversations d))%bool
    then [hr] else [].
Proof.
  unfold Dashboard.joined.
  destruct (handoff_status_eqb (Handoff.status hr) Pending); [|reflexivity]. simpl.
  destruct (List.find _ (ai_conversations d)) as [c|] eqn:E.
  - apply List.find_some in E as [Hin Hc].
    replace (List.existsb _ _) with true; [reflexivity|].
    symmetry. apply List.existsb_exists. eauto.
  - replace (List.existsb _ _) with false; [reflexivity|].
    symmetry. apply not_true_is_false. intros (c & Hin & Hc)%List.existsb_exists.
    eapply List.find_none in E; [|exact Hin]. congruence.
Qed.

Lemma flat_map_joined (d : database) (hs : list Handoff.t) :
  List.map Dashboard.request (List.flat_map (Dashboard.joined d) hs)
  = List.filter
      (fun hr => (handoff_status_eqb (Handoff.status hr) Pending
                  && List.existsb (ConversationService.by_id (Handoff.conversation_id hr))
                       (ai_conversations d))%bool) hs.
Proof.
  induction hs as [|hr hs IH]; [reflexivity|]. simpl.
  rewrite List.map_app, joined_request, IH.
  destruct (_ && _)%bool; reflexivity.
Qed.

Lemma joined_row (d : database) (hr : Handoff.t) (row : Dashboard.pending_handoff) :
  In row (Dashboard.joined d hr) ->
  exists c,
    List.find (ConversationService.by_id (Handoff.conversation_id (Dashboard.request row)))
      (ai_conversations d) = Some c
    /\ Dashboard.session_id row = Conv.session_id c
    /\ Dashboard.patient_id row = Conv.patient_id c
    /\ Dashboard.conversation_started row = Conv.created_at c
    /\ Dashboard.messages row
       = List.length (List.filter (ConversationService.of_conversation (Conv.id c))
                        (ai_messages d)).
Proof.
  unfold Dashboard.joined.
  destruct (handoff_status_eqb (Handoff.status hr) Pending); [|intros []].
  destruct (List.find _ (ai_conversations d)) as [c|] eqn:E; [|intros []].
  intros [<-|[]]. exists c. simpl. auto.
Qed.

Lemma joined_pending (d : database) (hr : Handoff.t) (row : Dashboard.pending_handoff) :
  In row (Dashboard.joined d hr) ->
  Dashboard.request row = hr /\ Handoff.status hr = Pending.
Proof.
  unfold Dashboard.joined.
  destruct (handoff_status_eqb (Handoff.status hr) Pending) eqn:E; [|intros []].
  destruct (List.find _ (ai_conversations d)); [|intros []].
  intros [<-|[]]. split; [reflexivity|].
  destruct (Handoff.status hr); try discriminate; reflexivity.
Qed.

Lemma pendingHandoffs_sorted (d : database) i j a b :
  (i < j)%nat ->
  Dashboard.pendingHandoffs d !! i = Some a ->
  Dashboard.pendingHandoffs d !! j = Some b ->
  Dashboard.ahead a b = true.
Proof.
  intros Hij Ha Hb.
  exact (sorted_lookup _ _
           (order_by_sorted Dashboard.ahead ahead_total ahead_transitive _)
           i j a b Hij Ha Hb).
Qed.

Lemma emergency_comes_first (d : database) i j a b :
  Dashboard.pendingHandoffs d !! i = Some a ->
  Dashboard.pendingHandoffs d !! j = Some b ->
  Handoff.priority (Dashboard.request a) = Emergency ->
  Handoff.priority (Dashboard.request b) <> Emergency ->
  (i < j)%nat.
Proof.
  intros Ha Hb Hpa Hpb.
  destruct (Nat.lt_trichotomy i j) as [H|[H|H]]; [exact H | |].
  - subst j. rewrite Ha in Hb. injection Hb as <-. contradiction.
  - pose proof (pendingHandoffs_sorted d j i b a H Hb Ha) as Hba. apply ahead_spec in Hba.
    rewrite Hpa in Hba. destruct Hba as [Hba|[Hba _]]; [|contradiction].
    destruct (Handoff.priority (Dashboard.request b)); simpl in Hba; lia.
Qed.

End Dashboards.

(** [getPendingHandoffs] lists the pending requests whose conversation
    exists, each once and with the session token, the patient and the number
    of messages of its conversation, and changes nothing.  Of two rows the
    earlier has the higher priority or, at equal priority, was created no
    later; an emergency request comes before every request of another
    priority. *)
Theorem handoff_queue_is_ordered (w : world) :
  exists rows,
    Dashboard.getPendingHandoffs w = (Dashboard.PendingHandoffs rows (List.length rows), w)
    /\ Permutation (List.map Dashboard.request rows)
         (List.filter
            (fun hr =>
               (handoff_status_eqb (Handoff.status hr) Pending
                && List.existsb (ConversationService.by_id (Handoff.conversation_id hr))
                     (ai_conversations (ChatController.db w)))%bool)
            (ai_handoff_requests (ChatController.db w)))
    /\ (forall row, In row rows ->
          exists c,
            List.find
              (ConversationService.by_id (Handoff.conversation_id (Dashboard.request row)))
              (ai_conversations (ChatController.db w)) = Some c
            /\ Dashboard.session_id row = Conv.session_id c
            /\ Dashboard.patient_id row = Conv.patient_id c
            /\ Dashboard.conversation_started row = Conv.created_at c
            /\ Dashboard.messages row
               = List.length
                   (List.filter (ConversationService.of_conversation (Conv.id c))
                      (ai_messages (ChatController.db w))))
    /\ (forall i j a b,
          (i < j)%nat -> rows !! i = Some a -> rows !! j = Some b ->
          (Dashboard.rank (Handoff.priority (Dashboard.request a))
           < Dashboard.rank (Handoff.priority (Dashboard.request b)))%nat
          \/ (Handoff.priority (Dashboard.request a) = Handoff.priority (Dashboard.request b)
              /\ Handoff.created_at (Dashboard.request a)
                 <= Handoff.created_at (Dashboard.request b)))
    /\ (forall i j a b,
          rows !! i = Some a -> rows !! j = Some b ->
          Handoff.priority (Dashboard.request a) = Emergency ->
          Handoff.priority (Dashboard.request b) <> Emergency ->
          (i < j)%nat).
Proof.
  exists (Dashboard.pendingHandoffs (ChatController.db w)).
  split; [reflexivity|]. split; [|split; [|split]].
  - unfold Dashboard.pendingHandoffs.
    rewrite order_by_permutation, flat_map_joined. reflexivity.
  - intros row Hin. unfold Dashboard.pendingHandoffs in Hin.
    eapply Permutation_in in Hin; [|apply order_by_permutation].
    apply List.in_flat_map in Hin as (hr & _ & Hrow).
    eapply joined_row. exact Hrow.
  - intros i j a b Hij Ha Hb. apply ahead_spec. eapply pendingHandoffs_sorted; eauto.
  - intros i j a b. apply emergency_comes_first.
Qed.

Section ActiveChats.

Lemma fold_max_ge (l : list Z) : forall x, x <= List.fold_left Z.max l x.
Proof.
  induction l as [|y l IH]; intros x; simpl; [lia|].
  specialize (IH (Z.max x y)). lia.
Qed.

Lemma fold_max_bounds (l : list Z) :
  forall x, Forall (fun y => y <= List.fold_left Z.max l x) l.
Proof.
  induction l as [|y l IH]; intros x; simpl; constructor.
  - pose proof (fold_max_ge l (Z.max x y)). lia.
  - apply IH.
Qed.

Lemma fold_max_in (l : list Z) :
  forall x, List.fold_left Z.max l x = x \/ In (List.fold_left Z.max l x) l.
Proof.
  induction l as [|y l IH]; intros x; simpl; [auto|].
  destruct (IH (Z.max x y)) as [H|H]; [|auto].
  rewrite H. destruct (Z.max_spec x y) as [[_ ->]|[_ ->]]; auto.
Qed.

Lemma maximum_spec (l : list Z) :
  match Dashboard.maximum l with
  | None => l = []
  | Some m => In m l /\ Forall (fun y => y <= m) l
  end.
Proof.
  destruct l as [|x l]; simpl; [reflexivity|]. split.
  - destruct (fold_max_in l x) as [->|H]; auto.
  - constructor; [apply fold_max_ge | apply fold_max_bounds].
Qed.

Lemma later_total (a b : Dashboard.active_conversation) :
  Dashboard.later a b = true \/ Dashboard.later b a = true.
Proof.
  unfold Dashboard.later.
  destruct (Dashboard.last_message_at a) as [x|], (Dashboard.last_message_at b) as [y|];
    auto.
  destruct (Z.leb_spec y x); [auto|]. right. apply Z.leb_le. lia.
Qed.

Lemma later_transitive (a b c : Dashboard.active_conversation) :
  Dashboard.later a b = true -> Dashboard.later b c = true -> Dashboard.later a c = true.
Proof.
  unfold Dashboard.later.
  destruct (Dashboard.last_message_at a) as [x|], (Dashboard.last_message_at b) as [y|],
    (Dashboard.last_message_at c) as [z|]; auto; try discriminate.
  rewrite !Z.leb_le. lia.
Qed.

Lemma newer_total (a b : Handoff.t) :
  Dashboard.newer a b = true \/ Dashboard.newer b a = true.
Proof.
  unfold Dashboard.newer.
  destruct (Z.leb_spec (Handoff.created_at b) (Handoff.created_at a)); [auto|].
  right. apply Z.leb_le. lia.
Qed.

Lemma newer_transitive (a b c : Handoff.t) :
  Dashboard.newer a b = true -> Dashboard.newer b c = true -> Dashboard.newer a c = true.
Proof. unfold Dashboard.newer. rewrite !Z.leb_le. lia. Qed.

Lemma latest_pending_spec (conversationId : nat) (d : database) :
  match Dashboard.latest_pending conversationId d with
  | None =>
      List.filter (HandoffController.handoff_in conversationId Pending)
        (ai_handoff_requests d) = []
  | Some h =>
      In h (ai_handoff_requests d)
      /\ HandoffController.handoff_in conversationId Pending h = true
      /\ forall h', In h' (ai_handoff_requests d) ->
           HandoffController.handoff_in conversationId Pending h' = true ->
           Handoff.created_at h' <= Handoff.created_at h
  end.
Proof.
  unfold Dashboard.latest_pending.
  pose proof (order_by_permutation Dashboard.newer
                (List.filter (HandoffController.handoff_in conversationId Pending)
                   (ai_handoff_requests d))) as Hp.
  pose proof (order_by_sorted Dashboard.newer newer_total newer_transitive
                (List.filter (HandoffController.handoff_in conversationId Pending)
                   (ai_handoff_requests d))) as Hs.
  destruct (Dashboard.order_by Dashboard.newer _) as [|h rest]; simpl.
  - apply Permutation_nil. exact Hp.
  - assert (Hh : In h (List.filter (HandoffController.handoff_in conversationId Pending)
                         (ai_handoff_requests d))).
    { eapply Permutation_in; [exact Hp | left; reflexivity]. }
    apply List.filter_In in Hh as [Hin Hh]. repeat split; auto.
    intros h' Hin' Hh'.
    assert (Hq : In h' (h :: rest)).
    { eapply Permutation_in; [symmetry; exact Hp|]. apply List.filter_In. auto. }
    destruct Hq as [<-|Hq]; [lia|].
    inversion Hs as [|? ? _ Hall]; subst.
    rewrite List.Forall_forall in Hall. specialize (Hall _ Hq).
    unfold Dashboard.newer in Hall. apply Z.leb_le in Hall. exact Hall.
Qed.

Lemma closeSession_store (sessionId : string) (w : world) :
  ai_conversations (ChatController.db (snd (ChatController.closeSession sessionId w)))
  = sql_update (ConversationService.by_session sessionId)
      (ConversationService.set_closed (ChatController.clock w))
      (ai_conversations (ChatController.db w)).
Proof. reflexivity. Qed.

Lemma in_active_chats (w : world) (chat : Dashboard.active_chat) chats n :
  fst (Dashboard.getActiveChats w) = Dashboard.ActiveChats chats n ->
  In chat chats ->
  exists c,
    In c (ai_conversations (ChatController.db w))
    /\ Dashboard.active c = true
    /\ Dashboard.conv chat = Dashboard.with_counts (ChatController.db w) c
    /\ Dashboard.handoffRequest chat
       = Dashboard.latest_pending (Conv.id c) (ChatController.db w).
Proof.
  unfold Dashboard.getActiveChats. simpl. intros [= <- _] Hin.
  apply List.in_map_iff in Hin as (row & <- & Hrow).
  unfold Dashboard.getActiveConversations in Hrow.
  eapply Permutation_in in Hrow; [|apply order_by_permutation].
  apply List.in_map_iff in Hrow as (c & <- & Hc).
  apply List.filter_In in Hc as [Hin Hact].
  exists c. simpl. auto.
Qed.

End ActiveChats.

(** [getActiveChats] lists the conversations that are not closed, each once,
    with the number of its messages, the time of its latest message and the
    newest of its pending handoff requests, if it has one; conversations
    without a message come first, then the one with the latest message; the
    call changes nothing.  After [closeSession] for a session token no row
    of the list has that token. *)
Theorem closed_conversations_leave_the_dashboard (w : world) :
  exists chats,
    Dashboard.getActiveChats w = (Dashboard.ActiveChats chats (List.length chats), w)
    /\ Permutation
         (List.map (fun chat => Dashboard.conversation (Dashboard.conv chat)) chats)
         (List.filter (fun c => negb (conv_status_eqb (Conv.status c) Closed))
            (ai_conversations (ChatController.db w)))
    /\ (forall chat, In chat chats ->
          let c := Dashboard.conversation (Dashboard.conv chat) in
          let messages :=
            List.filter (ConversationService.of_conversation (Conv.id c))
              (ai_messages (ChatController.db w)) in
          Dashboard.message_count (Dashboard.conv chat) = List.length messages
          /\ match Dashboard.last_message_at (Dashboard.conv chat) with
             | None => messages = []
             | Some t =>
                 In t (List.map Msg.created_at messages)
                 /\ Forall (fun m => Msg.created_at m <= t) messages
             end
          /\ match Dashboard.handoffRequest chat with
             | None => handoffs_in (Conv.id c) Pending w = []
             | Some h =>
                 In h (ai_handoff_requests (ChatController.db w))
                 /\ Handoff.conversation_id h = Conv.id c
                 /\ Handoff.status h = Pending
                 /\ forall h', In h' (ai_handoff_requests (ChatController.db w)) ->
                      Handoff.conversation_id h' = Conv.id c ->
                      Handoff.status h' = Pending ->
                      Handoff.created_at h' <= Handoff.created_at h
             end)
    /\ (forall i j a b,
          (i < j)%nat -> chats !! i = Some a -> chats !! j = Some b ->
          match Dashboard.last_message_at (Dashboard.conv a),
                Dashboard.last_message_at (Dashboard.conv b) with
          | None, _ => True
          | Some _, None => False
          | Some x, Some y => y <= x
          end)
    /\ (forall sessionId chats' n,
          fst (Dashboard.getActiveChats (snd (ChatController.closeSession sessionId w)))
          = Dashboard.ActiveChats chats' n ->
          forall chat, In chat chats' ->
            Conv.session_id (Dashboard.conversation (Dashboard.conv chat)) <> sessionId).
Proof.
  eexists. split; [reflexivity|]. split; [|split; [|split]].
  - rewrite List.map_map. cbn [Dashboard.conv].
    transitivity (List.map Dashboard.conversation
                    (List.map (Dashboard.with_counts (ChatController.db w))
                       (List.filter Dashboard.active
                          (ai_conversations (ChatController.db w))))).
    { apply Permutation_map. apply order_by_permutation. }
    rewrite List.map_map. cbn [Dashboard.with_counts Dashboard.conversation].
    rewrite List.map_id.
    erewrite List.filter_ext; [reflexivity|].
    intros c. unfold Dashboard.active. destruct (Conv.status c); reflexivity.
  - intros chat Hin.
    destruct (in_active_chats w chat _ _ eq_refl Hin) as (c & Hc & Hact & Hconv & Hreq).
    rewrite Hconv, Hreq. cbn [Dashboard.with_counts Dashboard.conversation
                                Dashboard.message_count Dashboard.last_message_at].
    split; [reflexivity|]. split.
    + pose proof (maximum_spec
                    (List.map Msg.created_at
                       (List.filter (ConversationService.of_conversation (Conv.id c))
                          (ai_messages (ChatController.db w))))) as Hmax.
      destruct (Dashboard.maximum _) as [t|].
      * destruct Hmax as [Ht Hall]. split; [exact Ht|].
        rewrite List.Forall_forall in Hall. apply List.Forall_forall.
        intros m Hm. apply Hall. apply List.in_map. exact Hm.
      * apply List.map_eq_nil in Hmax. exact Hmax.
    + pose proof (latest_pending_spec (Conv.id c) (ChatController.db w)) as Hl.
      destruct (Dashboard.latest_pending _ _) as [h|].
      * destruct Hl as (Hh & Hp & Hnew).
        unfold HandoffController.handoff_in in Hp.
        apply andb_true_iff in Hp as [Hid Hst]. apply Nat.eqb_eq in Hid.
        repeat split; auto.
        { destruct (Handoff.status h); try discriminate; reflexivity. }
        intros h' Hh' Hid' Hst'. apply Hnew; [exact Hh'|].
        unfold HandoffController.handoff_in. rewrite Hid', Hst', Nat.eqb_refl. reflexivity.
      * unfold handoffs_in. rewrite Hl. reflexivity.
  - intros i j a b Hij Ha Hb.
    rewrite list_lookup_fmap in Ha, Hb.
    destruct (Dashboard.getActiveConversations (ChatController.db w) !! i) as [ca|] eqn:Ea;
      [|discriminate].
    destruct (Dashboard.getActiveConversations (ChatController.db w) !! j) as [cb|] eqn:Eb;
      [|discriminate].
    injection Ha as <-. injection Hb as <-. cbn [Dashboard.conv].
    pose proof (sorted_lookup _ _
                  (order_by_sorted Dashboard.later later_total later_transitive _)
                  i j ca cb Hij Ea Eb) as Hl.
    unfold Dashboard.later in Hl.
    destruct (Dashboard.last_message_at ca), (Dashboard.last_message_at cb);
      auto; try discriminate.
    apply Z.leb_le. exact Hl.
  - intros sessionId chats' n E chat Hin.
    destruct (in_active_chats _ chat _ _ E Hin) as (c & Hc & Hact & Hconv & _).
    rewrite Hconv. cbn [Dashboard.with_counts Dashboard.conversation].
    rewrite closeSession_store in Hc. unfold sql_update in Hc.
    apply List.in_map_iff in Hc as (r & <- & _).
    unfold ConversationService.by_session in *.
    destruct (String.eqb_spec (Conv.session_id r) sessionId) as [|Hne];
      [discriminate Hact | exact Hne].
Qed.

Section StaffMessages.

Lemma sendStaffMessage_run sessionId message staffId conversation (w : world) :
  ConversationService.getConversation sessionId (ChatController.db w) = Some conversation ->
  staffId <> 0 ->
  Conv.staff_id conversation = Some staffId ->
  Conv.status conversation = StaffTaken ->
  Dashboard.sendStaffMessage sessionId message (Some staffId) w
  = (Dashboard.Sent
       (message_row (ChatController.clock w) (Conv.id conversation) Staff message
          [("staffId", JNum staffId)] (ChatController.db w))
       (ChatController.clock w),
     ChatController.set_db
       (with_message (ChatController.clock w) (Conv.id conversation) Staff message
          [("staffId", JNum staffId)] (ChatController.db w)) w).
Proof.
  intros Hc Hs Ho Ht.
  unfold Dashboard.sendStaffMessage, HandoffController.missing.
  destruct (Z.eqb_spec staffId 0) as [|_]; [contradiction|].
  unfold Dashboard.sendStaffMessage_try, Async.bind, ChatController.query, Async.gets,
    Async.ret. simpl.
  rewrite Hc, Ho, Ht. rewrite bool_decide_eq_true_2 by reflexivity. simpl.
  rewrite addMessage_known by exact (conversation_known _ _ _ Hc).
  reflexivity.
Qed.

Lemma sendStaffMessage_refused sessionId message staffId conversation (w : world) :
  ConversationService.getConversation sessionId (ChatController.db w) = Some conversation ->
  staffId <> 0 ->
  Conv.staff_id conversation <> Some staffId \/ Conv.status conversation <> StaffTaken ->
  Dashboard.sendStaffMessage sessionId message (Some staffId) w
  = (Dashboard.Failure 403 "FORBIDDEN" "You must take over the conversation first", w).
Proof.
  intros Hc Hs Hno.
  unfold Dashboard.sendStaffMessage, HandoffController.missing.
  destruct (Z.eqb_spec staffId 0) as [|_]; [contradiction|].
  unfold Dashboard.sendStaffMessage_try, Async.bind, ChatController.query, Async.gets,
    Async.ret. simpl.
  rewrite Hc.
  assert (E : (negb (bool_decide (Conv.staff_id conversation = Some staffId))
               || negb (conv_status_eqb (Conv.status conversation) StaffTaken))%bool = true).
  { destruct Hno as [H|H].
    - rewrite bool_decide_eq_false_2 by exact H. reflexivity.
    - destruct (Conv.status conversation); try contradiction; apply orb_true_r. }
  rewrite E. destruct w; reflexivity.
Qed.

End StaffMessages.

(** A staff member writes into a conversation only while holding it.  After
    a takeover by a staff member, [sendStaffMessage] of that member stores
    one message of role staff with the given text and changes nothing else
    but the time of the conversation's last update; the same call by anyone
    else, by the same member before the takeover of a conversation nobody
    holds, or after the release, is answered 403 FORBIDDEN and changes
    nothing. *)
Theorem staff_writes_only_while_holding (sessionId message : string) (staffId : Z)
    (conversation : Conv.t) (w : world) :
  ConversationService.getConversation sessionId (ChatController.db w) = Some conversation ->
  staffId <> 0 ->
  let refused (w : world) :=
    (Dashboard.Failure 403 "FORBIDDEN" "You must take over the conversation first", w) in
  let taken := snd (HandoffController.takeoverChat sessionId (Some staffId) w) in
  let released := snd (HandoffController.releaseChat sessionId (Some staffId) taken) in
  let out := Dashboard.sendStaffMessage sessionId message (Some staffId) taken in
  (Conv.status conversation <> StaffTaken ->
   Dashboard.sendStaffMessage sessionId message (Some staffId) w = refused w)
  /\ (exists saved,
        fst out = Dashboard.Sent saved (ChatController.clock taken)
        /\ Msg.role saved = Staff /\ Msg.content saved = message
        /\ Msg.conversation_id saved = Conv.id conversation)
  /\ added taken (snd out) [(Staff, message)]
  /\ conversation_is sessionId StaffTaken (Some staffId) (Conv.closed_at conversation)
       (snd out)
  /\ ai_handoff_requests (ChatController.db (snd out))
     = ai_handoff_requests (ChatController.db taken)
  /\ ChatController.engineLog (snd out) = ChatController.engineLog w
  /\ (forall other, other <> 0 -> other <> staffId ->
        Dashboard.sendStaffMessage sessionId message (Some other) taken = refused taken)
  /\ Dashboard.sendStaffMessage sessionId message (Some staffId) released = refused released.
Proof.
  intros Hc Hs refused taken released out.
  assert (Ht : ConversationService.getConversation sessionId (ChatController.db taken)
               = Some (ConversationService.set_status (ChatController.clock w) StaffTaken
                         (Some staffId) conversation)).
  { subst taken. rewrite (takeoverChat_run _ _ _ _ Hc Hs). simpl.
    apply conversation_after_status. exact Hc. }
  assert (Hr : ConversationService.getConversation sessionId (ChatController.db released)
               = Some (ConversationService.set_status (ChatController.clock taken) AiActive
                         None
                         (ConversationService.set_status (ChatController.clock w) StaffTaken
                            (Some staffId) conversation))).
  { subst released. erewrite releaseChat_run; [|exact Ht | exact Hs | reflexivity].
    simpl. apply conversation_after_status. exact Ht. }
  split; [|split; [|split; [|split; [|split; [|split; [|split]]]]]].
  - intros Hst. eapply sendStaffMessage_refused; eauto.
  - subst out. erewrite sendStaffMessage_run; [|exact Ht | exact Hs | reflexivity..].
    eexists. split; [reflexivity|]. simpl. auto.
  - subst out. erewrite sendStaffMessage_run; [|exact Ht | exact Hs | reflexivity..].
    unfold added. simpl. apply contents_with_message.
  - subst out. erewrite sendStaffMessage_run; [|exact Ht | exact Hs | reflexivity..].
    unfold conversation_is, ConversationService.getConversation. simpl.
    rewrite find_sql_update by reflexivity.
    unfold ConversationService.getConversation in Ht. rewrite Ht. simpl.
    eexists. split; [reflexivity|].
    destruct (ConversationService.by_id _ _); simpl; auto.
  - subst out. erewrite sendStaffMessage_run; [|exact Ht | exact Hs | reflexivity..].
    reflexivity.
  - subst out. erewrite sendStaffMessage_run; [|exact Ht | exact Hs | reflexivity..].
    subst taken. rewrite (takeoverChat_run _ _ _ _ Hc Hs). reflexivity.
  - intros other Ho Hne. eapply sendStaffMessage_refused; [exact Ht | exact Ho|].
    left. simpl. congruence.
  - eapply sendStaffMessage_refused; [exact Hr | exact Hs|].
    left. simpl. discriminate.
Qed.

Lemma staff_writes_only_while_holding_witness :
  let taken := snd (HandoffController.takeoverChat Scenario.sid (Some 7) Scenario.w) in
  let out := Dashboard.sendStaffMessage Scenario.sid "Please come in today." (Some 7) taken in
  Dashboard.sendStaffMessage Scenario.sid "Please come in today." (Some 7) Scenario.w
  = (Dashboard.Failure 403 "FORBIDDEN" "You must take over the conversation first", Scenario.w)
  /\ added taken (snd out) [(Staff, "Please come in today.")]
  /\ Dashboard.sendStaffMessage Scenario.sid "Please come in today." (Some 8) taken
     = (Dashboard.Failure 403 "FORBIDDEN" "You must take over the conversation first", taken).
Proof.
  intros taken out.
  pose proof (staff_writes_only_while_holding Scenario.sid "Please come in today." 7
                Scenario.conversation Scenario.w eq_refl) as H.
  destruct H as (H1 & _ & H3 & _ & _ & _ & H7 & _); [discriminate|].
  split; [apply H1; discriminate|]. split; [exact H3|].
  apply H7; discriminate.
Defined.

Lemma handoff_queue_is_ordered_witness :
  let asked :=
    snd (ChatController.createHandoffRequest 1 "Patient asked for staff" Normal Scenario.w) in
  let w := snd (ChatController.createHandoffRequest 1 "Emergency detected" Emergency asked) in
  exists a b,
    fst (Dashboard.getPendingHandoffs w) = Dashboard.PendingHandoffs [a; b] 2
    /\ Handoff.priority (Dashboard.request a) = Emergency
    /\ Handoff.priority (Dashboard.request b) = Normal
    /\ Dashboard.session_id a = Scenario.sid
    /\ Dashboard.messages a = 1%nat.
Proof.
  intros asked w.
  destruct (handoff_queue_is_ordered w) as (rows & E & _ & Hrow & _ & _).
  assert (Hrows : exists a b, rows = [a; b]
                              /\ Handoff.priority (Dashboard.request a) = Emergency
                              /\ Handoff.priority (Dashboard.request b) = Normal).
  { vm_compute in E. injection E as <-. eexists _, _. repeat split. }
  destruct Hrows as (a & b & -> & Ha & Hb).
  exists a, b. rewrite E. split; [reflexivity|]. split; [exact Ha|]. split; [exact Hb|].
  destruct (Hrow a (or_introl eq_refl)) as (c & Hc & Hsid & _ & _ & Hm).
  vm_compute in E. injection E as <- _. vm_compute in Hc. injection Hc as <-.
  split; [exact Hsid | exact Hm].
Defined.

Lemma closed_conversations_leave_the_dashboard_witness :
  (exists chat,
     fst (Dashboard.getActiveChats Scenario.w) = Dashboard.ActiveChats [chat] 1
     /\ Conv.session_id (Dashboard.conversation (Dashboard.conv chat)) = Scenario.sid
     /\ Dashboard.message_count (Dashboard.conv chat) = 1%nat
     /\ Dashboard.handoffRequest chat = None)
  /\ fst (Dashboard.getActiveChats (snd (ChatController.closeSession Scenario.sid Scenario.w)))
     = Dashboard.ActiveChats [] 0.
Proof.
  destruct (closed_conversations_leave_the_dashboard Scenario.w)
    as (chats & E & _ & _ & _ & _).
  split.
  - vm_compute in E. injection E as <-. eexists. repeat split.
  - destruct (fst (Dashboard.getActiveChats
                     (snd (ChatController.closeSession Scenario.sid Scenario.w))))
      as [chats' n| | | |] eqn:E'; try (vm_compute in E'; discriminate E').
    destruct chats' as [|chat chats'].
    + vm_compute in E'. symmetry. exact E'.
    + vm_compute in E'. discriminate E'.
Defined.

(** ** History *)

Section History.

Lemma set_db_same (w : world) : ChatController.set_db (ChatController.db w) w = w.
Proof. destruct w; reflexivity. Qed.

Lemma sql_insert_insert_by {A} (before : A -> A -> bool) (x : A) (rows : list A) :
  sql_insert before x rows = Dashboard.insert_by before x rows.
Proof. induction rows as [|y rows IH]; simpl; [reflexivity|]. now rewrite IH. Qed.

Lemma sql_order_by_order_by {A} (before : A -> A -> bool) (rows : list A) :
  sql_order_by before rows = Dashboard.order_by before rows.
Proof.
  induction rows as [|x rows IH]; [reflexivity|].
  change (sql_order_by before (x :: rows))
    with (sql_insert before x (sql_order_by before rows)).
  rewrite IH, sql_insert_insert_by. reflexivity.
Qed.

Lemma created_asc_total (a b : Msg.t) :
  ConversationService.created_asc a b = true \/ ConversationService.created_asc b a = true.
Proof.
  unfold ConversationService.created_asc.
  destruct (Z.leb_spec (Msg.created_at a) (Msg.created_at b)); [now left|].
  right. apply Z.leb_le. lia.
Qed.

Lemma created_asc_transitive (a b c : Msg.t) :
  ConversationService.created_asc a b = true ->
  ConversationService.created_asc b c = true ->
  ConversationService.created_asc a c = true.
Proof. unfold ConversationService.created_asc. rewrite !Z.leb_le. lia. Qed.

Lemma sorted_weaken {A} (R R' : A -> A -> Prop) (rows : list A) :
  (forall a b, R a b -> R' a b) -> StronglySorted R rows -> StronglySorted R' rows.
Proof.
  intros H. induction 1 as [|x rows Hs IH Hx]; constructor; [exact IH|].
  eapply List.Forall_impl; [|exact Hx]. intros b. apply H.
Qed.

Lemma sql_order_by_asc_sorted (rows : list Msg.t) :
  StronglySorted (fun a b => Msg.created_at a <= Msg.created_at b)
    (sql_order_by ConversationService.created_asc rows).
Proof.
  rewrite sql_order_by_order_by.
  eapply sorted_weaken;
    [|apply (order_by_sorted _ created_asc_total created_asc_transitive)].
  intros a b H. apply Z.leb_le. exact H.
Qed.

(** A row stamped no earlier than every row of the table comes last. *)
Lemma sql_insert_asc_before (x y : Msg.t) (rows : list Msg.t) :
  Msg.created_at x <= Msg.created_at y ->
  sql_insert ConversationService.created_asc x (rows ++ [y])
  = (sql_insert ConversationService.created_asc x rows ++ [y])%list.
Proof.
  intros H. induction rows as [|z rows IH]; simpl.
  - unfold ConversationService.created_asc. now rewrite (proj2 (Z.leb_le _ _) H).
  - destruct (ConversationService.created_asc x z); [reflexivity|]. now rewrite IH.
Qed.

Lemma sql_order_by_asc_snoc (rows : list Msg.t) (y : Msg.t) :
  Forall (fun m => Msg.created_at m <= Msg.created_at y) rows ->
  sql_order_by ConversationService.created_asc (rows ++ [y])
  = (sql_order_by ConversationService.created_asc rows ++ [y])%list.
Proof.
  induction 1 as [|x rows Hx _ IH]; [reflexivity|].
  change (sql_order_by ConversationService.created_asc ((x :: rows) ++ [y]))
    with (sql_insert ConversationService.created_asc x
            (sql_order_by ConversationService.created_asc (rows ++ [y]))).
  rewrite IH, sql_insert_asc_before by exact Hx. reflexivity.
Qed.

Lemma getHistory_run sessionId conversation limit d :
  ConversationService.getConversation sessionId d = Some conversation ->
  ConversationService.getHistory sessionId limit d
  = (inr (List.firstn limit
            (sql_order_by ConversationService.created_asc
               (List.filter (ConversationService.of_conversation (Conv.id conversation))
                  (ai_messages d)))), d).
Proof. intros H. unfold ConversationService.getHistory. rewrite H. reflexivity. Qed.

Lemma oldest_firstn (limit : nat) (messages : list Msg.t) :
  oldest limit messages
    (List.firstn limit (sql_order_by ConversationService.created_asc messages)).
Proof.
  set (sorted := sql_order_by ConversationService.created_asc messages).
  assert (Hperm : Permutation sorted messages).
  { subst sorted. rewrite sql_order_by_order_by. apply order_by_permutation. }
  pose proof (sql_order_by_asc_sorted messages) as Hsorted. fold sorted in Hsorted.
  exists (List.skipn limit sorted). split; [|split; [|split]].
  - rewrite List.firstn_skipn. exact Hperm.
  - rewrite List.length_firstn, (Permutation_length Hperm). reflexivity.
  - intros i j a b Hij Ha Hb.
    assert (Hj : (j < limit)%nat).
    { apply lookup_lt_Some in Hb. rewrite length_take in Hb. lia. }
    rewrite lookup_take_lt in Ha by lia. rewrite lookup_take_lt in Hb by lia.
    exact (sorted_lookup _ _ Hsorted i j a b Hij Ha Hb).
  - intros a b Ha Hb.
    apply list_elem_of_In, list_elem_of_lookup_1 in Ha as [i Ha].
    apply list_elem_of_In, list_elem_of_lookup_1 in Hb as [j Hb].
    assert (Hi : (i < limit)%nat).
    { apply lookup_lt_Some in Ha. rewrite length_take in Ha. lia. }
    rewrite lookup_take_lt in Ha by lia. rewrite lookup_drop in Hb.
    apply (sorted_lookup _ _ Hsorted i (limit + j) a b); [lia | exact Ha | exact Hb].
Qed.

Lemma conversation_with_message sessionId conversation now cid r content md d :
  ConversationService.getConversation sessionId d = Some conversation ->
  exists c,
    ConversationService.getConversation sessionId (with_message now cid r content md d)
    = Some c
    /\ Conv.id c = Conv.id conversation.
Proof.
  intros H. unfold ConversationService.getConversation in *. simpl.
  rewrite find_sql_update by reflexivity. rewrite H. simpl.
  eexists. split; [reflexivity|]. destruct (ConversationService.by_id _ _); reflexivity.
Qed.

Lemma firstn_full {A} (n : nat) (l extra : list A) :
  (n <= List.length l)%nat -> List.firstn n (l ++ extra) = List.firstn n l.
Proof.
  intros H. rewrite List.firstn_app.
  replace (n - List.length l)%nat with 0%nat by lia.
  simpl. apply List.app_nil_r.
Qed.

End History.

(** [getHistory] answers with the fifty messages of the conversation that
    were stored first, by [created_at], oldest first, and [getTranscript]
    with the first thousand, for any staff member; neither changes anything.
    A message stored later than all messages of the conversation, once it
    has fifty, is not part of the history, whereas one stored so before that
    is its last entry. *)
Theorem history_shows_the_first_fifty (sessionId : string) (conversation : Conv.t)
    (w : world) :
  ConversationService.getConversation sessionId (ChatController.db w) = Some conversation ->
  let messages :=
    List.filter (ConversationService.of_conversation (Conv.id conversation))
      (ai_messages (ChatController.db w)) in
  let stored now r content md :=
    ChatController.set_db
      (snd (ConversationService.addMessage now (Conv.id conversation) r content md
              (ChatController.db w))) w in
  (exists history,
     ChatController.getHistory sessionId w
     = (ChatController.json
          (ChatController.HistoryBody sessionId history (List.length history)), w)
     /\ oldest 50 messages history)
  /\ (forall staffId, staffId <> 0 ->
        exists transcript,
          Dashboard.getTranscript sessionId (Some staffId) w
          = (Dashboard.Transcript sessionId transcript (List.length transcript), w)
          /\ oldest 1000 messages transcript)
  /\ (forall now r content md,
        Forall (fun m => Msg.created_at m < now) messages ->
        (50 <= List.length messages)%nat ->
        fst (ChatController.getHistory sessionId (stored now r content md))
        = fst (ChatController.getHistory sessionId w))
  /\ (forall now r content md history n,
        Forall (fun m => Msg.created_at m < now) messages ->
        (List.length messages < 50)%nat ->
        fst (ChatController.getHistory sessionId w)
        = ChatController.json (ChatController.HistoryBody sessionId history n) ->
        exists row,
          Msg.role row = r /\ Msg.content row = content /\ Msg.created_at row = now
          /\ fst (ChatController.getHistory sessionId (stored now r content md))
             = ChatController.json
                 (ChatController.HistoryBody sessionId (history ++ [row]) (S n))).
Proof.
  intros Hc messages stored.
  assert (Hrun : forall w' c,
            ConversationService.getConversation sessionId (ChatController.db w') = Some c ->
            ChatController.getHistory sessionId w'
            = (ChatController.json
                 (ChatController.HistoryBody sessionId
                    (List.firstn 50
                       (sql_order_by ConversationService.created_asc
                          (List.filter (ConversationService.of_conversation (Conv.id c))
                             (ai_messages (ChatController.db w')))))
                    (List.length
                       (List.firstn 50
                          (sql_order_by ConversationService.created_asc
                             (List.filter (ConversationService.of_conversation (Conv.id c))
                                (ai_messages (ChatController.db w'))))))), w')).
  { intros w' c H. unfold ChatController.getHistory, ChatController.query.
    rewrite (getHistory_run _ _ _ _ H), set_db_same. reflexivity. }
  assert (Hstored : forall now r content md,
            Forall (fun m => Msg.created_at m < now) messages ->
            exists c,
              ConversationService.getConversation sessionId
                (ChatController.db (stored now r content md)) = Some c
              /\ sql_order_by ConversationService.created_asc
                   (List.filter (ConversationService.of_conversation (Conv.id c))
                      (ai_messages (ChatController.db (stored now r content md))))
                 = (sql_order_by ConversationService.created_asc messages
                    ++ [message_row now (Conv.id conversation) r content md
                          (ChatController.db w)])%list).
  { intros now r content md Hnow. subst stored. cbv beta.
    rewrite addMessage_known by exact (conversation_known _ _ _ Hc).
    destruct (conversation_with_message sessionId conversation now (Conv.id conversation)
                r content md _ Hc) as (c & Hc' & Hid).
    exists c. split; [exact Hc'|]. simpl. rewrite Hid, List.filter_app. simpl.
    unfold ConversationService.of_conversation at 2. simpl. rewrite Nat.eqb_refl.
    fold messages. apply sql_order_by_asc_snoc.
    eapply List.Forall_impl; [|exact Hnow]. intros m Hm.
    cbv beta in Hm. unfold message_row. cbn [Msg.created_at]. lia. }
  assert (Hlen : List.length (sql_order_by ConversationService.created_asc messages)
                 = List.length messages).
  { apply Permutation_length. rewrite sql_order_by_order_by. apply order_by_permutation. }
  split; [|split; [|split]].
  - eexists. split; [exact (Hrun w conversation Hc) | apply oldest_firstn].
  - intros staffId Hs. unfold Dashboard.getTranscript, HandoffController.missing.
    destruct (Z.eqb_spec staffId 0) as [|_]; [contradiction|].
    unfold ChatController.query.
    rewrite (getHistory_run _ _ _ _ Hc), set_db_same.
    eexists. split; [reflexivity | apply oldest_firstn].
  - intros now r content md Hnow Hfull.
    destruct (Hstored now r content md Hnow) as (c & Hc' & Hm).
    rewrite (Hrun _ c Hc'), (Hrun w conversation Hc), Hm. simpl.
    fold messages. rewrite firstn_full by lia. reflexivity.
  - intros now r content md history n Hnow Hshort Hh.
    destruct (Hstored now r content md Hnow) as (c & Hc' & Hm).
    exists (message_row now (Conv.id conversation) r content md (ChatController.db w)).
    split; [reflexivity|]. split; [reflexivity|]. split; [reflexivity|].
    rewrite (Hrun w conversation Hc) in Hh. simpl in Hh. fold messages in Hh.
    rewrite List.firstn_all2 in Hh by lia. injection Hh as <- <-.
    rewrite (Hrun _ c Hc'), Hm. simpl.
    rewrite List.firstn_all2 by (rewrite List.length_app; simpl; lia).
    rewrite List.length_app. simpl. do 2 f_equal. lia.
Qed.

Lemma history_shows_the_first_fifty_witness :
  let busy :=
    Scenario.at_time 2000
      (Nat.iter 50
         (fun d => snd (ConversationService.addMessage 1500 1 User "And then?" [] d))
         Scenario.store) in
  let late :=
    ChatController.set_db
      (snd (ConversationService.addMessage 2000 1 Assistant "Rest and drink water." []
              (ChatController.db busy))) busy in
  (List.length (ai_messages (ChatController.db late)) = 52%nat
   /\ fst (ChatController.getHistory Scenario.sid late)
      = fst (ChatController.getHistory Scenario.sid busy))
  /\ (exists greeting,
        fst (ChatController.getHistory Scenario.sid Scenario.w)
        = ChatController.json (ChatController.HistoryBody Scenario.sid [greeting] 1)
        /\ Dashboard.getTranscript Scenario.sid (Some 7) Scenario.w
           = (Dashboard.Transcript Scenario.sid [greeting] 1, Scenario.w))
  /\ exists greeting reply,
       Msg.content reply = "Rest and drink water."
       /\ fst (ChatController.getHistory Scenario.sid
                 (ChatController.set_db
                    (snd (ConversationService.addMessage 2000 1 Assistant
                            "Rest and drink water." [] Scenario.store)) Scenario.w))
          = ChatController.json
              (ChatController.HistoryBody Scenario.sid [greeting; reply] 2).
Proof.
  intros busy late. split; [|split].
  - split; [vm_compute; reflexivity|].
    refine (proj1 (proj2 (proj2 (history_shows_the_first_fifty Scenario.sid
                                   (ConversationService.touch 1500 Scenario.conversation)
                                   busy _)))
              2000 Assistant "Rest and drink water." [] _ _).
    + vm_compute. reflexivity.
    + vm_compute. repeat constructor.
    + vm_compute. lia.
  - eexists. split; vm_compute; reflexivity.
  - destruct (proj2 (proj2 (proj2 (history_shows_the_first_fifty Scenario.sid
                                     Scenario.conversation Scenario.w eq_refl)))
                2000 Assistant "Rest and drink water." [] _ 1%nat
                ltac:(vm_compute; repeat constructor) ltac:(vm_compute; lia) eq_refl)
      as (row & _ & Hcontent & _ & Hh).
    eexists _, row. split; [exact Hcontent | exact Hh].
Defined.

(** ** New sessions *)

Section NewSessions.

Lemma find_none_existsb {A} (p : A -> bool) (rows : list A) :
  List.find p rows = None -> List.existsb p rows = false.
Proof.
  induction rows as [|r rows IH]; simpl; [reflexivity|].
  destruct (p r); [discriminate | exact IH].
Qed.

Lemma find_some_existsb {A} (p : A -> bool) (rows : list A) :
  List.find p rows <> None -> List.existsb p rows = true.
Proof.
  induction rows as [|r rows IH]; simpl; [congruence|].
  destruct (p r); [reflexivity | exact IH].
Qed.

Lemma find_app_none {A} (p : A -> bool) (rows : list A) (r : A) :
  List.find p rows = None -> List.find p (rows ++ [r]) = if p r then Some r else None.
Proof.
  induction rows as [|x rows IH]; simpl; [reflexivity|].
  destruct (p x); [discriminate | exact IH].
Qed.

Lemma find_app_other {A} (p : A -> bool) (rows : list A) (r : A) :
  p r = false -> List.find p (rows ++ [r]) = List.find p rows.
Proof.
  intros H. induction rows as [|x rows IH]; simpl; [rewrite H; reflexivity|].
  destruct (p x); [reflexivity | exact IH].
Qed.

Lemma filter_none {A} (p : A -> bool) (rows : list A) :
  Forall (fun r => p r = false) rows -> List.filter p rows = [].
Proof.
  induction 1 as [|r rows H _ IH]; simpl; [reflexivity|]. rewrite H. exact IH.
Qed.

Lemma sql_update_last {A} (p : A -> bool) (f : A -> A) (rows : list A) (r : A) :
  Forall (fun x => p x = false) rows ->
  sql_update p f (rows ++ [r]) = (rows ++ [if p r then f r else r])%list.
Proof.
  intros H. unfold sql_update. rewrite List.map_app. simpl. f_equal.
  induction H as [|x rows Hx _ IH]; simpl; [reflexivity|]. rewrite Hx, IH. reflexivity.
Qed.

End NewSessions.

(** A new session is a conversation of its own with exactly one message,
    the greeting, which is never part of the context sent to the model; it
    is within the limits, nobody holds it, and the other sessions are as
    they were.  A session token that is taken is refused by the store and
    nothing is stored. *)
Theorem new_session_starts_with_the_greeting (safetyMode : bool) (now : Z)
    (sessionId : string) (patientId : option Z) (d : database) :
  serial d ->
  let out := ConversationService.createSession safetyMode now sessionId patientId d in
  (ConversationService.getConversation sessionId d <> None ->
   out = (inl (Err.DatabaseError "violates unique constraint"), d))
  /\ (ConversationService.getConversation sessionId d = None ->
      exists session conversation greeting,
        fst out = inr session
        /\ ConversationService.sessionId session = sessionId
        /\ ConversationService.conversationId session = Conv.id conversation
        /\ ConversationService.getConversation sessionId (snd out) = Some conversation
        /\ Conv.status conversation = AiActive
        /\ Conv.staff_id conversation = None
        /\ Conv.patient_id conversation = patientId
        /\ Conv.created_at conversation = now
        /\ Conv.closed_at conversation = None
        /\ fst (ConversationService.getHistory sessionId 50 (snd out)) = inr [greeting]
        /\ Msg.role greeting = Assistant
        /\ Msg.content greeting = ConversationService.greeting safetyMode
        /\ fst (ConversationService.getContextMessages sessionId 10 (snd out)) = inr []
        /\ within_limits now sessionId (snd out)
        /\ (forall other, other <> sessionId ->
              ConversationService.getConversation other (snd out)
              = ConversationService.getConversation other d)
        /\ ai_handoff_requests (snd out) = ai_handoff_requests d).
Proof.
  intros [Hids Hrefs] out. subst out. split.
  - intros H. unfold ConversationService.createSession, Async.bind.
    unfold ConversationService.getConversation in H.
    rewrite (find_some_existsb _ _ H). reflexivity.
  - intros H. unfold ConversationService.getConversation in H.
    unfold ConversationService.createSession, Async.bind, Async.ret.
    rewrite (find_none_existsb _ _ H).
    set (row := {| Conv.id := next_id (ai_conversations d); Conv.session_id := sessionId;
                   Conv.patient_id := patientId; Conv.status := AiActive;
                   Conv.staff_id := None; Conv.created_at := now;
                   Conv.updated_at := now; Conv.closed_at := None |}).
    rewrite addMessage_known.
    2: { unfold known. simpl. rewrite List.existsb_app. simpl.
         unfold ConversationService.by_id at 2. simpl. rewrite Nat.eqb_refl.
         apply orb_true_r. }
    cbn [fst snd].
    assert (Hold : Forall (fun c => ConversationService.by_id (Conv.id row) c = false)
                     (ai_conversations d)).
    { eapply List.Forall_impl; [|exact Hids]. intros c Hc. cbv beta in Hc.
      unfold ConversationService.by_id, row, next_id. simpl.
      apply Nat.eqb_neq. lia. }
    assert (Hmsgs : List.filter (ConversationService.of_conversation (Conv.id row))
                      (ai_messages d) = []).
    { apply filter_none. eapply List.Forall_impl; [|exact Hrefs]. intros m Hm.
      cbv beta in Hm.
      unfold ConversationService.of_conversation, row, next_id. simpl.
      apply Nat.eqb_neq. lia. }
    assert (Hconvs : ai_conversations
                       (with_message now (Conv.id row) Assistant
                          (ConversationService.greeting safetyMode)
                          [("isGreeting", JBool true)]
                          (set_conversations (ai_conversations d ++ [row]) d))
                     = (ai_conversations d ++ [row])%list).
    { simpl. rewrite sql_update_last by exact Hold.
      unfold ConversationService.by_id. rewrite Nat.eqb_refl. reflexivity. }
    assert (Hfind : forall other,
              ConversationService.getConversation other
                (with_message now (Conv.id row) Assistant
                   (ConversationService.greeting safetyMode)
                   [("isGreeting", JBool true)]
                   (set_conversations (ai_conversations d ++ [row]) d))
              = List.find (ConversationService.by_session other) (ai_conversations d ++ [row])).
    { intros other. unfold ConversationService.getConversation. rewrite Hconvs. reflexivity. }
    assert (Hme : List.find (ConversationService.by_session sessionId)
                    (ai_conversations d ++ [row]) = Some row).
    { rewrite find_app_none by exact H.
      unfold ConversationService.by_session. simpl. rewrite String.eqb_refl. reflexivity. }
    eexists _, row, _. split; [reflexivity|]. cbn [ConversationService.sessionId
      ConversationService.conversationId].
    split; [reflexivity|]. split; [reflexivity|].
    split; [rewrite Hfind; exact Hme|].
    do 5 (split; [reflexivity|]).
    split.
    { unfold ConversationService.getHistory. rewrite Hfind, Hme. cbn [fst].
      rewrite messages_with_message, List.filter_app.
      change (ai_messages (set_conversations _ d)) with (ai_messages d).
      rewrite Hmsgs. simpl.
      unfold ConversationService.of_conversation at 1. simpl. rewrite Nat.eqb_refl.
      reflexivity. }
    split; [reflexivity|]. split; [reflexivity|].
    split.
    { unfold ConversationService.getContextMessages. rewrite Hfind, Hme. cbn [fst].
      rewrite messages_with_message, List.filter_app.
      change (ai_messages (set_conversations _ d)) with (ai_messages d).
      erewrite (filter_none _ (ai_messages d)).
      2: { eapply List.Forall_impl; [|exact Hrefs]. intros m Hm. cbv beta in Hm.
           unfold ConversationService.of_conversation, row, next_id. simpl.
           replace (Nat.eqb _ _) with false; [reflexivity|].
           symmetry. apply Nat.eqb_neq. lia. }
      simpl. unfold ConversationService.of_conversation at 1. simpl.
      rewrite Nat.eqb_refl. reflexivity. }
    split.
    { unfold within_limits, ConversationService.checkLimits. rewrite Hfind, Hme.
      rewrite messages_with_message, List.filter_app.
      change (ai_messages (set_conversations _ d)) with (ai_messages d).
      rewrite Hmsgs. simpl List.filter.
      unfold ConversationService.of_conversation at 1. simpl Msg.conversation_id.
      rewrite Nat.eqb_refl. simpl List.length. simpl Nat.leb.
      simpl Conv.created_at. rewrite Z.sub_diag. reflexivity. }
    split; [|reflexivity].
    intros other Hne. rewrite Hfind. apply find_app_other.
    unfold ConversationService.by_session. simpl. apply String.eqb_neq. congruence.
Qed.

Lemma new_session_starts_with_the_greeting_witness :
  (exists greeting,
     fst (ConversationService.getHistory Scenario.sid 50 Scenario.store) = inr [greeting]
     /\ Msg.content greeting = ConversationService.greeting true
     /\ fst (ConversationService.getContextMessages Scenario.sid 10 Scenario.store) = inr [])
  /\ ConversationService.createSession true 1500 Scenario.sid None Scenario.store
     = (inl (Err.DatabaseError "violates unique constraint"), Scenario.store).
Proof.
  assert (Hempty : serial Scenario.empty_store) by (split; constructor).
  assert (Hstore : serial Scenario.store) by (split; repeat constructor).
  split.
  - destruct (proj2 (new_session_starts_with_the_greeting true 1000 Scenario.sid None
                       Scenario.empty_store Hempty) eq_refl)
      as (session & conversation & greeting & _ & _ & _ & _ & _ & _ & _ & _ & _
          & Hh & _ & Hg & Hctx & _).
    exists greeting. auto.
  - apply (proj1 (new_session_starts_with_the_greeting true 1500 Scenario.sid None
                    Scenario.store Hstore)).
    discriminate.
Defined.

(** ** The prompt *)

Section Prompts.

Lemma formatPrompt_spoken (messages : list (role * string)) :
  forall prompt,
    List.fold_left
      (fun prompt msg =>
         match fst msg with
         | User => prompt ++ "User: " ++ snd msg ++ Prompt.newline ++ Prompt.newline
         | Assistant => prompt ++ "Assistant: " ++ snd msg ++ Prompt.newline ++ Prompt.newline
         | _ => prompt
         end)
      (List.filter (fun msg => match fst msg with User | Assistant => true | _ => false end)
         messages) prompt
    = List.fold_left
        (fun prompt msg =>
           match fst msg with
           | User => prompt ++ "User: " ++ snd msg ++ Prompt.newline ++ Prompt.newline
           | Assistant => prompt ++ "Assistant: " ++ snd msg ++ Prompt.newline ++ Prompt.newline
           | _ => prompt
           end)
        messages prompt.
Proof.
  induction messages as [|[r text] messages IH]; intros prompt; [reflexivity|].
  destruct r; simpl; apply IH.
Qed.

Lemma fold_dialogue (messages : list (role * string)) :
  forall prompt,
    List.fold_left
      (fun prompt msg =>
         match fst msg with
         | User => prompt ++ "User: " ++ snd msg ++ Prompt.newline ++ Prompt.newline
         | Assistant => prompt ++ "Assistant: " ++ snd msg ++ Prompt.newline ++ Prompt.newline
         | _ => prompt
         end)
      messages prompt
    = prompt ++ dialogue messages.
Proof.
  induction messages as [|[r text] messages IH]; intros prompt.
  - simpl. now rewrite append_empty_r.
  - cbn [List.fold_left fst snd]. unfold dialogue. cbn [List.map List.fold_right].
    fold (dialogue messages). unfold spoken. cbn [fst snd].
    destruct r; rewrite IH, ?append_assoc, ?append_empty_l; reflexivity.
Qed.

Lemma formatPrompt_dialogue (sysPrompt : string) (messages : list (role * string)) :
  Prompt.formatPrompt sysPrompt messages
  = match sysPrompt with
    | "" => ""
    | _ => sysPrompt ++ Prompt.newline ++ Prompt.newline
    end ++ dialogue messages ++ "Assistant: ".
Proof.
  unfold Prompt.formatPrompt. rewrite fold_dialogue, append_assoc.
  destruct sysPrompt; reflexivity.
Qed.

End Prompts.

(** The prompt is the system prompt followed by a blank line, when there is
    a system prompt, then the messages of the user and of the assistant in
    their order, each under its label and followed by a blank line, and the
    label of the assistant's next turn.  Messages of the staff and of the
    system are left out: the model is never shown what the staff wrote. *)
Theorem prompt_leaves_out_the_staff (sysPrompt : string) (messages : list (role * string)) :
  Prompt.formatPrompt sysPrompt messages
  = match sysPrompt with
    | "" => ""
    | _ => sysPrompt ++ Prompt.newline ++ Prompt.newline
    end ++ dialogue messages ++ "Assistant: "
  /\ Prompt.formatPrompt sysPrompt messages
     = Prompt.formatPrompt sysPrompt
         (List.filter (fun msg => match fst msg with User | Assistant => true | _ => false end)
            messages)
  /\ (exists body,
        Prompt.formatPrompt sysPrompt messages = body ++ "Assistant: "
        /\ (forall text,
              Prompt.formatPrompt sysPrompt (messages ++ [(User, text)])
              = (body ++ "User: " ++ text ++ Prompt.newline ++ Prompt.newline)
                ++ "Assistant: ")
        /\ (forall text,
              Prompt.formatPrompt sysPrompt (messages ++ [(Assistant, text)])
              = (body ++ "Assistant: " ++ text ++ Prompt.newline ++ Prompt.newline)
                ++ "Assistant: "))
  /\ (forall text,
        Prompt.formatPrompt sysPrompt (messages ++ [(Staff, text)])
        = Prompt.formatPrompt sysPrompt messages
        /\ Prompt.formatPrompt sysPrompt (messages ++ [(System, text)])
           = Prompt.formatPrompt sysPrompt messages)
  /\ Prompt.formatPrompt "" [] = "Assistant: ".
Proof.
  split; [apply formatPrompt_dialogue|].
  unfold Prompt.formatPrompt. split; [|split; [|split]].
  - rewrite formatPrompt_spoken. reflexivity.
  - eexists. split; [reflexivity|].
    split; intros text; rewrite List.fold_left_app; reflexivity.
  - intros text. split; rewrite List.fold_left_app; reflexivity.
  - reflexivity.
Qed.

(** ** From an emergency to the staff *)

Section EmergencyQueue.

#[local] Opaque ConversationService.addMessage ConversationService.getContextMessages
  ConversationService.checkLimits ConversationService.getConversation
  EmergencyDetector.detectEmergency EmergencyDetector.detectProhibitedTopic
  EmergencyDetector.validateResponse LlamaService.strip_control_tokens
  ChatController.deflection ChatController.createHandoffRequest.

Lemma emergency_turn_store sessionId message conversation (w : world) reply :
  ConversationService.getConversation sessionId (ChatController.db w) = Some conversation ->
  Conv.status conversation <> StaffTaken ->
  within_limits (ChatController.clock w) sessionId (ChatController.db w) ->
  matches_keyword SafetyRules.emergencyKeywords message ->
  let w' := snd (ChatController.sendMessage true (patient_request sessionId message) reply w) in
  ai_conversations (ChatController.db w')
  = sql_update (ConversationService.by_id (Conv.id conversation))
      (ConversationService.touch (ChatController.clock w))
      (sql_update (ConversationService.by_id (Conv.id conversation))
         (ConversationService.touch (ChatController.clock w))
         (ai_conversations (ChatController.db w)))
  /\ exists handoff,
       ai_handoff_requests (ChatController.db w')
       = (ai_handoff_requests (ChatController.db w) ++ [handoff])%list
       /\ Handoff.priority handoff = Emergency
       /\ Handoff.status handoff = Pending
       /\ Handoff.conversation_id handoff = Conv.id conversation.
Proof.
  intros Hc Hs Hl Hk w'. subst w'.
  destruct (within_limits_run _ _ _ Hl) as (l & El & Ex).
  unfold ChatController.sendMessage, ChatController.sendMessage_try.
  rewrite patient_request_sessionId, patient_request_message,
    patient_request_emergency, patient_request_prohibited.
  destruct w as [d now sessions ab n log]. simpl in *.
  unfold Async.bind, ChatController.query, Async.gets; simpl.
  rewrite Hc, (not_taken _ Hs); simpl. rewrite El, Ex; simpl.
  rewrite addMessage_known by (eapply conversation_known; eassumption); simpl.
  rewrite (detectEmergency_emergency _ Hk). simpl.
  pose proof (conversation_known _ _ _ Hc) as K.
  rewrite addMessage_known by (now apply known_with_message). simpl.
  rewrite createHandoffRequest_known by (simpl; now do 2 apply known_with_message). simpl.
  split; [reflexivity|]. eexists. repeat split.
Qed.

End EmergencyQueue.

Section Queue.

Lemma find_touched (p : Conv.t -> bool) (cid : nat) (now : Z) (rows : list Conv.t) c :
  (forall r, p (ConversationService.touch now r) = p r) ->
  List.find p rows = Some c ->
  exists c',
    List.find p (sql_update (ConversationService.by_id cid)
                   (ConversationService.touch now) rows) = Some c'
    /\ Conv.id c' = Conv.id c /\ Conv.session_id c' = Conv.session_id c
    /\ Conv.status c' = Conv.status c /\ Conv.staff_id c' = Conv.staff_id c.
Proof.
  intros Hp H. rewrite find_sql_update by exact Hp. rewrite H. simpl.
  eexists. split; [reflexivity|].
  destruct (ConversationService.by_id cid c); auto.
Qed.

Lemma in_pendingHandoffs (d : database) (hr : Handoff.t) (c : Conv.t) :
  In hr (ai_handoff_requests d) ->
  Handoff.status hr = Pending ->
  List.find (ConversationService.by_id (Handoff.conversation_id hr)) (ai_conversations d)
  = Some c ->
  exists row,
    In row (Dashboard.pendingHandoffs d)
    /\ Dashboard.request row = hr
    /\ Dashboard.session_id row = Conv.session_id c.
Proof.
  intros Hin Hst Hc.
  exists {| Dashboard.request := hr;
            Dashboard.session_id := Conv.session_id c;
            Dashboard.patient_id := Conv.patient_id c;
            Dashboard.conversation_started := Conv.created_at c;
            Dashboard.messages :=
              List.length
                (List.filter (ConversationService.of_conversation (Conv.id c))
                   (ai_messages d)) |}.
  split; [|split; reflexivity].
  - unfold Dashboard.pendingHandoffs.
    eapply Permutation_in; [symmetry; apply order_by_permutation|].
    apply List.in_flat_map. exists hr. split; [exact Hin|].
    unfold Dashboard.joined. rewrite Hst, Hc. left. reflexivity.
Qed.

End Queue.

(** A safety-mode turn whose message holds an emergency keyword puts the
    session into the queue of the staff: [getPendingHandoffs] then lists a
    request of priority emergency for the session, before every request of
    another priority, and a takeover of the session removes every request
    of its conversation from the queue. *)
Theorem emergency_turn_heads_the_queue (sessionId message : string)
    (conversation : Conv.t) (w : world) (reply : LlamaService.engine_reply) :
  ConversationService.getConversation sessionId (ChatController.db w) = Some conversation ->
  List.find (ConversationService.by_id (Conv.id conversation))
    (ai_conversations (ChatController.db w)) = Some conversation ->
  Conv.status conversation <> StaffTaken ->
  within_limits (ChatController.clock w) sessionId (ChatController.db w) ->
  matches_keyword SafetyRules.emergencyKeywords message ->
  let w' := snd (ChatController.sendMessage true (patient_request sessionId message) reply w) in
  (exists rows i row,
     fst (Dashboard.getPendingHandoffs w') = Dashboard.PendingHandoffs rows (List.length rows)
     /\ rows !! i = Some row
     /\ Dashboard.session_id row = sessionId
     /\ Handoff.conversation_id (Dashboard.request row) = Conv.id conversation
     /\ Handoff.priority (Dashboard.request row) = Emergency
     /\ forall j other,
          rows !! j = Some other ->
          Handoff.priority (Dashboard.request other) <> Emergency -> (i < j)%nat)
  /\ (forall staffId rows n,
        staffId <> 0 ->
        fst (Dashboard.getPendingHandoffs
               (snd (HandoffController.takeoverChat sessionId (Some staffId) w')))
        = Dashboard.PendingHandoffs rows n ->
        forall row, In row rows ->
          Handoff.conversation_id (Dashboard.request row) <> Conv.id conversation).
Proof.
  intros Hc Hkey Hs Hl Hk w'.
  destruct (emergency_turn_store sessionId message conversation w reply Hc Hs Hl Hk)
    as (Hconvs & handoff & Hhs & Hprio & Hst & Hcid).
  fold w' in Hconvs, Hhs.
  destruct (conversation_by_id _ _ _ Hc) as [_ Hsid].
  unfold ConversationService.by_session in Hsid. apply String.eqb_eq in Hsid.
  assert (Hkey' : exists c',
             List.find (ConversationService.by_id (Conv.id conversation))
               (ai_conversations (ChatController.db w')) = Some c'
             /\ Conv.session_id c' = sessionId).
  { rewrite Hconvs.
    destruct (find_touched (ConversationService.by_id (Conv.id conversation))
                (Conv.id conversation) (ChatController.clock w) _ _
                (fun _ => eq_refl) Hkey) as (c1 & H1 & _ & Hs1 & _).
    destruct (find_touched (ConversationService.by_id (Conv.id conversation))
                (Conv.id conversation) (ChatController.clock w) _ _
                (fun _ => eq_refl) H1) as (c2 & H2 & _ & Hs2 & _).
    exists c2. split; [exact H2 | congruence]. }
  assert (Hc' : exists c',
            ConversationService.getConversation sessionId (ChatController.db w') = Some c'
            /\ Conv.id c' = Conv.id conversation).
  { unfold ConversationService.getConversation in *. rewrite Hconvs.
    destruct (find_touched (ConversationService.by_session sessionId)
                (Conv.id conversation) (ChatController.clock w) _ _
                (fun _ => eq_refl) Hc) as (c1 & H1 & Hi1 & _).
    destruct (find_touched (ConversationService.by_session sessionId)
                (Conv.id conversation) (ChatController.clock w) _ _
                (fun _ => eq_refl) H1) as (c2 & H2 & Hi2 & _).
    exists c2. split; [exact H2 | congruence]. }
  split.
  - destruct Hkey' as (c' & Hfind & Hsid').
    destruct (in_pendingHandoffs (ChatController.db w') handoff c') as (row & Hin & Hreq & Hrs).
    { rewrite Hhs. apply List.in_or_app. right. left. reflexivity. }
    { exact Hst. }
    { rewrite Hcid. exact Hfind. }
    apply list_elem_of_In, list_elem_of_lookup_1 in Hin as [i Hi].
    exists (Dashboard.pendingHandoffs (ChatController.db w')), i, row.
    split; [reflexivity|]. split; [exact Hi|]. rewrite Hreq, Hrs.
    split; [exact Hsid'|]. split; [exact Hcid|]. split; [exact Hprio|].
    intros j other Hj Ho. eapply emergency_comes_first; eauto. congruence.
  - intros staffId rows n Hstaff E row Hin.
    destruct Hc' as (c' & Hget & Hid).
    rewrite (takeoverChat_run _ _ _ _ Hget Hstaff) in E.
    unfold Dashboard.getPendingHandoffs in E. simpl in E. injection E as <- _.
    unfold Dashboard.pendingHandoffs in Hin.
    eapply Permutation_in in Hin; [|apply order_by_permutation].
    apply List.in_flat_map in Hin as (hr & Hhr & Hrow).
    apply joined_pending in Hrow as [-> Hpending].
    simpl in Hhr.
    unfold sql_update in Hhr. apply List.in_map_iff in Hhr as (h & <- & _).
    rewrite Hid in *.
    destruct (HandoffController.handoff_in (Conv.id conversation) Pending h) eqn:Eh.
    + discriminate Hpending.
    + unfold HandoffController.handoff_in in Eh. rewrite Hpending in Eh.
      simpl in Eh. rewrite andb_true_r in Eh. apply Nat.eqb_neq in Eh. exact Eh.
Qed.

Lemma emergency_turn_heads_the_queue_witness :
  let w' := snd (ChatController.sendMessage true Scenario.chest_pain Scenario.rest_well_reply
                   Scenario.w) in
  (exists row,
     fst (Dashboard.getPendingHandoffs w') = Dashboard.PendingHandoffs [row] 1
     /\ Dashboard.session_id row = Scenario.sid
     /\ Handoff.priority (Dashboard.request row) = Emergency)
  /\ fst (Dashboard.getPendingHandoffs
            (snd (HandoffController.takeoverChat Scenario.sid (Some 7) w')))
     = Dashboard.PendingHandoffs [] 0.
Proof.
  intros w'.
  assert (Hk : matches_keyword SafetyRules.emergencyKeywords "I have chest pain").
  { exists "chest pain". split; [|reflexivity]. vm_compute. tauto. }
  destruct (emergency_turn_heads_the_queue Scenario.sid "I have chest pain"
              Scenario.conversation Scenario.w Scenario.rest_well_reply
              eq_refl eq_refl) as [(rows & i & row & E & Hi & Hsid & _ & Hp & _) Htake].
  { discriminate. }
  { vm_compute. reflexivity. }
  { exact Hk. }
  fold w' in E, Htake. split.
  - assert (Hrows : rows = [row]).
    { vm_compute in E. injection E as <-.
      destruct i as [|[|i]]; simpl in Hi; [|discriminate..].
      injection Hi as <-. reflexivity. }
    subst rows. exists row. auto.
  - vm_compute. reflexivity.
Defined.

(** ** The context window *)

Section ContextWindow.

(** A row stamped no earlier than every row of the table is the newest. *)
Lemma sql_insert_desc_after (x y : Msg.t) (rows : list Msg.t) :
  Msg.created_at x <= Msg.created_at y ->
  sql_insert ConversationService.created_desc x (y :: rows)
  = y :: sql_insert ConversationService.created_desc x rows.
Proof.
  intros H. simpl. unfold ConversationService.created_desc at 1.
  now rewrite (proj2 (Z.ltb_ge _ _) H).
Qed.

Lemma sql_order_by_desc_snoc (rows : list Msg.t) (y : Msg.t) :
  Forall (fun m => Msg.created_at m <= Msg.created_at y) rows ->
  sql_order_by ConversationService.created_desc (rows ++ [y])
  = y :: sql_order_by ConversationService.created_desc rows.
Proof.
  induction 1 as [|x rows Hx _ IH]; [reflexivity|].
  change (sql_order_by ConversationService.created_desc ((x :: rows) ++ [y]))
    with (sql_insert ConversationService.created_desc x
            (sql_order_by ConversationService.created_desc (rows ++ [y]))).
  rewrite IH, sql_insert_desc_after by exact Hx. reflexivity.
Qed.

End ContextWindow.

(** A message stored for a conversation later than all its messages is the
    last entry of the context that the next turn sends to the model,
    whatever its role, unless its metadata mark it as a greeting: before it
    come the entries that a window one shorter would have held.  A message
    marked as a greeting leaves the context as it was. *)
Theorem context_ends_with_the_newest (sessionId : string) (conversation : Conv.t)
    (now : Z) (r : role) (content : string) (md : metadata) (maxMessages : nat)
    (d : database) :
  ConversationService.getConversation sessionId d = Some conversation ->
  let d' := snd (ConversationService.addMessage now (Conv.id conversation) r content md d) in
  (md_get "isGreeting" md = None ->
   Forall (fun m => Msg.created_at m < now)
     (List.filter (ConversationService.of_conversation (Conv.id conversation))
        (ai_messages d)) ->
   exists earlier,
     fst (ConversationService.getContextMessages sessionId (S maxMessages) d')
     = inr (earlier ++ [(r, content)])%list
     /\ fst (ConversationService.getContextMessages sessionId maxMessages d) = inr earlier
     /\ (List.length earlier <= maxMessages)%nat)
  /\ (md_get "isGreeting" md <> None ->
      fst (ConversationService.getContextMessages sessionId maxMessages d')
      = fst (ConversationService.getContextMessages sessionId maxMessages d)).
Proof.
  intros Hc d'. subst d'.
  rewrite addMessage_known by exact (conversation_known _ _ _ Hc). cbn [snd].
  destruct (conversation_with_message sessionId conversation now (Conv.id conversation)
              r content md d Hc) as (c & Hc' & Hid).
  unfold ConversationService.getContextMessages. rewrite Hc', Hc, Hid. cbn [fst].
  rewrite messages_with_message, List.filter_app.
  assert (Hrow : (ConversationService.of_conversation (Conv.id conversation)
                    (message_row now (Conv.id conversation) r content md d)
                  && ConversationService.not_greeting
                       (message_row now (Conv.id conversation) r content md d))%bool
                 = match md_get "isGreeting" md with None => true | Some _ => false end).
  { unfold ConversationService.of_conversation, ConversationService.not_greeting.
    simpl. rewrite Nat.eqb_refl. reflexivity. }
  cbn [List.filter]. rewrite Hrow.
  split.
  - intros Hmd Hnow. rewrite Hmd.
    rewrite sql_order_by_desc_snoc.
    + cbn [List.firstn List.rev]. rewrite List.map_app.
      cbn [List.map message_row Msg.role Msg.content].
      eexists. split; [reflexivity|]. split; [reflexivity|].
      rewrite List.length_map, List.length_rev, List.length_firstn. lia.
    + apply List.Forall_forall. intros m Hm.
      apply List.filter_In in Hm as [Hin Hm]. apply andb_prop in Hm as [Hm _].
      rewrite List.Forall_forall in Hnow.
      assert (Hlt : Msg.created_at m < now)
        by (apply Hnow, List.filter_In; split; assumption).
      unfold message_row. cbn [Msg.created_at]. lia.
  - intros Hmd. destruct (md_get "isGreeting" md); [|congruence].
    rewrite List.app_nil_r. reflexivity.
Qed.

Lemma context_ends_with_the_newest_witness :
  let d' :=
    snd (ConversationService.addMessage 2000 1 Staff "Please come in today." []
           Scenario.store) in
  fst (ConversationService.getContextMessages Scenario.sid 10 d')
  = inr [(Staff, "Please come in today.")]
  /\ fst (ConversationService.getContextMessages Scenario.sid 10 Scenario.store) = inr [].
Proof.
  intros d'.
  destruct (proj1 (context_ends_with_the_newest Scenario.sid Scenario.conversation 2000
                     Staff "Please come in today." [] 9 Scenario.store eq_refl) eq_refl)
    as (earlier & H1 & H2 & _).
  { vm_compute. repeat constructor. }
  assert (earlier = []) as -> by (vm_compute in H2; congruence).
  split; [exact H1 | vm_compute; reflexivity].
Defined.

(** ** The generated text *)

Section GeneratedText.

Lemma remove_ci_from_subsequence (p : string) (s : string) :
  forall skip, subsequence (Js.remove_ci_from skip p s) s.
Proof.
  induction s as [|c s IH]; intros skip; simpl; [constructor|].
  destruct skip as [|k]; [|apply subsequence_drop, IH].
  match goal with |- context [if ?b then _ else _] => destruct b end.
  - apply subsequence_drop, IH.
  - apply subsequence_keep, IH.
Qed.

Lemma trimStart_subsequence (s : string) : subsequence (Js.trimStart s) s.
Proof.
  induction s as [|c s IH]; simpl; [constructor|].
  destruct (Js.is_space c); [apply subsequence_drop, IH | apply subsequence_refl].
Qed.

Lemma trimEnd_subsequence (s : string) : subsequence (Js.trimEnd s) s.
Proof.
  induction s as [|c s IH]; simpl; [constructor|].
  destruct (Js.trimEnd s) as [|d t].
  - destruct (Js.is_space c); [apply subsequence_drop, IH | apply subsequence_keep, IH].
  - apply subsequence_keep, IH.
Qed.

Lemma remove_ci_plain (p : string) (s : string) :
  Js.startsWith_ci "" p = false ->
  (forall c, is_lt c = false -> forall s', Js.startsWith_ci (String c s') p = false) ->
  all_chars (fun c => negb (is_lt c)) s = true ->
  Js.remove_ci p s = s.
Proof.
  intros _ Hp. unfold Js.remove_ci.
  induction s as [|c s IH]; [reflexivity|]. cbn [all_chars].
  intros [Hc Hs]%andb_true_iff. apply negb_true_iff in Hc.
  cbn [Js.remove_ci_from]. rewrite (Hp c Hc s). rewrite IH by exact Hs. reflexivity.
Qed.

Lemma token_needs_lt (p : string) (c : ascii) (s' : string) :
  is_lt c = false -> Js.startsWith_ci (String c s') (String "<" p) = false.
Proof. intros Hc. simpl. rewrite ci_lt, Hc. reflexivity. Qed.

Lemma trimStart_starts (s : string) :
  match Js.trimStart s with
  | String c _ => Js.is_space c = false
  | EmptyString => True
  end.
Proof.
  induction s as [|c s IH]; simpl; [exact I|].
  destruct (Js.is_space c) eqn:E; [exact IH | exact E].
Qed.

Lemma trimEnd_starts (s : string) :
  match s with
  | String c _ => Js.is_space c = false
  | EmptyString => True
  end ->
  match Js.trimEnd s with
  | String c _ => Js.is_space c = false
  | EmptyString => True
  end.
Proof.
  destruct s as [|c s]; simpl; [auto|]. intros Hc.
  destruct (Js.trimEnd s); [rewrite Hc|]; exact Hc.
Qed.

Lemma trimEnd_ends (s : string) :
  match last_char None (Js.trimEnd s) with
  | Some c => Js.is_space c = false
  | None => True
  end.
Proof.
  assert (H : forall prev,
            match last_char prev (Js.trimEnd s) with
            | Some c => Js.is_space c = false \/ (Js.trimEnd s = "" /\ prev = Some c)
            | None => True
            end).
  { induction s as [|c s IH]; intros prev; simpl.
    - destruct prev; auto.
    - destruct (Js.trimEnd s) as [|d t] eqn:Et.
      + destruct (Js.is_space c) eqn:Ec; simpl.
        * destruct prev; auto.
        * auto.
      + specialize (IH (Some c)). simpl in *.
        destruct (last_char (Some d) t); [|exact I].
        destruct IH as [IH|[IH _]]; [auto | discriminate]. }
  specialize (H None). destruct (last_char None (Js.trimEnd s)); [|exact I].
  destruct H as [H|[_ H]]; [exact H | discriminate].
Qed.

End GeneratedText.

(** The text of a blocking completion is only cut: what the service returns
    is the engine's text with some characters deleted, it neither starts nor
    ends with white space, and a text without [<] is returned trimmed and
    otherwise unchanged.  An empty text is an error; a text that the
    cleaning empties is not. *)
Theorem generated_text_is_only_cut (data_content : string) (tokens_predicted : Z)
    (latency : N) :
  let cleaned := LlamaService.strip_control_tokens data_content in
  let out :=
    LlamaService.generateResponse
      (LlamaService.Completion data_content tokens_predicted latency) in
  (data_content = "" -> out = inl (Err.Error "Invalid response from LLaMA server"))
  /\ (data_content <> "" ->
      out = inr {| LlamaService.content := cleaned;
                   LlamaService.tokens := tokens_predicted;
                   LlamaService.duration := Z.of_N latency;
                   LlamaService.model := "llama-3-8b-instruct" |})
  /\ subsequence cleaned data_content
  /\ match cleaned with
     | String c _ => Js.is_space c = false
     | EmptyString => True
     end
  /\ match last_char None cleaned with
     | Some c => Js.is_space c = false
     | None => True
     end
  /\ (all_chars (fun c => negb (is_lt c)) data_content = true ->
      cleaned = Js.trim data_content).
Proof.
  intros cleaned out. subst cleaned out.
  split; [intros ->; reflexivity|].
  split; [intros H; destruct data_content; [congruence | reflexivity]|].
  unfold LlamaService.strip_control_tokens, Js.trim.
  split; [|split; [|split]].
  - eapply subsequence_trans; [apply trimEnd_subsequence|].
    eapply subsequence_trans; [apply trimStart_subsequence|].
    unfold Js.remove_ci.
    repeat (eapply subsequence_trans; [apply remove_ci_from_subsequence|]).
    apply subsequence_refl.
  - apply trimEnd_starts, trimStart_starts.
  - apply trimEnd_ends.
  - intros H.
    rewrite (remove_ci_plain "<|assistant|>" data_content);
      [|reflexivity | intros c Hc s'; apply token_needs_lt; exact Hc | exact H].
    rewrite (remove_ci_plain "<|user|>" data_content);
      [|reflexivity | intros c Hc s'; apply token_needs_lt; exact Hc | exact H].
    rewrite (remove_ci_plain "<|system|>" data_content);
      [|reflexivity | intros c Hc s'; apply token_needs_lt; exact Hc | exact H].
    rewrite (remove_ci_plain "<|end|>" data_content);
      [|reflexivity | intros c Hc s'; apply token_needs_lt; exact Hc | exact H].
    reflexivity.
Qed.

Lemma generated_text_is_only_cut_witness :
  LlamaService.generateResponse
    (LlamaService.Completion "  Rest and drink water.<|end|> " 5 40)
  = inr {| LlamaService.content := "Rest and drink water.";
           LlamaService.tokens := 5; LlamaService.duration := 40;
           LlamaService.model := "llama-3-8b-instruct" |}
  /\ LlamaService.strip_control_tokens " Rest well. " = "Rest well."
  /\ LlamaService.generateResponse (LlamaService.Completion "<|end|>" 1 40)
     = inr {| LlamaService.content := "";
              LlamaService.tokens := 1; LlamaService.duration := 40;
              LlamaService.model := "llama-3-8b-instruct" |}.
Proof.
  split; [|split].
  - refine (proj1 (proj2 (generated_text_is_only_cut
                            "  Rest and drink water.<|end|> " 5 40)) _).
    discriminate.
  - refine (proj2 (proj2 (proj2 (proj2 (proj2 (generated_text_is_only_cut
                                                 " Rest well. " 0 0))))) _).
    reflexivity.
  - refine (proj1 (proj2 (generated_text_is_only_cut "<|end|>" 1 40)) _).
    discriminate.
Defined.
